(** * EDT timetable front-end: optimistic moves, conflict checks, virtual view

    A shallow embedding of the client-side logic of the EDT scheduling
    front-end:

    - [src/hooks/useSchedule.ts]      (module [UseSchedule])
    - [src/components/ScheduleGrid.tsx] (module [ScheduleGrid])
    - [components/VirtualScheduleGrid.tsx] (module [VirtualScheduleGrid])
    - [pages/Index.tsx]               (module [Index])
    - [pages/VirtualTimetable.tsx]    (module [VirtualTimetable])
    - [src/api/timetableApi.ts], [src/api/commandsApi.ts], [src/api/roomsApi.ts]
    - [components/RoomSelector.tsx]     (module [RoomSelector])
    - [src/components/ChooseRoomModal.tsx] (module [ChooseRoomModal])

    JavaScript strings are [string], numbers that index the grid are [Z],
    optional / nullish fields are [option], arrays are [list], the
    [Map<string, string[]>] of online fusions is a [gmap string (list string)].
    Asynchronous handlers are programs of a small free monad [Prog] whose
    calls are the React state setters, the toasts and the backend requests;
    [run] executes a program against a world (the React state, the state the
    grid on the main page was first rendered with, and a log of every call,
    in order) and a backend. *)

From Stdlib Require Import ZArith String Ascii Bool Lia.
From stdpp Require Import base option list gmap strings pretty.

Local Open Scope Z_scope.

(* ===================================================================== *)
(** * JavaScript helpers *)
(* ===================================================================== *)

Module JS.

(** [a === b] on strings. *)
Definition str_eq (a b : string) : bool := String.eqb a b.

(** [a === b] on the integers used as slot ids and versions. *)
Definition num_eq (a b : Z) : bool := Z.eqb a b.

(** [Array.prototype.find]: the first element satisfying [p]. *)
Fixpoint find {A} (p : A -> bool) (l : list A) : option A :=
  match l with
  | [] => None
  | x :: l' => if p x then Some x else find p l'
  end.

(** [Array.prototype.some]. *)
Fixpoint some {A} (p : A -> bool) (l : list A) : bool :=
  match l with
  | [] => false
  | x :: l' => p x || some p l'
  end.

(** [Array.prototype.includes] on an array of strings. *)
Definition includes (l : list string) (x : string) : bool :=
  some (str_eq x) l.

(** [a ?? b]. *)
Definition nullish {A} (a : option A) (b : A) : A :=
  match a with Some x => x | None => b end.

(** [a ?? b] when [b] may be nullish as well. *)
Definition nullish_opt {A} (a b : option A) : option A :=
  match a with Some x => Some x | None => b end.

(** [s || d] on a string that may be absent: the empty string is falsy. *)
Definition str_or (s : option string) (d : string) : string :=
  match s with
  | Some EmptyString | None => d
  | Some x => x
  end.

(** [String.prototype.toUpperCase], on the ASCII range: the letters
    [a]..[z] are mapped to [A]..[Z], every other byte is kept. *)
Definition upper_ascii (c : ascii) : ascii :=
  let n := nat_of_ascii c in
  if (Nat.leb 97 n && Nat.leb n 122)%bool then ascii_of_nat (n - 32) else c.

Fixpoint toUpperCase (s : string) : string :=
  match s with
  | EmptyString => EmptyString
  | String c s' => String (upper_ascii c) (toUpperCase s')
  end.

(** A JavaScript number obtained through [Number(...)]: an integer or [NaN]
    (the result of [Number(undefined)]). *)
Inductive number : Type :=
| Num (z : Z)
| NaN.

(** [Number(x)] on a value that is a number or [undefined]. *)
Definition Number (x : option Z) : number :=
  match x with Some z => Num z | None => NaN end.

(** [String(x)] on a value that is a string or [undefined]. *)
Definition String_ (x : option string) : string :=
  match x with Some s => s | None => "undefined" end.

(** [Array.prototype.every]. *)
Fixpoint every {A} (p : A -> bool) (l : list A) : bool :=
  match l with
  | [] => true
  | x :: l' => p x && every p l'
  end.

(** [[...new Set(l)]] on strings: a value is added when it is not in the
    set yet, and the set is read back in insertion order. *)
Definition unique (l : list string) : list string :=
  foldl (fun acc x => if includes acc x then acc else acc ++ [x]) [] l.

(** The white space that [trim] removes, on the ASCII range: TAB, LF, VT,
    FF, CR and the space. *)
Definition is_space (c : ascii) : bool :=
  let n := nat_of_ascii c in
  (Nat.leb 9 n && Nat.leb n 13) || Nat.eqb n 32.

Fixpoint trimStart (s : string) : string :=
  match s with
  | EmptyString => EmptyString
  | String c s' => if is_space c then trimStart s' else s
  end.

Fixpoint trimEnd (s : string) : string :=
  match s with
  | EmptyString => EmptyString
  | String c s' =>
      match trimEnd s' with
      | EmptyString => if is_space c then EmptyString else String c EmptyString
      | r => String c r
      end
  end.

(** [String.prototype.trim], on the ASCII range. *)
Definition trim (s : string) : string := trimEnd (trimStart s).

End JS.

(* ===================================================================== *)
(** * Data model ([src/types]) *)
(* ===================================================================== *)

(** Modelled from the spec: the declaration of [Session] ([@/types]) is not
    among the sources.  The fields are those of the specification's Session
    (identity, trainer, group, module, day, slot, room), under the names the
    handlers read them by. *)
Record Session : Type := mkSession {
  id : string;
  formateur : string;
  groupe : string;
  module : string;
  jour : string;
  creneau : Z;
  salle : string;
}.

(** Modelled from the spec: the declaration of [Cell] ([@/types]) is not
    among the sources either; a cell is a coordinate [{ day, slot }] of the
    grid, as [handleDrop] builds it. *)
Record Cell : Type := mkCell {
  day : string;
  slot : Z;
}.

(** [Partial<Session>], the [updates] argument of [updateSession]. *)
Record PartialSession : Type := mkPartial {
  p_id : option string;
  p_formateur : option string;
  p_groupe : option string;
  p_module : option string;
  p_jour : option string;
  p_creneau : option Z;
  p_salle : option string;
}.

(** The object literal [{ jour, creneau, salle }]. *)
Definition move_updates (j : string) (c : Z) (s : string) : PartialSession :=
  mkPartial None None None None (Some j) (Some c) (Some s).

(** [{ ...s, ...updates }]. *)
Definition spread_updates (s : Session) (u : PartialSession) : Session :=
  mkSession (JS.nullish (p_id u) (id s))
            (JS.nullish (p_formateur u) (formateur s))
            (JS.nullish (p_groupe u) (groupe s))
            (JS.nullish (p_module u) (module s))
            (JS.nullish (p_jour u) (jour s))
            (JS.nullish (p_creneau u) (creneau s))
            (JS.nullish (p_salle u) (salle s)).

(** [OnlineFusion] of the catalog ([api/catalogApi.ts]); [groupes] may be
    missing in the JSON, which the pages read as [f.groupes ?? []]. *)
Record OnlineFusion : Type := mkFusion {
  fusion_id : string;
  groupes : option (list string);
}.

(** An entry of [cfg.salles]: a bare room id, or an object with an [id] and
    a [type] (both read defensively by [isVirtualRoom]). *)
Inductive SalleEntry : Type :=
| SalleId (s : string)
| SalleObj (sid : option string) (stype : option string).

(** The [oldData] / [newData] payload of a change request.  A field is
    [None] when the key is missing or [null]; the coordinates are only ever
    read through [??], which does not tell the two apart. *)
Record RequestData : Type := mkData {
  d_jour : option string;
  d_creneau : option Z;
  d_salle : option string;
  d_motif : option string;
  d_formateur : option string;
  d_groupe : option string;
  d_module : option string;
}.

(** A change request as the reconciler reads it ([(r as any).field]). *)
Module ChangeRequest.
Record t : Type := mk {
  id : option string;
  requestId : option string;
  type : option string;
  sessionId : option string;
  oldData : option RequestData;
  newData : option RequestData;
}.
End ChangeRequest.

(** The [_virtualState] tag. *)
Inductive VirtualState : Type :=
| TO_DELETE
| INSERTED
| MOVED_AWAY
| PROPOSED_DESTINATION.

(** An entry of [base]: a copy of a session that may get tagged. *)
Record BaseSession : Type := mkBase {
  b_session : Session;
  _virtualState : option VirtualState;
  _virtualRequestId : option string;
}.

(** An entry of [extra]: a ghost.  The coordinates of a proposed destination
    went through [String(...)] and [Number(...)]; those of an insertion are
    the raw fields of [newData]. *)
Record GhostSession : Type := mkGhost {
  gh_id : string;
  gh_formateur : option string;
  gh_groupe : option string;
  gh_module : option string;
  gh_motif : option string;
  gh_jour : option string;
  gh_creneau : option JS.number;
  gh_salle : option string;
  gh_virtualState : VirtualState;
  gh_virtualRequestId : option string;
}.

(* ===================================================================== *)
(** * [src/api/timetableApi.ts] *)
(* ===================================================================== *)

Definition TEAMS_ROOM_ID : string := "TEAMS".

(** [isOnlineSession]: [(session?.salle ?? "").toUpperCase() === TEAMS_ROOM_ID]. *)
Definition isOnlineSession (session : Session) : bool :=
  JS.str_eq (JS.toUpperCase (salle session)) TEAMS_ROOM_ID.

(* ===================================================================== *)
(** * Page helpers shared by [Index.tsx] and [VirtualTimetable.tsx] *)
(* ===================================================================== *)

Module Page.

(** [fusionMap]: [forEach (f) => m.set(f.id, f.groupes ?? [])]; a later
    fusion with the same id overwrites an earlier one. *)
Definition fusionMap (onlineFusions : list OnlineFusion)
  : gmap string (list string) :=
  foldl (fun m f => <[fusion_id f := JS.nullish (groupes f) []]> m)
        ∅ onlineFusions.

(** [expandGroupIds]: the registered members when there is a fusion with
    at least one member, else the group itself. *)
Definition expandGroupIds (fm : gmap string (list string))
           (groupeId : string) : list string :=
  match fm !! groupeId with
  | Some (g :: kids) => g :: kids
  | _ => [groupeId]
  end.

(** The callback given to [salles.find] by [isVirtualRoom]. *)
Definition salle_matches (roomId : string) (s : SalleEntry) : bool :=
  match s with
  | SalleId x => JS.str_eq x roomId
  | SalleObj (Some x) _ => JS.str_eq x roomId
  | SalleObj None _ => false
  end.

(** [isVirtualRoom]: the room is an object entry of the configuration
    whose [type], upper-cased, is ["VIRTUEL"]. *)
Definition isVirtualRoom (salles : list SalleEntry) (roomId : string) : bool :=
  let type :=
    match JS.find (salle_matches roomId) salles with
    | Some (SalleObj _ t) => t
    | _ => None
    end in
  JS.str_eq (JS.toUpperCase (JS.nullish type "")) "VIRTUEL".

End Page.

(* ===================================================================== *)
(** * Pure part of [src/hooks/useSchedule.ts] *)
(* ===================================================================== *)

Module Pure.

(** [applyMoveLocal]. *)
Definition applyMoveLocal (sessions : list Session) (sessionId : string)
           (toJour : string) (toCreneau : Z) (toSalle : string)
  : list Session :=
  map (fun s =>
         if JS.str_eq (id s) sessionId
         then mkSession (id s) (formateur s) (groupe s) (module s)
                        toJour toCreneau toSalle
         else s)
      sessions.

(** [applyDeleteLocal]. *)
Definition applyDeleteLocal (sessions : list Session) (sessionId : string)
  : list Session :=
  filter (fun s => negb (JS.str_eq (id s) sessionId)) sessions.

Section Conflict.

(** [opts.expandGroupIds ?? ((g) => [g])] and
    [opts.isVirtualRoom ?? (() => false)], already resolved. *)
Variable expand : string -> list string.
Variable isVirtual : string -> bool.

(** The callback given to [sessions.find] by [hasConflict]. *)
Definition conflicts_with (session : Session) (targetCell : Cell)
           (s : Session) : bool :=
  if JS.str_eq (id s) (id session) then false
  else if negb (JS.str_eq (jour s) (day targetCell))
          || negb (JS.num_eq (creneau s) (slot targetCell)) then false
  else
    let sameRoom :=
      JS.str_eq (salle s) (salle session)
      && negb (isVirtual (salle session)) && negb (isVirtual (salle s)) in
    let sameTeacher := JS.str_eq (formateur s) (formateur session) in
    let groupsA := expand (groupe session) in
    let groupsB := expand (groupe s) in
    let sameGroup := JS.some (fun g => JS.includes groupsB g) groupsA in
    sameRoom || sameTeacher || sameGroup.

(** [hasConflict]: [sessions.find(...) || null]. *)
Definition hasConflict (sessions : list Session)
           (session : Session) (targetCell : Cell) : option Session :=
  JS.find (conflicts_with session targetCell) sessions.

End Conflict.

(** The defaults of [UseScheduleOptions]. *)
Definition default_expand (g : string) : list string := [g].
Definition default_isVirtual (_ : string) : bool := false.

End Pure.

(* ===================================================================== *)
(** * Wire types ([src/api/commandsApi.ts], [roomsApi.ts], [scheduleApi.ts]) *)
(* ===================================================================== *)

(** [CommandSuccess] (its [ok] field is the constant [true]). *)
Module CommandSuccess.
Record t : Type := mk {
  version : Z;
  sessions : list Session;
  warnings : list string;
}.
End CommandSuccess.

(** [CommandError], as found in [e.body] by a [catch]: parsed JSON, so every
    field may be missing. *)
Module CommandError.
Record t : Type := mk {
  ok : option bool;
  code : option string;
  message : option string;
  version : option Z;
  serverVersion : option Z;
}.
End CommandError.

(** The exception thrown by [http] / [httpOk]: an [Error] carrying the parsed
    body of the response when there is one. *)
Module JsError.
Record t : Type := mk {
  message : option string;
  body : option CommandError.t;
}.
End JsError.

(** The result of awaiting a promise. *)
Inductive outcome (A : Type) : Type :=
| Resolved (a : A)
| Rejected (e : JsError.t).
Arguments Resolved {A} a.
Arguments Rejected {A} e.

(** [TimetableScope] and [RoomsScope]. *)
Inductive Scope : Type := official | draft.

(** [TimetableCommand = MoveCommand | DeleteCommand]. *)
Inductive TimetableCommand : Type :=
| MOVE_SESSION (commandId : string) (expectedVersion : Z)
               (sessionId toJour : string) (toCreneau : Z) (toSalle : string)
| DELETE_SESSION (commandId : string) (expectedVersion : Z)
                 (sessionId : string).

(** [AvailableRoomsResponse]; the grids read [api.availableRooms ?? []]. *)
Record AvailableRoomsResponse : Type := mkRooms {
  availableRooms : option (list string);
  occupiedRooms : option (list string);
}.

(** A session as sent by the backend: [id] may be missing, [sessionId] is
    the fallback ([TimetableSession] of [types/domain.ts]). *)
Record RawSession : Type := mkRaw {
  raw_id : option string;
  raw_sessionId : string;
  raw_formateur : string;
  raw_groupe : string;
  raw_module : string;
  raw_jour : string;
  raw_creneau : Z;
  raw_salle : string;
}.

(** [TimetableDTO]. *)
Record TimetableDTO : Type := mkDTO {
  dto_version : option Z;
  dto_sessions : option (list RawSession);
}.

(** The argument of [toast(...)]. *)
Record Toast : Type := mkToast {
  title : string;
  description : string;
  variant : option string;
}.

(** The value returned by [moveSessionDnD] and [deleteSession]:
    [{ ok: true }] or [{ ok: false, error }]. *)
Inductive ActionResult : Type :=
| Ok
| Ko (error : string).

Definition result_ok (r : ActionResult) : bool :=
  match r with Ok => true | Ko _ => false end.

(* ===================================================================== *)
(** * Programs: the calls a handler makes, in order *)
(* ===================================================================== *)

(** One call made by a handler; the index is the type of what the call
    gives back to the handler. *)
Inductive Call : Type -> Type :=
(* state of [useSchedule] *)
| setSessions (l : list Session) : Call unit
| updateSessions (f : list Session -> list Session) : Call unit
| setVersion (v : Z) : Call unit
| setLoading (b : bool) : Call unit
| setError (e : option string) : Call unit
(* state of the grid component *)
| setDraggedSession (s : option Session) : Call unit
| setTargetCell (c : option Cell) : Call unit
| setConflictSession (s : option Session) : Call unit
| setAvailableRooms (l : list string) : Call unit
| setRoomSelectorOpen (b : bool) : Call unit
(* user interface *)
| toast (t : Toast) : Call unit
(* backend, all of them suspension points:
   [getTimetable]          GET  /api/timetable            (scheduleApi.ts)
   [sendTimetableCommand]  POST /api/timetable/commands[?scope=draft]
   [getAvailableRooms]     GET  /api/rooms/available?jour=&creneau=&scope= *)
| getTimetable : Call (outcome TimetableDTO)
| sendTimetableCommand (input : TimetableCommand) (scope : Scope)
  : Call (outcome CommandSuccess.t)
| getAvailableRooms (jour : string) (creneau : Z) (scope : Scope)
  : Call (outcome AvailableRoomsResponse)
(* [crypto.randomUUID()] *)
| randomUUID : Call string
(* the [updateSession] prop of a grid whose page is left abstract *)
| propUpdateSession (sessionId : string) (updates : PartialSession) : Call bool.

(** A handler: a finite tree of calls. *)
Inductive Prog (A : Type) : Type :=
| Ret (a : A)
| Vis {X : Type} (c : Call X) (k : X -> Prog A).
Arguments Ret {A} a.
Arguments Vis {A X} c k.

Fixpoint bind {A B} (p : Prog A) (f : A -> Prog B) : Prog B :=
  match p with
  | Ret a => f a
  | Vis c k => Vis c (fun x => bind (k x) f)
  end.

(** Performing one call; a call stands for the program that makes it. *)
Definition call {X} (c : Call X) : Prog X := Vis c Ret.
Coercion call : Call >-> Prog.

(** [const x = await m; k] and [m; k]. *)
Notation "'let*' x := m 'in' k" := (bind m (fun x => k))
  (at level 10, x name, m at level 100, k at level 200, only parsing).
Notation "m ;;; k" := (bind m (fun _ => k))
  (at level 100, k at level 200, right associativity, only parsing).

Definition when (b : bool) (p : Prog unit) : Prog unit :=
  if b then p else Ret tt.

(** The calls at which an async handler is suspended: the requests to the
    backend, and the call of an async prop. *)
Definition suspends {X} (c : Call X) : bool :=
  match c with
  | getTimetable | sendTimetableCommand _ _ | getAvailableRooms _ _ _
  | propUpdateSession _ _ => true
  | _ => false
  end.

(** [p(); q()] where [p] is an async handler that is called and not
    awaited: [p] runs up to its first suspension point, [q] runs then, and
    the rest of [p] runs once the awaited promise has settled.  A request is
    logged where it is issued, with the answer it will get. *)
Fixpoint then_meanwhile {A} (p : Prog A) (q : Prog unit) : Prog A :=
  match p with
  | Ret a => bind q (fun _ => Ret a)
  | Vis c k =>
      if suspends c then Vis c (fun x => bind q (fun _ => k x))
      else Vis c (fun x => then_meanwhile (k x) q)
  end.

(** An entry of the log: a call together with the answer it got. *)
Inductive Event : Type :=
| Ev {X : Type} (c : Call X) (x : X).

(** The calls that reach the backend. *)
Definition is_network (e : Event) : bool :=
  match e with
  | Ev getTimetable _
  | Ev (sendTimetableCommand _ _) _
  | Ev (getAvailableRooms _ _ _) _ => true
  | _ => false
  end.

(** The toasts shown, in order. *)
Definition toasts (l : list Event) : list Toast :=
  omap (fun e => match e with Ev (toast t) _ => Some t | _ => None end) l.

(** The commands sent, in order. *)
Definition commands (l : list Event) : list (TimetableCommand * Scope) :=
  omap (fun e => match e with
                 | Ev (sendTimetableCommand input scope) _ => Some (input, scope)
                 | _ => None
                 end) l.

(** The commands sent, each with the outcome of its promise. *)
Definition command_outcomes (l : list Event)
  : list (TimetableCommand * Scope * outcome CommandSuccess.t) :=
  omap (fun e =>
          match e with
          | Ev c x =>
              match c in Call X return X -> option _ with
              | sendTimetableCommand input scope =>
                  fun r => Some (input, scope, r)
              | _ => fun _ => None
              end x
          end) l.

(** The outcomes of the fetches of the whole timetable. *)
Definition refetches (l : list Event) : list (outcome TimetableDTO) :=
  omap (fun e =>
          match e with
          | Ev c x =>
              match c in Call X return X -> option _ with
              | getTimetable => fun r => Some r
              | _ => fun _ => None
              end x
          end) l.

(** The room queries made, each with the outcome of its promise. *)
Definition room_queries (l : list Event)
  : list (string * Z * Scope * outcome AvailableRoomsResponse) :=
  omap (fun e =>
          match e with
          | Ev c x =>
              match c in Call X return X -> option _ with
              | getAvailableRooms j cr scope => fun r => Some (j, cr, scope, r)
              | _ => fun _ => None
              end x
          end) l.

(** The calls of an [updateSession] prop left abstract, in order. *)
Definition prop_updates (l : list Event) : list (string * PartialSession) :=
  omap (fun e => match e with
                 | Ev (propUpdateSession sid u) _ => Some (sid, u)
                 | _ => None
                 end) l.

(** The state of the hook ([useState] cells of [useSchedule]). *)
Record HookState : Type := mkHook {
  h_sessions : list Session;
  h_version : Z;
  h_loading : bool;
  h_error : option string;
}.

(** The state of a grid component ([useState] cells of [ScheduleGrid] and
    of [VirtualScheduleGrid]). *)
Record GridState : Type := mkGrid {
  g_roomSelectorOpen : bool;
  g_availableRooms : list string;
  g_draggedSession : option Session;
  g_conflictSession : option Session;
  g_targetCell : option Cell;
}.

(** The state a grid starts in, the initial values of its [useState] cells:
    the prompt closed, the [rooms] prop as the rooms to offer, no session
    dragged, no conflict, no target cell. *)
Definition initial_grid (rooms : list string) : GridState :=
  mkGrid false rooms None None None.

(** Whether the main page shows its grid:
    [{error ? <div>...</div> : loading ? <div>...</div> : <ScheduleGrid ... />}]
    in [Index.tsx]; an empty error message is falsy. *)
Definition shown (h : HookState) : bool :=
  match h_error h with
  | Some (String _ _) => false
  | _ => negb (h_loading h)
  end.

(** The world a handler runs in.
    - [hook] is the state of [useSchedule] and [grid] the state of the grid on
      the page.
    - [rooms_prop] is the [rooms] prop the page gives its grid
      ([salleIdsPhysical]); no handler changes it.
    - [first_render] is the state of the hook that the first render of the
      grid on the page was given.  [ScheduleGrid] registers its drop targets
      with [useDrop(() => ({ ..., drop: (item) => handleDrop(item, day,
      slot.id) }))], a factory without a list of dependencies, which react-dnd
      evaluates once, at the first render of the component: a drop runs the
      [handleDrop] of that render, with the props of that render.
    - [log] holds every call made so far, the oldest first.
    On the virtual page, whose grid is always on the page and whose own state
    is behind the [updateSession] prop, only [grid] and [log] matter. *)
Record World : Type := mkWorld {
  hook : HookState;
  rooms_prop : list string;
  grid : GridState;
  first_render : HookState;
  log : list Event;
}.

(** The backend and the other sources of answers.  Every answer may depend
    on the whole history, so that a backend can be stateful. *)
Record Backend : Type := mkBackend {
  on_getTimetable : list Event -> outcome TimetableDTO;
  on_sendTimetableCommand :
    list Event -> TimetableCommand -> Scope -> outcome CommandSuccess.t;
  on_getAvailableRooms :
    list Event -> string -> Z -> Scope -> outcome AvailableRoomsResponse;
  on_randomUUID : list Event -> string;
  on_propUpdateSession : list Event -> string -> PartialSession -> bool;
}.

Definition with_hook (f : HookState -> HookState) (w : World) : World :=
  mkWorld (f (hook w)) (rooms_prop w) (grid w) (first_render w) (log w).

Definition with_grid (f : GridState -> GridState) (w : World) : World :=
  mkWorld (hook w) (rooms_prop w) (f (grid w)) (first_render w) (log w).

(** The main page rendered with the state [h] of the hook, after [loading]
    or [error] was set.  A grid that stays on the page keeps its state and
    its drop targets; a grid that leaves the page is unmounted and its state
    is lost; a grid that comes onto the page is a new one: it starts in its
    initial state and its first render is given [h]. *)
Definition rerender (h : HookState) (w : World) : World :=
  mkWorld h (rooms_prop w)
          (if Bool.eqb (shown (hook w)) (shown h) then grid w
           else initial_grid (rooms_prop w))
          (if negb (shown (hook w)) && shown h then h else first_render w)
          (log w).

(** The answer a call gets in a world. *)
Definition answer (B : Backend) {X} (c : Call X) (w : World) : X :=
  match c in Call X return X with
  | getTimetable => on_getTimetable B (log w)
  | sendTimetableCommand input scope =>
      on_sendTimetableCommand B (log w) input scope
  | getAvailableRooms j c scope => on_getAvailableRooms B (log w) j c scope
  | randomUUID => on_randomUUID B (log w)
  | propUpdateSession sid u => on_propUpdateSession B (log w) sid u
  | setSessions _ | updateSessions _ | setVersion _ | setLoading _
  | setError _ | setDraggedSession _ | setTargetCell _
  | setConflictSession _ | setAvailableRooms _ | setRoomSelectorOpen _
  | toast _ => tt
  end.

(** The effect of a call on the React state.  The sessions and the version
    do not decide what the page shows; [loading] and [error] do.  A setter of
    the grid acts on the grid of the page: the handlers of a grid call none
    after a call that can take their grid off the page. *)
Definition effect {X} (c : Call X) (w : World) : World :=
  match c with
  | setSessions l =>
      with_hook (fun h => mkHook l (h_version h) (h_loading h) (h_error h)) w
  | updateSessions f =>
      with_hook (fun h => mkHook (f (h_sessions h)) (h_version h)
                                 (h_loading h) (h_error h)) w
  | setVersion v =>
      with_hook (fun h => mkHook (h_sessions h) v (h_loading h) (h_error h)) w
  | setLoading b =>
      rerender (mkHook (h_sessions (hook w)) (h_version (hook w)) b
                       (h_error (hook w))) w
  | setError e =>
      rerender (mkHook (h_sessions (hook w)) (h_version (hook w))
                       (h_loading (hook w)) e) w
  | setDraggedSession s =>
      with_grid (fun g => mkGrid (g_roomSelectorOpen g) (g_availableRooms g)
                                 s (g_conflictSession g) (g_targetCell g)) w
  | setTargetCell c =>
      with_grid (fun g => mkGrid (g_roomSelectorOpen g) (g_availableRooms g)
                                 (g_draggedSession g) (g_conflictSession g) c) w
  | setConflictSession s =>
      with_grid (fun g => mkGrid (g_roomSelectorOpen g) (g_availableRooms g)
                                 (g_draggedSession g) s (g_targetCell g)) w
  | setAvailableRooms l =>
      with_grid (fun g => mkGrid (g_roomSelectorOpen g) l
                                 (g_draggedSession g) (g_conflictSession g)
                                 (g_targetCell g)) w
  | setRoomSelectorOpen b =>
      with_grid (fun g => mkGrid b (g_availableRooms g)
                                 (g_draggedSession g) (g_conflictSession g)
                                 (g_targetCell g)) w
  | toast _ | getTimetable | sendTimetableCommand _ _
  | getAvailableRooms _ _ _ | randomUUID | propUpdateSession _ _ => w
  end.

(** One call: it is answered, logged with its answer, and takes effect. *)
Definition handle (B : Backend) {X} (c : Call X) (w : World) : X * World :=
  let x := answer B c w in
  let w' := effect c w in
  (x, mkWorld (hook w') (rooms_prop w') (grid w') (first_render w')
              (log w ++ [Ev c x])).

(** Running a handler to completion. *)
Fixpoint run (B : Backend) {A} (p : Prog A) (w : World) : A * World :=
  match p with
  | Ret a => (a, w)
  | Vis c k => run B (k (answer B c w)) (snd (handle B c w))
  end.

(** What a run leaves behind, and what it returns. *)
Definition exec (B : Backend) {A} (p : Prog A) (w : World) : World :=
  snd (run B p w).

Definition result (B : Backend) {A} (p : Prog A) (w : World) : A :=
  fst (run B p w).

(** The calls made by a run, with their answers, the oldest first. *)
Fixpoint trace (B : Backend) {A} (p : Prog A) (w : World) : list Event :=
  match p with
  | Ret _ => []
  | Vis c k =>
      Ev c (answer B c w) :: trace B (k (answer B c w)) (snd (handle B c w))
  end.

(* ===================================================================== *)
(** * [src/hooks/useSchedule.ts] *)
(* ===================================================================== *)

Module UseSchedule.

(** [normalizeSessions]: [{ ...s, id: s.id ?? s.sessionId }]. *)
Definition normalizeSessions (raw : list RawSession) : list Session :=
  map (fun s => mkSession (JS.nullish (raw_id s) (raw_sessionId s))
                          (raw_formateur s) (raw_groupe s) (raw_module s)
                          (raw_jour s) (raw_creneau s) (raw_salle s))
      raw.

(** [newCommandId]. *)
Definition newCommandId : Prog string := call randomUUID.

(** [fetchData]. *)
Definition fetchData : Prog unit :=
  setLoading true ;;;
  setError None ;;;
  let* r := call getTimetable in
  match r with
  | Resolved tt_ =>
      let normalized := normalizeSessions (JS.nullish (dto_sessions tt_) []) in
      setSessions normalized ;;;
      match dto_version tt_ with
      | Some v => call (setVersion v)
      | None => Ret tt
      end
  | Rejected e =>
      call (setError (Some (JS.nullish (JsError.message e)
                                       "Failed to fetch schedule data")))
  end ;;;
  call (setLoading false).

(** The value [requestMoveWithRoomCheck] resolves to:
    [{ ok: false, mode: "error", error }], [{ ok: true, mode: "moved" }] or
    [{ ok: true, mode: "choose_room", availableRooms, preferredRoom }]. *)
Inductive MoveCheck : Type :=
| check_error (error : string)
| check_moved
| check_choose_room (rooms : list string) (preferredRoom : string).

(** What an awaited promise can be rejected with: the error of a request,
    or the [TypeError] of a property read on [undefined]. *)
Inductive Thrown : Type :=
| thrown (e : JsError.t)
| TypeError.

Section Closure.

(** The values of the [useState] cells captured by the callbacks
    ([useCallback] dependencies [sessions], [version]). *)
Variable sessions : list Session.
Variable version : Z.

(** [moveSessionDnD]. *)
Definition moveSessionDnD (sessionId toJour : string) (toCreneau : Z)
           (toSalle : string) : Prog ActionResult :=
  let prevSessions := sessions in
  let prevVersion := version in
  setSessions (Pure.applyMoveLocal prevSessions sessionId toJour toCreneau toSalle) ;;;
  let* commandId := newCommandId in
  let* r := call (sendTimetableCommand
              (MOVE_SESSION commandId prevVersion sessionId toJour toCreneau toSalle)
              official) in
  match r with
  | Resolved res =>
      setSessions (CommandSuccess.sessions res) ;;;
      setVersion (CommandSuccess.version res) ;;;
      Ret Ok
  | Rejected e =>
      setSessions prevSessions ;;;
      match JsError.body e with
      | Some body =>
          match CommandError.ok body with
          | Some false =>
              when (bool_decide (CommandError.code body = Some "VERSION_MISMATCH"))
                   fetchData ;;;
              Ret (Ko (JS.str_or (CommandError.message body) "Action refusée"))
          | _ => Ret (Ko (JS.nullish (JsError.message e) "Erreur réseau"))
          end
      | None => Ret (Ko (JS.nullish (JsError.message e) "Erreur réseau"))
      end
  end.

(** [deleteSession]. *)
Definition deleteSession (sessionId : string) : Prog ActionResult :=
  let prevSessions := sessions in
  let prevVersion := version in
  setSessions (Pure.applyDeleteLocal prevSessions sessionId) ;;;
  let* commandId := call randomUUID in
  let* r := call (sendTimetableCommand
              (DELETE_SESSION commandId prevVersion sessionId) official) in
  match r with
  | Resolved res =>
      setSessions (CommandSuccess.sessions res) ;;;
      setVersion (CommandSuccess.version res) ;;;
      Ret Ok
  | Rejected e =>
      setSessions prevSessions ;;;
      let body_message :=
        match JsError.body e with
        | Some body => CommandError.message body
        | None => None
        end in
      let msg :=
        JS.str_or (Some (JS.str_or body_message
                                   (JS.nullish (JsError.message e) "")))
                  "Suppression refusée." in
      when (bool_decide
              (from_option CommandError.code None (JsError.body e)
               = Some "VERSION_MISMATCH"))
           fetchData ;;;
      Ret (Ko msg)
  end.

(** [updateSession]. *)
Definition updateSession (sessionId : string) (updates : PartialSession)
  : Prog bool :=
  match p_jour updates, p_creneau updates, p_salle updates with
  | Some toJour, Some toCreneau, Some toSalle =>
      let* res := moveSessionDnD sessionId toJour toCreneau toSalle in
      Ret (result_ok res)
  | _, _, _ =>
      updateSessions
        (map (fun s => if JS.str_eq (id s) sessionId
                       then spread_updates s updates else s)) ;;;
      Ret true
  end.

(** [requestMoveWithRoomCheck].  The promise is rejected when the room
    query is ([getAvailableRooms] is awaited outside any [try]), and with a
    [TypeError] when the answer has no [availableRooms] to call [includes]
    on. *)
Definition requestMoveWithRoomCheck (sessionId toJour : string) (toCreneau : Z)
  : Prog (Thrown + MoveCheck) :=
  match JS.find (fun s => JS.str_eq (id s) sessionId) sessions with
  | None => Ret (inr (check_error "Session introuvable côté UI"))
  | Some session =>
      let* roomsRes := call (getAvailableRooms toJour toCreneau official) in
      match roomsRes with
      | Rejected e => Ret (inl (thrown e))
      | Resolved roomsRes =>
          match availableRooms roomsRes with
          | None => Ret (inl TypeError)
          | Some rooms =>
              if JS.includes rooms (salle session) then
                let* moved := moveSessionDnD sessionId toJour toCreneau
                                             (salle session) in
                match moved with
                | Ok => Ret (inr check_moved)
                | Ko error =>
                    Ret (inr (check_error (JS.str_or (Some error) "Move refusé")))
                end
              else Ret (inr (check_choose_room rooms (salle session)))
          end
      end
  end.

End Closure.

(** A user action on the hook: a move or a delete. *)
Inductive Action : Type :=
| Move (sessionId toJour : string) (toCreneau : Z) (toSalle : string)
| Delete (sessionId : string).

(** The handler of an action, created in the render that shows the state
    of [w]: its closure holds the sessions and the version of [w]. *)
Definition initiated (w : World) (a : Action) : Prog ActionResult :=
  match a with
  | Move sessionId toJour toCreneau toSalle =>
      moveSessionDnD (h_sessions (hook w)) (h_version (hook w))
                     sessionId toJour toCreneau toSalle
  | Delete sessionId =>
      deleteSession (h_sessions (hook w)) (h_version (hook w)) sessionId
  end.


(** Modelled from the spec: [Filter] and [FilterType] ([@/types]) are not
    among the sources.  A filter is a pair [{ type, value }] whose type is
    one of ["formateur"], ["groupe"], ["salle"]; the value is read through
    [filter.value ?? ""] and [?.value], so it may be missing. *)
Inductive FilterType : Type :=
| by_formateur
| by_groupe
| by_salle.

Record Filter : Type := mkFilter {
  f_type : FilterType;
  f_value : option string;
}.

(** [a === b] on filter types. *)
Definition type_eq (a b : FilterType) : bool :=
  match a, b with
  | by_formateur, by_formateur | by_groupe, by_groupe | by_salle, by_salle => true
  | _, _ => false
  end.

(** [session[filter.type]]. *)
Definition field (t : FilterType) (s : Session) : string :=
  match t with
  | by_formateur => formateur s
  | by_groupe => groupe s
  | by_salle => salle s
  end.

Definition ALL : string := "_all".

(** [uniqueFormateurValues]. *)
Definition uniqueFormateurValues (sessions : list Session) : list string :=
  JS.unique (map formateur sessions).

(** [addFilter]: the updater it gives to [setFilters]. *)
Definition addFilter (flt : Filter) (prev : list Filter) : list Filter :=
  filter (fun f => negb (type_eq (f_type f) (f_type flt))) prev ++ [flt].

(** [removeFilter]: the updater it gives to [setFilters]. *)
Definition removeFilter (type : FilterType) (prev : list Filter) : list Filter :=
  filter (fun f => negb (type_eq (f_type f) type)) prev.

(** The effect that installs the default filter, run after a render that
    shows [sessions] and [filters]: [None] when it returns without calling
    [setFilters], else the filters its updater leaves, [prev] being the
    [filters] of that render. *)
Definition defaultFilterEffect (sessions : list Session) (filters : list Filter)
  : option (list Filter) :=
  match uniqueFormateurValues sessions with
  | [] => None
  | first :: _ =>
      if JS.str_eq first "" then None
      else
        let current :=
          match JS.find (fun f => type_eq (f_type f) by_formateur) filters with
          | Some f => f_value f
          | None => None
          end in
        if bool_decide (current = Some ALL) then None
        else if match current with
                | Some c => negb (JS.str_eq c "") && negb (JS.str_eq (JS.trim c) "")
                | None => false
                end then None
        else Some (filter (fun f => negb (type_eq (f_type f) by_formateur)) filters
                   ++ [mkFilter by_formateur (Some first)])
  end.

Section Filtered.

(** [opts.expandGroupIds ?? ((g) => [g])], already resolved. *)
Variable expand : string -> list string.

(** The callback given to [filters.every] by [filteredSessions]. *)
Definition filter_matches (session : Session) (flt : Filter) : bool :=
  let v := JS.trim (JS.nullish (f_value flt) "") in
  if JS.str_eq v "" then true
  else if JS.str_eq v ALL then true
  else
    match f_type flt with
    | by_groupe =>
        let sessionGroups := expand (groupe session) in
        JS.str_eq (groupe session) v || JS.includes sessionGroups v
    | type => JS.str_eq (field type session) v
    end.

(** [filteredSessions]. *)
Definition filteredSessions (sessions : list Session) (filters : list Filter)
  : list Session :=
  if (length filters =? 0)%nat then sessions
  else filter (fun session => JS.every (filter_matches session) filters) sessions.

End Filtered.

End UseSchedule.

(* ===================================================================== *)
(** * [src/components/ScheduleGrid.tsx] *)
(* ===================================================================== *)

Module ScheduleGrid.

Definition timeSlots : list (Z * string) :=
  [ (1, "08h30 - 11h00"); (2, "11h00 - 13h30");
    (3, "13h30 - 16h00"); (4, "16h00 - 18h30") ].

(** [getSlotLabel]. *)
Definition getSlotLabel (slotId : Z) : string :=
  match JS.find (fun t => JS.num_eq (fst t) slotId) timeSlots with
  | Some t => snd t
  | None => pretty slotId
  end.

(** [openRoomSelector]. *)
Definition openRoomSelector (session : Session) (dest : Cell)
           (freeRooms : list string) (conflict : option Session) : Prog unit :=
  setDraggedSession (Some session) ;;;
  setTargetCell (Some dest) ;;;
  setConflictSession conflict ;;;
  setAvailableRooms freeRooms ;;;
  call (setRoomSelectorOpen true).

(** The [onClose] given to [RoomSelector]: cancelling the prompt. *)
Definition onClose : Prog unit := call (setRoomSelectorOpen false).

Definition toast_teacher_busy : Toast :=
  mkToast "Conflit de déplacement"
          "Le formateur est déjà occupé sur ce créneau."
          (Some "destructive").

Definition toast_group_busy : Toast :=
  mkToast "Conflit de déplacement"
          "Le groupe est déjà occupé sur ce créneau."
          (Some "destructive").

Definition toast_no_room : Toast :=
  mkToast "Erreur de déplacement"
          "Aucune salle disponible sur ce créneau."
          (Some "destructive").

Definition toast_refused : Toast :=
  mkToast "Erreur de déplacement"
          "Action refusée par le serveur (contraintes / conflits)."
          (Some "destructive").

Definition toast_choose_room : Toast :=
  mkToast "Salle occupée" "Choisissez une salle libre pour ce créneau." None.

Definition toast_rooms_error (e : JsError.t) : Toast :=
  mkToast "Erreur"
          (JS.nullish (JsError.message e)
                      "Erreur lors du chargement des salles disponibles.")
          (Some "destructive").

Definition toast_no_room_on_slot : Toast :=
  mkToast "Aucune salle disponible"
          "Aucune salle n’est disponible sur ce créneau."
          (Some "destructive").

Definition toast_moved (session : Session) (day : string) (slot : Z)
           (place : string) : Toast :=
  mkToast "Séance déplacée"
          (module session +:+ " (" +:+ groupe session +:+ ") déplacée au "
           +:+ day +:+ ", " +:+ getSlotLabel slot +:+ " (" +:+ place +:+ ")")
          None.

(** The teacher / group pre-check of [handleDrop]: the toast of the abort,
    if the drop is aborted there. *)
Definition precheck (session : Session) (conflict : option Session)
  : option Toast :=
  match conflict with
  | Some c =>
      let sameTeacher := JS.str_eq (formateur c) (formateur session) in
      let sameGroup := JS.str_eq (groupe c) (groupe session) in
      if sameTeacher || sameGroup
      then Some (if sameTeacher then toast_teacher_busy else toast_group_busy)
      else None
  | None => None
  end.

Section Props.

Variable hasConflict : Session -> Cell -> option Session.
Variable updateSession : string -> PartialSession -> Prog bool.
Variable isLoading : bool.
Variable readOnly : bool.

(** The end of [handleDrop], from [const freeRooms = api.availableRooms ?? []]
    on: steps 1 (no free room), 2 (the current room is free) and 3 (the
    selector is opened on exactly the free rooms). *)
Definition with_free_rooms (session : Session) (dest : Cell)
           (conflict : option Session) (freeRooms : list string) : Prog unit :=
  if (length freeRooms =? 0)%nat then call (toast toast_no_room)
  else if JS.includes freeRooms (salle session) then
    let* success := updateSession (id session)
                      (move_updates (day dest) (slot dest) (salle session)) in
    if success
    then call (toast (toast_moved session (day dest) (slot dest)
                                  ("Salle " +:+ salle session)))
    else call (toast toast_refused)
  else
    openRoomSelector session dest freeRooms conflict ;;;
    call (toast toast_choose_room).

(** [handleDrop]. *)
Definition handleDrop (session : Session) (day : string) (slot : Z)
  : Prog unit :=
  if isLoading then Ret tt
  else if readOnly then Ret tt
  else if JS.str_eq (jour session) day && JS.num_eq (creneau session) slot
  then Ret tt
  else
    let dest := mkCell day slot in
    let conflict := hasConflict session dest in
    match precheck session conflict with
    | Some t => call (toast t)
    | None =>
        if isOnlineSession session then
          let* success := updateSession (id session)
                            (move_updates day slot (salle session)) in
          if success
          then call (toast (toast_moved session day slot "En ligne"))
          else call (toast toast_refused)
        else
          let* api := call (getAvailableRooms day slot official) in
          match api with
          | Rejected e => call (toast (toast_rooms_error e))
          | Resolved api =>
              with_free_rooms session dest conflict
                              (JS.nullish (availableRooms api) [])
          end
    end.

(** [handleRoomSelect], with the [draggedSession] and [targetCell] its
    closure holds. *)
Definition handleRoomSelect (draggedSession : option Session)
           (targetCell : option Cell) (room : string) : Prog unit :=
  match draggedSession, targetCell with
  | Some ds, Some tc =>
      let* success := updateSession (id ds) (move_updates (day tc) (slot tc) room) in
      if success then
        let sameSlot :=
          JS.str_eq (jour ds) (day tc) && JS.num_eq (creneau ds) (slot tc) in
        toast (if sameSlot
               then mkToast "Salle modifiée"
                            (module ds +:+ " (" +:+ groupe ds
                             +:+ ") : Salle " +:+ room) None
               else toast_moved ds (day tc) (slot tc) ("Salle " +:+ room)) ;;;
        call (setRoomSelectorOpen false)
      else
        call (toast (mkToast "Action refusée"
                             "Action refusée par le serveur (contraintes / conflits)."
                             (Some "destructive")))
  | _, _ => Ret tt
  end.

(** [handleChangeRoomClick]. *)
Definition handleChangeRoomClick (session : Session) : Prog unit :=
  if isLoading then Ret tt
  else if readOnly then Ret tt
  else if isOnlineSession session then Ret tt
  else
    let* api := call (getAvailableRooms (jour session) (creneau session) official) in
    match api with
    | Rejected e => call (toast (toast_rooms_error e))
    | Resolved api =>
        let freeRooms := JS.nullish (availableRooms api) [] in
        if (length freeRooms =? 0)%nat then call (toast toast_no_room_on_slot)
        else openRoomSelector session
                              (mkCell (jour session) (creneau session))
                              freeRooms None
    end.

End Props.

Definition days : list string :=
  ["lundi"; "mardi"; "mercredi"; "jeudi"; "vendredi"; "samedi"].

(** The object [sessionsByCell] starts from: every day of [days] maps
    every slot id of [timeSlots] to an empty array. *)
Definition empty_cells : gmap string (gmap Z (list Session)) :=
  foldl (fun result day =>
           <[day := foldl (fun row t => <[fst t := []]> row) ∅ timeSlots]> result)
        ∅ days.

(** One turn of [sessions.forEach]: the session is pushed onto the array
    found under its day and its slot, when both keys are there. *)
Definition push_session (result : gmap string (gmap Z (list Session)))
           (session : Session) : gmap string (gmap Z (list Session)) :=
  match result !! jour session with
  | Some row =>
      match row !! creneau session with
      | Some cell =>
          <[jour session := <[creneau session := cell ++ [session]]> row]> result
      | None => result
      end
  | None => result
  end.

(** [sessionsByCell]. *)
Definition sessionsByCell (sessions : list Session)
  : gmap string (gmap Z (list Session)) :=
  foldl push_session empty_cells sessions.

(** [sessionsByCell[day][slot.id]], as the table reads it. *)
Definition cellSessions (sessions : list Session) (day : string) (slot : Z)
  : option (list Session) :=
  match sessionsByCell sessions !! day with
  | Some row => row !! slot
  | None => None
  end.

Definition toast_deleted : Toast :=
  mkToast "Séance supprimée" "La séance a été supprimée." None.

Definition toast_delete_refused (e : JsError.t) : Toast :=
  mkToast "Suppression refusée"
          (JS.nullish (JsError.message e) "Impossible de supprimer la séance.")
          (Some "destructive").

Section Delete.

(** The [onDeleteSession] prop, when it is given.  What the promise it
    returns resolves to is not looked at; [inl e] stands for a promise
    rejected with [e]. *)
Variable A : Type.
Variable onDeleteSession : option (string -> Prog (JsError.t + A)).

(** [handleDelete]. *)
Definition handleDelete (sessionId : string) : Prog unit :=
  match onDeleteSession with
  | None => Ret tt
  | Some delete =>
      let* r := delete sessionId in
      match r with
      | inr _ => call (toast toast_deleted)
      | inl e => call (toast (toast_delete_refused e))
      end
  end.

End Delete.

End ScheduleGrid.

(* ===================================================================== *)
(** * [components/VirtualScheduleGrid.tsx] *)
(* ===================================================================== *)

Module VirtualScheduleGrid.

Definition toast_no_room : Toast :=
  mkToast "Aucune salle disponible"
          "Aucune salle n’est disponible sur ce créneau."
          (Some "destructive").

Definition toast_refused : Toast :=
  mkToast "Déplacement refusé" "Le backend a refusé ce déplacement."
          (Some "destructive").

Definition toast_rooms_error (e : JsError.t) : Toast :=
  mkToast "Erreur"
          (JS.nullish (JsError.message e)
                      "Erreur lors de la récupération des salles")
          (Some "destructive").

Section Props.

Variable hasConflict : Session -> Cell -> option Session.
Variable updateSession : string -> PartialSession -> Prog bool.
Variable roomsScope : Scope.
Variable isLoading : bool.

(** The end of [handleDrop], from [const freeRooms = api.availableRooms ?? []]
    on. *)
Definition with_free_rooms (session : Session) (dest : Cell)
           (conflict : option Session) (freeRooms : list string) : Prog unit :=
  if (length freeRooms =? 0)%nat then call (toast toast_no_room)
  else if JS.includes freeRooms (salle session)
          && negb (bool_decide (is_Some conflict)) then
    let* ok := updateSession (id session)
                 (move_updates (day dest) (slot dest) (salle session)) in
    when (negb ok) (call (toast toast_refused))
  else
    ScheduleGrid.openRoomSelector session dest freeRooms conflict.

(** [handleDrop]. *)
Definition handleDrop (session : Session) (toDay : string) (toSlot : Z)
  : Prog unit :=
  if isLoading then Ret tt
  else if isOnlineSession session then Ret tt
  else
    let conflict := hasConflict session (mkCell toDay toSlot) in
    match ScheduleGrid.precheck session conflict with
    | Some t => call (toast t)
    | None =>
        let* api := call (getAvailableRooms toDay toSlot roomsScope) in
        match api with
        | Rejected e => call (toast (toast_rooms_error e))
        | Resolved api =>
            with_free_rooms session (mkCell toDay toSlot) conflict
                            (JS.nullish (availableRooms api) [])
        end
    end.

(** The [onClose] given to [RoomSelector]. *)
Definition onClose : Prog unit := call (setRoomSelectorOpen false).

(** [handleRoomSelect], with the [draggedSession] and [targetCell] its
    closure holds. *)
Definition handleRoomSelect (draggedSession : option Session)
           (targetCell : option Cell) (roomId : string) : Prog unit :=
  match draggedSession, targetCell with
  | Some ds, Some tc =>
      let* ok := updateSession (id ds)
                   (move_updates (day tc) (slot tc) roomId) in
      when (negb ok) (call (toast toast_refused)) ;;;
      call (setRoomSelectorOpen false)
  | _, _ => Ret tt
  end.

(** [handleChangeRoomClick]. *)
Definition handleChangeRoomClick (session : Session) : Prog unit :=
  if isLoading then Ret tt
  else if isOnlineSession session then Ret tt
  else
    let* api := call (getAvailableRooms (jour session) (creneau session)
                                        roomsScope) in
    match api with
    | Rejected e =>
        call (toast (mkToast "Erreur"
                             (JS.nullish (JsError.message e)
                                         "Erreur récupération salles")
                             (Some "destructive")))
    | Resolved api =>
        let freeRooms := JS.nullish (availableRooms api) [] in
        if (length freeRooms =? 0)%nat then call (toast toast_no_room)
        else ScheduleGrid.openRoomSelector
               session (mkCell (jour session) (creneau session)) freeRooms None
    end.

End Props.

End VirtualScheduleGrid.

(* ===================================================================== *)
(** * [components/RoomSelector.tsx] *)
(* ===================================================================== *)

Module RoomSelector.

(** What the component puts on the page: nothing without a session
    ([if (!session) return null]) and nothing while the [Dialog] is not
    [open]; else the session, the conflicting session if any, and the rooms
    to choose from. *)
Definition shows (open : bool) (session conflictSession : option Session)
           (rooms : list string)
  : option (Session * option Session * list string) :=
  match session with
  | Some s => if open then Some (s, conflictSession, rooms) else None
  | None => None
  end.

(** Cancelling: the click on "Annuler" ([onClick={onClose}]) and the
    dismissal of the dialog ([onOpenChange={onClose}]) both call [onClose]
    and nothing else. *)
Definition cancel (onClose : Prog unit) : Prog unit := onClose.

(** The click on "Confirmer": [onRoomSelect(selectedRoom); onClose()].
    [onRoomSelect] is the async [handleRoomSelect] of the grid and is not
    awaited. *)
Definition confirm (onRoomSelect : string -> Prog unit) (onClose : Prog unit)
           (selectedRoom : string) : Prog unit :=
  then_meanwhile (onRoomSelect selectedRoom) onClose.

End RoomSelector.

(** The prompt of a grid in state [g], both grids:
    [<RoomSelector open={roomSelectorOpen} session={draggedSession}
    conflictSession={conflictSession} rooms={availableRooms} ... />]. *)
Definition prompt (g : GridState)
  : option (Session * option Session * list string) :=
  RoomSelector.shows (g_roomSelectorOpen g) (g_draggedSession g)
                     (g_conflictSession g) (g_availableRooms g).

(* ===================================================================== *)
(** * [pages/Index.tsx]: the main grid wired to [useSchedule] *)
(* ===================================================================== *)

Module Index.

Section Page.

(** [cfg.salles], [catalog.onlineFusions] and the role of the user. *)
Variable salles : list SalleEntry.
Variable onlineFusions : list OnlineFusion.
Variable readOnly : bool.

Definition expandGroupIds : string -> list string :=
  Page.expandGroupIds (Page.fusionMap onlineFusions).

Definition isVirtualRoom : string -> bool := Page.isVirtualRoom salles.

(** [hasConflict] of [useSchedule({ expandGroupIds, isVirtualRoom })],
    over the sessions the hook holds. *)
Definition hasConflict (w : World) : Session -> Cell -> option Session :=
  Pure.hasConflict expandGroupIds isVirtualRoom (h_sessions (hook w)).

(** [updateSession] of the hook, closed over its current state. *)
Definition updateSession (w : World) : string -> PartialSession -> Prog bool :=
  UseSchedule.updateSession (h_sessions (hook w)) (h_version (hook w)).

(** [handleDrop] of the [ScheduleGrid], as created by the render of the
    page that shows the hook of [w]. *)
Definition handleDrop (w : World) : Session -> string -> Z -> Prog unit :=
  ScheduleGrid.handleDrop (hasConflict w) (updateSession w)
                          (h_loading (hook w)) readOnly.

(** The page as the first render of its grid was given it. *)
Definition first_rendered (w : World) : World :=
  mkWorld (first_render w) (rooms_prop w) (grid w) (first_render w) (log w).

(** The handler a drop runs: the [handleDrop] of the first render of the
    grid, which the drop targets registered by [useDrop] keep (see
    [first_render]); it holds the [hasConflict], the [updateSession] and the
    [isLoading] of that render. *)
Definition dropped (w : World) : Session -> string -> Z -> Prog unit :=
  handleDrop (first_rendered w).

(** A user dropping [session] onto the cell [(day, slot)]. *)
Definition drop_session (B : Backend) (w : World) (session : Session)
           (day : string) (slot : Z) : World :=
  exec B (dropped w session day slot) w.

(** Cancelling the room-choice prompt: [RoomSelector] calls the [onClose]
    the grid gave it. *)
Definition cancel_prompt (B : Backend) (w : World) : World :=
  exec B (RoomSelector.cancel ScheduleGrid.onClose) w.

(** [filtersRecord]: the value shown for each filter type, ["_all"] when
    no filter of the type is set, the last one when several are. *)
Definition filtersRecord (filters : list UseSchedule.Filter)
           (type : UseSchedule.FilterType) : option string :=
  foldl (fun rec flt =>
           if UseSchedule.type_eq (UseSchedule.f_type flt) type
           then UseSchedule.f_value flt else rec)
        (Some UseSchedule.ALL) filters.

(** [deleteSession] of the hook, closed over its current state. *)
Definition deleteSession (w : World) : string -> Prog ActionResult :=
  UseSchedule.deleteSession (h_sessions (hook w)) (h_version (hook w)).

(** [handleDelete] of the grid, with
    [onDeleteSession={readOnly ? undefined : deleteSession}]; the promise
    of [deleteSession] is never rejected. *)
Definition handleDelete (w : World) : string -> Prog unit :=
  ScheduleGrid.handleDelete ActionResult
    (if readOnly then None
     else Some (fun sessionId =>
                  let* r := deleteSession w sessionId in Ret (inr r))).

(** [handleChangeRoomClick] and [handleRoomSelect] of the grid; the second
    holds the [draggedSession] and [targetCell] of the render it was
    created in. *)
Definition handleChangeRoomClick (w : World) : Session -> Prog unit :=
  ScheduleGrid.handleChangeRoomClick (h_loading (hook w)) readOnly.

Definition handleRoomSelect (w : World) : string -> Prog unit :=
  ScheduleGrid.handleRoomSelect (updateSession w)
                                (g_draggedSession (grid w))
                                (g_targetCell (grid w)).

End Page.

(** Changing the room of a session on the page: the click on the button of
    the card calls [onChangeRoom(session)] ([SessionCard.tsx]), which is the
    [handleChangeRoomClick] of the grid; the click on "Confirmer" in the
    prompt then calls the [handleRoomSelect] and the [onClose] that the grid
    gave to [RoomSelector], each handler being that of the render the user
    sees. *)
Definition change_room (readOnly : bool) (B : Backend) (w : World)
           (session : Session) (room : string) : World :=
  let w1 := exec B (handleChangeRoomClick readOnly w session) w in
  exec B (RoomSelector.confirm (handleRoomSelect w1) ScheduleGrid.onClose room)
       w1.

End Index.

(* ===================================================================== *)
(** * [pages/VirtualTimetable.tsx] *)
(* ===================================================================== *)

Module VirtualTimetable.

Definition no_data : RequestData :=
  mkData None None None None None None None.

(** [byId]: [base.forEach((s) => byId.set(String(s.id), s))].  The map
    holds references to the objects of [base]; here a reference is the
    position of the object in [base], and a later session with the same id
    replaces an earlier one. *)
Definition index_by_id (base : list BaseSession) : gmap string nat :=
  foldl (fun m '(i, s) => <[id (b_session s) := i]> m) ∅ (imap pair base).

(** [s._virtualState = st; s._virtualRequestId = rid] on the object that
    [byId.get(sessionId)] returned, if any: the entry of [base] itself is
    changed. *)
Definition tag (st : VirtualState) (rid : option string)
           (byId : gmap string nat) (sessionId : string)
           (base : list BaseSession) : list BaseSession :=
  match byId !! sessionId with
  | Some i => alter (fun s => mkBase (b_session s) (Some st) rid) i base
  | None => base
  end.

(** [byId.get(sessionId)], read in the current [base]. *)
Definition get (byId : gmap string nat) (sessionId : string)
           (base : list BaseSession) : option BaseSession :=
  match byId !! sessionId with
  | Some i => base !! i
  | None => None
  end.

(** The ghost pushed for a [MOVE] or a [CHANGE_ROOM] request: the spread
    [{ id: sessionId, ...s, ...oldData, (...newData | salle) }] followed by
    the explicit [jour], [creneau], [salle], [_virtualState] and
    [_virtualRequestId] fields, which come last and win. *)
Definition proposed_destination (type sessionId : string)
           (s : option BaseSession) (oldData newData : RequestData)
           (rid : option string) : GhostSession :=
  let s_field {A} (f : Session -> A) : option A := f ∘ b_session <$> s in
  let spread {A} (f : Session -> A) (g : RequestData -> option A) : option A :=
    if JS.str_eq type "CHANGE_ROOM"
    then JS.nullish_opt (g oldData) (s_field f)
    else JS.nullish_opt (g newData) (JS.nullish_opt (g oldData) (s_field f)) in
  mkGhost
    (JS.nullish (s_field id) sessionId)
    (spread formateur d_formateur)
    (spread groupe d_groupe)
    (spread module d_module)
    (if JS.str_eq type "CHANGE_ROOM" then d_motif oldData
     else JS.nullish_opt (d_motif newData) (d_motif oldData))
    (Some (JS.String_ (JS.nullish_opt (d_jour newData)
                         (JS.nullish_opt (d_jour oldData) (s_field jour)))))
    (Some (JS.Number (JS.nullish_opt (d_creneau newData)
                        (JS.nullish_opt (d_creneau oldData) (s_field creneau)))))
    (Some (JS.String_ (JS.nullish_opt (d_salle newData)
                         (JS.nullish_opt (d_salle oldData) (s_field salle)))))
    PROPOSED_DESTINATION
    rid.

(** The ghost pushed for an [INSERT] request. *)
Definition inserted (sessionId : string) (newData : RequestData)
           (rid : option string) : GhostSession :=
  mkGhost
    (match sessionId with
     | EmptyString => "ghost:" +:+ JS.String_ rid
     | _ => sessionId
     end)
    (d_formateur newData) (d_groupe newData) (d_module newData)
    (d_motif newData)
    (d_jour newData) (JS.Num <$> d_creneau newData) (d_salle newData)
    INSERTED
    rid.

(** One turn of the loop [for (const r of requests ?? [])]. *)
Definition reconcile_request (byId : gmap string nat)
           (st : list BaseSession * list GhostSession) (r : ChangeRequest.t)
  : list BaseSession * list GhostSession :=
  let '(base, extra) := st in
  let type := JS.toUpperCase (JS.nullish (ChangeRequest.type r) "") in
  let sessionId := JS.nullish (ChangeRequest.sessionId r) "" in
  let oldData := JS.nullish (ChangeRequest.oldData r) no_data in
  let newData := JS.nullish (ChangeRequest.newData r) no_data in
  let rid := JS.nullish_opt (ChangeRequest.id r) (ChangeRequest.requestId r) in
  if JS.str_eq type "DELETE" then
    (tag TO_DELETE rid byId sessionId base, extra)
  else if JS.str_eq type "INSERT" then
    (base, extra ++ [inserted sessionId newData rid])
  else if JS.str_eq type "MOVE" || JS.str_eq type "CHANGE_ROOM" then
    let base' := tag MOVED_AWAY rid byId sessionId base in
    let s := get byId sessionId base' in
    (base', extra ++ [proposed_destination type sessionId s oldData newData rid])
  else (base, extra).

(** [buildVirtualFromRequests]. *)
Definition buildVirtualFromRequests (official : list Session)
           (requests : option (list ChangeRequest.t))
  : list BaseSession * list GhostSession :=
  let base := map (fun s => mkBase s None None) official in
  let byId := index_by_id base in
  foldl (reconcile_request byId) (base, []) (JS.nullish requests []).

Section Page.

Variable salles : list SalleEntry.
Variable onlineFusions : list OnlineFusion.
Variable officialSessions : list Session.
(** [role === "admin" ? "draft" : "official"]. *)
Variable roomsScope : Scope.
Variable loading : bool.

Definition expandGroupIds : string -> list string :=
  Page.expandGroupIds (Page.fusionMap onlineFusions).

Definition isVirtualRoom : string -> bool := Page.isVirtualRoom salles.

(** [hasConflict] of the page, over the official sessions. *)
Definition hasConflict (session : Session) (targetCell : Cell)
  : option Session :=
  let groupsA := expandGroupIds (groupe session) in
  let isVirt := fun id => isVirtualRoom id in
  JS.find
    (fun s =>
       if JS.str_eq (id s) (id session) then false
       else if negb (JS.str_eq (jour s) (day targetCell))
               || negb (JS.num_eq (creneau s) (slot targetCell)) then false
       else
         let sameRoom := JS.str_eq (salle s) (salle session)
                         && negb (isVirt (salle session))
                         && negb (isVirt (salle s)) in
         let sameTeacher := JS.str_eq (formateur s) (formateur session) in
         let groupsB := expandGroupIds (groupe s) in
         let sameGroup := JS.some (fun g => JS.includes groupsB g) groupsA in
         sameRoom || sameTeacher || sameGroup)
    officialSessions.

(** The page's [updateSession] is observed at the prop boundary: the
    grid calls it, the page answers. *)
Definition updateSession (sessionId : string) (updates : PartialSession)
  : Prog bool :=
  call (propUpdateSession sessionId updates).

(** [handleDrop] of the [VirtualScheduleGrid] rendered by the page.  The
    drop targets of this grid are registered with
    [useDrop(..., [day, slotId, isLoading, handleDrop])]: a drop runs the
    [handleDrop] of the render on the page. *)
Definition handleDrop : Session -> string -> Z -> Prog unit :=
  VirtualScheduleGrid.handleDrop hasConflict updateSession roomsScope loading.

Definition drop_session (B : Backend) (w : World) (session : Session)
           (day : string) (slot : Z) : World :=
  exec B (handleDrop session day slot) w.

(** Cancelling the room-choice prompt: [RoomSelector] calls the [onClose]
    the grid gave it. *)
Definition cancel_prompt (B : Backend) (w : World) : World :=
  exec B (RoomSelector.cancel VirtualScheduleGrid.onClose) w.

End Page.

End VirtualTimetable.

(* ===================================================================== *)
(** * [src/components/ChooseRoomModal.tsx] *)
(* ===================================================================== *)

Module ChooseRoomModal.

(** [initial]: the room the prompt preselects. *)
Definition initial (availableRooms : list string)
           (preferredRoom : option string) : string :=
  match availableRooms with
  | [] => ""
  | first :: _ =>
      match preferredRoom with
      | Some (String _ _ as p) =>
          if JS.includes availableRooms p then p else first
      | _ => first
      end
  end.

End ChooseRoomModal.

(* ===================================================================== *)
(** * Vocabulary of the properties *)
(* ===================================================================== *)

(** What it means for [s] to conflict with the candidate [session] at
    [targetCell]: another session, at that day and slot, that shares with
    the candidate a physical room, or the trainer, or a member of the
    expansions of the two groups. *)
Definition Conflict (expand : string -> list string) (isVirtual : string -> bool)
           (session : Session) (targetCell : Cell) (s : Session) : Prop :=
  id s <> id session
  /\ jour s = day targetCell
  /\ creneau s = slot targetCell
  /\ ((salle s = salle session
       /\ isVirtual (salle session) = false /\ isVirtual (salle s) = false)
      \/ formateur s = formateur session
      \/ exists g, g ∈ expand (groupe session) /\ g ∈ expand (groupe s)).

(** When the rejection [e] makes [moveSessionDnD] fetch the timetable again. *)
Definition refetch_after_move (e : JsError.t) : bool :=
  match JsError.body e with
  | Some b =>
      match CommandError.ok b with
      | Some false => bool_decide (CommandError.code b = Some "VERSION_MISMATCH")
      | _ => false
      end
  | None => false
  end.

(** When the rejection [e] makes [deleteSession] fetch the timetable again. *)
Definition refetch_after_delete (e : JsError.t) : bool :=
  bool_decide (from_option CommandError.code None (JsError.body e)
               = Some "VERSION_MISMATCH").

Definition refetch_after (a : UseSchedule.Action) (e : JsError.t) : bool :=
  match a with
  | UseSchedule.Move _ _ _ _ => refetch_after_move e
  | UseSchedule.Delete _ => refetch_after_delete e
  end.

(** The command an action sends, given the id drawn for it. *)
Definition command_of (w : World) (a : UseSchedule.Action) (commandId : string)
  : TimetableCommand :=
  match a with
  | UseSchedule.Move sessionId toJour toCreneau toSalle =>
      MOVE_SESSION commandId (h_version (hook w)) sessionId toJour toCreneau toSalle
  | UseSchedule.Delete sessionId =>
      DELETE_SESSION commandId (h_version (hook w)) sessionId
  end.

(** The run of [p] from [w] sent [cmd], was answered [res], and adopted the
    sessions and the version of the answer. *)
Definition Adopted (B : Backend) (w : World) {A : Type} (p : Prog A)
           (cmd : TimetableCommand) (res : CommandSuccess.t) : Prop :=
  exists pre,
    trace B p w
    = pre ++ [Ev (sendTimetableCommand cmd official) (Resolved res);
              Ev (setSessions (CommandSuccess.sessions res)) tt;
              Ev (setVersion (CommandSuccess.version res)) tt]
    /\ filter is_network pre = []
    /\ h_sessions (hook (exec B p w)) = CommandSuccess.sessions res
    /\ h_version (hook (exec B p w)) = CommandSuccess.version res.

(** The run of [p] from [w] sent [cmd], was refused with [e], put back the
    sessions it started from, and then fetched the timetable again or
    stopped, according to [refetch]; [w_rb] is the world once the sessions
    are put back. *)
Definition RolledBack (B : Backend) (w : World) {A : Type} (p : Prog A)
           (cmd : TimetableCommand) (e : JsError.t) (refetch : bool) : Prop :=
  exists pre w_rb,
    trace B p w
    = pre ++ Ev (sendTimetableCommand cmd official) (Rejected e)
          :: Ev (setSessions (h_sessions (hook w))) tt
          :: (if refetch then trace B UseSchedule.fetchData w_rb else [])
    /\ filter is_network pre = []
    /\ hook w_rb = hook w
    /\ grid w_rb = grid w
    /\ exec B p w
       = (if refetch then exec B UseSchedule.fetchData w_rb else w_rb).

(** The run of [p] from [w] sent the single command [cmd] and reconciled
    with its outcome. *)
Definition Reconciled (B : Backend) (w : World) {A : Type} (p : Prog A)
           (cmd : TimetableCommand) (refetch : JsError.t -> bool) : Prop :=
  exists r,
    command_outcomes (trace B p w) = [(cmd, official, r)]
    /\ (forall res, r = Resolved res -> Adopted B w p cmd res)
    /\ (forall e, r = Rejected e -> RolledBack B w p cmd e (refetch e)).

(** A change request as the reconciler reads it: its type, upper-cased,
    the session it names and its own id. *)
Definition request_type (r : ChangeRequest.t) : string :=
  JS.toUpperCase (JS.nullish (ChangeRequest.type r) "").

Definition request_session (r : ChangeRequest.t) : string :=
  JS.nullish (ChangeRequest.sessionId r) "".

Definition request_id (r : ChangeRequest.t) : option string :=
  JS.nullish_opt (ChangeRequest.id r) (ChangeRequest.requestId r).

(** The tag a request puts on the session it names: [TO_DELETE] for a
    DELETE, [MOVED_AWAY] for a MOVE or a CHANGE_ROOM, none otherwise. *)
Definition tag_of (r : ChangeRequest.t) : option VirtualState :=
  if JS.str_eq (request_type r) "DELETE" then Some TO_DELETE
  else if JS.str_eq (request_type r) "INSERT" then None
  else if JS.str_eq (request_type r) "MOVE"
          || JS.str_eq (request_type r) "CHANGE_ROOM" then Some MOVED_AWAY
  else None.

(** The requests that push a ghost: INSERT, MOVE and CHANGE_ROOM. *)
Definition pushes_ghost (r : ChangeRequest.t) : bool :=
  JS.str_eq (request_type r) "INSERT"
  || JS.str_eq (request_type r) "MOVE"
  || JS.str_eq (request_type r) "CHANGE_ROOM".

(** The requests that tag the session [s]. *)
Definition tags_session (s : Session) (r : ChangeRequest.t) : bool :=
  bool_decide (is_Some (tag_of r)) && JS.str_eq (request_session r) (id s).

(** The calls that write the state of the grid component. *)
Definition touches_grid (e : Event) : bool :=
  match e with
  | Ev (setDraggedSession _) _ | Ev (setTargetCell _) _
  | Ev (setConflictSession _) _ | Ev (setAvailableRooms _) _
  | Ev (setRoomSelectorOpen _) _ => true
  | _ => false
  end.

(** The calls after which the main page may take its grid off the page or
    put a new one on it. *)
Definition rerenders (e : Event) : bool :=
  match e with
  | Ev (setLoading _) _ | Ev (setError _) _ => true
  | _ => false
  end.

(** The grid of the main page after a move whose command had the outcome
    [r], [g] being the state of the grid when the move started: the same
    grid, in the same state, unless the refusal made the hook fetch the
    timetable again.  The page then showed the spinner in place of the grid,
    and the grid on the page afterwards, if any, is a new one, in its
    initial state. *)
Definition grid_after_move (rooms : list string) (g : GridState)
           (r : outcome CommandSuccess.t) : GridState :=
  match r with
  | Resolved _ => g
  | Rejected e => if refetch_after_move e then initial_grid rooms else g
  end.

(** The calls that write the state of the hook. *)
Definition touches_hook (e : Event) : bool :=
  match e with
  | Ev (setSessions _) _ | Ev (updateSessions _) _ | Ev (setVersion _) _
  | Ev (setLoading _) _ | Ev (setError _) _ => true
  | _ => false
  end.

(** The calls the hook makes: its own state, the commands, the fetches. *)
Definition hook_call (e : Event) : bool :=
  match e with
  | Ev (setSessions _) _ | Ev (updateSessions _) _ | Ev (setVersion _) _
  | Ev (setLoading _) _ | Ev (setError _) _
  | Ev getTimetable _ | Ev (sendTimetableCommand _ _) _ | Ev randomUUID _ => true
  | _ => false
  end.

(* ===================================================================== *)
(** * Sample data used by the examples *)
(* ===================================================================== *)

Module Sample.

(** The session of the scenarios: S1, trainer T1, group G1, room R1,
    Monday, first slot. *)
Definition S1 : Session := mkSession "S1" "T1" "G1" "M1" "lundi" 1 "R1".

(** Another trainer and group in the same room R1, Tuesday, second slot. *)
Definition S2 : Session := mkSession "S2" "T2" "G2" "M2" "mardi" 2 "R1".

(** The trainer of S1 again, Tuesday, second slot. *)
Definition S3 : Session := mkSession "S3" "T1" "G3" "M3" "mardi" 2 "R3".

(** An online session of the fused group G1_G2, Tuesday, second slot. *)
Definition S4 : Session := mkSession "S4" "T4" "G1_G2" "M4" "mardi" 2 "TEAMS".

(** An online session of trainer T5, Monday, first slot. *)
Definition S5 : Session := mkSession "S5" "T5" "G5" "M5" "lundi" 1 "Teams".

Definition fusions : list OnlineFusion :=
  [ mkFusion "G1_G2" (Some ["G1"; "G2"]) ].

Definition salles : list SalleEntry :=
  [ SalleId "R1"; SalleId "R2"; SalleId "R3";
    SalleObj (Some "TEAMS") (Some "virtuel") ].

(** The main page once its grid is on the page: the hook holds [sessions]
    at [version], the grid is in its initial state and its first render was
    given that state of the hook. *)
Definition world (sessions : list Session) (version : Z) : World :=
  mkWorld (mkHook sessions version false None)
          ["R1"; "R2"; "R3"]
          (initial_grid ["R1"; "R2"; "R3"])
          (mkHook sessions version false None)
          [].

(** A rejection carrying [{ ok: false, code, message, version }]. *)
Definition rejection (code : string) (version : option Z) : JsError.t :=
  JsError.mk (Some "refused")
             (Some (CommandError.mk (Some false) (Some code) (Some "refused")
                                    version None)).

(** A backend: every command is answered by [cmd], every fetch of the
    timetable by [tt_], every room query by the list [rooms]. *)
Definition backend (cmd : outcome CommandSuccess.t)
           (tt_ : outcome TimetableDTO) (rooms : list string) : Backend :=
  mkBackend (fun _ => tt_)
            (fun _ _ _ => cmd)
            (fun _ _ _ _ => Resolved (mkRooms (Some rooms) None))
            (fun _ => "uuid-1")
            (fun _ _ _ => true).

(** The action of the examples: S1 moved to Tuesday, fourth slot, keeping
    room R1, from a hook that holds S1 and S2 at version 3. *)
Definition move_S1 : UseSchedule.Action := UseSchedule.Move "S1" "mardi" 4 "R1".
Definition hook_S1_S2 : World := world [S1; S2] 3.
Definition move_S1_command : TimetableCommand :=
  MOVE_SESSION "uuid-1" 3 "S1" "mardi" 4 "R1".

(** What the backend holds after another user has moved S1 and removed
    S2: the timetable at version 7. *)
Definition fetched : TimetableDTO :=
  mkDTO (Some 7)
        (Some [mkRaw None "S1" "T1" "G1" "M1" "jeudi" 3 "R2"]).

(** The backend refuses every command with a conflict, and says in the
    body that its version is 7. *)
Definition conflict_backend : Backend :=
  backend (Rejected (rejection "CONFLICT" (Some 7))) (Resolved fetched)
          ["R1"; "R2"].

(** The backend refuses every command with a version mismatch. *)
Definition mismatch_backend : Backend :=
  backend (Rejected (rejection "VERSION_MISMATCH" (Some 7))) (Resolved fetched)
          ["R1"; "R2"].

(** The backend accepts every command and answers with version 4. *)
Definition accepted : CommandSuccess.t :=
  CommandSuccess.mk 4 [mkSession "S1" "T1" "G1" "M1" "mardi" 4 "R1"; S2] [].
Definition accepting_backend : Backend :=
  backend (Resolved accepted) (Resolved fetched) ["R1"; "R2"].

(** The main page holding only S1, and holding S1 with the online session
    S4 of the fused group, or with the online session S5. *)
Definition hook_S1 : World := world [S1] 3.
Definition hook_S1_S4 : World := world [S1; S4] 3.
Definition hook_S5_S2 : World := world [S5; S2] 3.

(** The backend accepts every command; only room R2 is free. *)
Definition only_R2_backend : Backend :=
  backend (Resolved accepted) (Resolved fetched) ["R2"].

(** A pending CHANGE_ROOM request on S1 whose [newData] names another day
    and slot than [oldData], and the MOVE request with the same payload. *)
Definition old_place : RequestData :=
  mkData (Some "lundi") (Some 1) (Some "R1") None None None None.
Definition new_place : RequestData :=
  mkData (Some "mardi") (Some 2) (Some "R2") None None None None.
Definition change_room_request : ChangeRequest.t :=
  ChangeRequest.mk (Some "CR1") None (Some "CHANGE_ROOM") (Some "S1")
                   (Some old_place) (Some new_place).
Definition move_request : ChangeRequest.t :=
  ChangeRequest.mk (Some "CR2") None (Some "MOVE") (Some "S1")
                   (Some old_place) (Some new_place).

End Sample.

(** The proofs below unfold these three by hand. *)
Arguments UseSchedule.fetchData : simpl never.
Arguments UseSchedule.updateSession : simpl never.
Arguments Index.updateSession : simpl never.

(* ===================================================================== *)
(** * Proof steps *)
(* ===================================================================== *)

(** Case analysis on what the backend answers to the command, or to the
    fetch, that the goal is waiting for. *)
Ltac case_command :=
  match goal with
  | |- context [on_sendTimetableCommand ?B ?l ?c ?s] =>
      destruct (on_sendTimetableCommand B l c s) as [res|e] eqn:Hr
  end.

Ltac case_timetable :=
  match goal with
  | |- context [on_getTimetable ?B ?l] =>
      destruct (on_getTimetable B l) as [dto|e] eqn:Hr
  end.

(* ===================================================================== *)
(** * Facts about the JavaScript helpers *)
(* ===================================================================== *)

Module JSFacts.

Lemma str_eq_true a b : JS.str_eq a b = true <-> a = b.
Proof. apply String.eqb_eq. Qed.

Lemma str_eq_false a b : JS.str_eq a b = false <-> a <> b.
Proof. apply String.eqb_neq. Qed.

Lemma num_eq_true a b : JS.num_eq a b = true <-> a = b.
Proof. apply Z.eqb_eq. Qed.

Lemma some_true {A} (p : A -> bool) (l : list A) :
  JS.some p l = true <-> exists x, x ∈ l /\ p x = true.
Proof.
  induction l as [|y l IH]; simpl.
  - split; [discriminate|]. intros (x & Hx & _). by apply elem_of_nil in Hx.
  - rewrite orb_true_iff, IH. split.
    + intros [Hy|(x & Hx & Hp)].
      * exists y. split; [left|done].
      * exists x. split; [by right|done].
    + intros (x & Hx & Hp). apply elem_of_cons in Hx as [->|Hx]; [by left|].
      right. by exists x.
Qed.

Lemma includes_true (l : list string) (x : string) :
  JS.includes l x = true <-> x ∈ l.
Proof.
  unfold JS.includes. rewrite some_true. split.
  - intros (y & Hy & He). apply str_eq_true in He. by subst.
  - intros Hx. exists x. split; [done|]. by apply str_eq_true.
Qed.

Lemma find_Some {A} (p : A -> bool) (l : list A) (x : A) :
  JS.find p l = Some x -> x ∈ l /\ p x = true.
Proof.
  induction l as [|y l IH]; simpl; [discriminate|].
  destruct (p y) eqn:Hy.
  - intros [= ->]. split; [left|done].
  - intros H. destruct (IH H) as [Hin Hp]. split; [by right|done].
Qed.

Lemma find_None {A} (p : A -> bool) (l : list A) :
  JS.find p l = None <-> forall x, x ∈ l -> p x = false.
Proof.
  induction l as [|y l IH]; simpl.
  - split; [|done]. intros _ x Hx. by apply elem_of_nil in Hx.
  - destruct (p y) eqn:Hy.
    + split; [discriminate|]. intros H.
      rewrite (H y) in Hy; [discriminate|left].
    + rewrite IH. split.
      * intros H x Hx. apply elem_of_cons in Hx as [->|Hx]; auto.
      * intros H x Hx. apply H. by right.
Qed.

Lemma find_is_Some {A} (p : A -> bool) (l : list A) :
  JS.find p l <> None <-> exists x, x ∈ l /\ p x = true.
Proof.
  split.
  - destruct (JS.find p l) as [x|] eqn:Hf; [|done].
    intros _. exists x. by apply find_Some.
  - intros (x & Hx & Hp) Hn. rewrite find_None in Hn.
    rewrite (Hn x Hx) in Hp. discriminate.
Qed.

End JSFacts.

(* ===================================================================== *)
(** * The local move: [applyMoveLocal] *)
(* ===================================================================== *)

Section ApplyMoveLocal.

Variables (sessionId toJour : string) (toCreneau : Z) (toSalle : string).

Lemma applyMoveLocal_length sessions :
  length (Pure.applyMoveLocal sessions sessionId toJour toCreneau toSalle) = length sessions.
Proof. apply length_map. Qed.

Lemma applyMoveLocal_lookup sessions (i : nat) (s : Session) :
  sessions !! i = Some s ->
  exists s', Pure.applyMoveLocal sessions sessionId toJour toCreneau toSalle !! i = Some s'
    /\ (id s = sessionId ->
        jour s' = toJour /\ creneau s' = toCreneau /\ salle s' = toSalle
        /\ id s' = id s /\ formateur s' = formateur s
        /\ groupe s' = groupe s /\ module s' = module s)
    /\ (id s <> sessionId -> s' = s).
Proof.
  intros Hi. unfold Pure.applyMoveLocal.
  rewrite list_lookup_fmap, Hi. simpl.
  destruct (JS.str_eq (id s) sessionId) eqn:He.
  - eexists. split; [reflexivity|]. apply JSFacts.str_eq_true in He.
    split; [intros _; by repeat split|]. intros Hn. by destruct Hn.
  - eexists. split; [reflexivity|]. apply JSFacts.str_eq_false in He.
    split; [intros Hid; by destruct He|done].
Qed.

Lemma applyMoveLocal_absent sessions :
  (forall s, s ∈ sessions -> id s <> sessionId) ->
  Pure.applyMoveLocal sessions sessionId toJour toCreneau toSalle = sessions.
Proof.
  unfold Pure.applyMoveLocal.
  induction sessions as [|s l IH]; intros Hall; [done|]. simpl.
  assert (He : JS.str_eq (id s) sessionId = false).
  { apply JSFacts.str_eq_false, Hall. left. }
  rewrite He. f_equal. apply IH. intros x Hx. apply Hall. by right.
Qed.

End ApplyMoveLocal.

(** C9. [applyMoveLocal] keeps the length and the order of the list; at every
    position, a session whose id is [sessionId] has its [jour], [creneau] and
    [salle] replaced by the given values and its [id], [formateur], [groupe]
    and [module] kept, and a session with another id is returned unchanged;
    when no session has that id the result is the input list. *)
Theorem applyMoveLocal_frame
        (sessions : list Session) (sessionId toJour : string)
        (toCreneau : Z) (toSalle : string) :
  length (Pure.applyMoveLocal sessions sessionId toJour toCreneau toSalle)
  = length sessions
  /\ (forall (i : nat) (s : Session),
         sessions !! i = Some s ->
         exists s',
           Pure.applyMoveLocal sessions sessionId toJour toCreneau toSalle !! i
           = Some s'
           /\ (id s = sessionId ->
               jour s' = toJour /\ creneau s' = toCreneau /\ salle s' = toSalle
               /\ id s' = id s /\ formateur s' = formateur s
               /\ groupe s' = groupe s /\ module s' = module s)
           /\ (id s <> sessionId -> s' = s))
  /\ ((forall s, s ∈ sessions -> id s <> sessionId) ->
      Pure.applyMoveLocal sessions sessionId toJour toCreneau toSalle = sessions).
Proof.
  split; [apply applyMoveLocal_length|].
  split; [apply applyMoveLocal_lookup|apply applyMoveLocal_absent].
Qed.

(** The move of S1 to Tuesday, second slot, room R2, in a list of two. *)
Lemma applyMoveLocal_frame_witness :
  Pure.applyMoveLocal [Sample.S1; Sample.S2] "S1" "mardi" 2 "R2"
  = [mkSession "S1" "T1" "G1" "M1" "mardi" 2 "R2"; Sample.S2]
  /\ Pure.applyMoveLocal [Sample.S1; Sample.S2] "S9" "mardi" 2 "R2"
     = [Sample.S1; Sample.S2].
Proof.
  split; [reflexivity|].
  apply (applyMoveLocal_frame [Sample.S1; Sample.S2] "S9" "mardi" 2 "R2").
  intros s Hs.
  apply elem_of_cons in Hs as [->|Hs]; [discriminate|].
  apply elem_of_cons in Hs as [->|Hs]; [discriminate|].
  by apply elem_of_nil in Hs.
Defined.

(* ===================================================================== *)
(** * The conflict check: [hasConflict] *)
(* ===================================================================== *)

Section HasConflict.

Variable expand : string -> list string.
Variable isVirtual : string -> bool.

Lemma conflicts_with_spec session targetCell s :
  Pure.conflicts_with expand isVirtual session targetCell s = true
  <-> Conflict expand isVirtual session targetCell s.
Proof.
  unfold Pure.conflicts_with, Conflict.
  destruct (JS.str_eq (id s) (id session)) eqn:Hid.
  { apply JSFacts.str_eq_true in Hid. split; [discriminate|]. by intros [Hn _]. }
  apply JSFacts.str_eq_false in Hid.
  destruct (JS.str_eq (jour s) (day targetCell)) eqn:Hj; simpl.
  2:{ apply JSFacts.str_eq_false in Hj. split; [discriminate|]. by intros (_ & ? & _). }
  apply JSFacts.str_eq_true in Hj.
  destruct (JS.num_eq (creneau s) (slot targetCell)) eqn:Hc; simpl.
  2:{ split; [discriminate|]. intros (_ & _ & Hs & _).
      apply JSFacts.num_eq_true in Hs. congruence. }
  apply JSFacts.num_eq_true in Hc.
  rewrite !orb_true_iff, !andb_true_iff, !negb_true_iff,
          JSFacts.str_eq_true, JSFacts.str_eq_true, JSFacts.some_true.
  split.
  - intros H. repeat split; try done.
    destruct H as [[H|H]|(g & Hg & Hi)]; [left; tauto|right; left; tauto|].
    right; right. exists g. split; [done|]. by apply JSFacts.includes_true.
  - intros (_ & _ & _ & [H|[H|(g & Hg & Hi)]]).
    + left; left. tauto.
    + by left; right.
    + right. exists g. split; [done|]. by apply JSFacts.includes_true.
Qed.

Lemma hasConflict_Some sessions session targetCell s :
  Pure.hasConflict expand isVirtual sessions session targetCell = Some s ->
  s ∈ sessions /\ Conflict expand isVirtual session targetCell s.
Proof.
  intros H. apply JSFacts.find_Some in H as [Hin Hp].
  split; [done|]. by apply conflicts_with_spec.
Qed.

Lemma hasConflict_is_Some sessions session targetCell :
  Pure.hasConflict expand isVirtual sessions session targetCell <> None
  <-> exists s, s ∈ sessions /\ Conflict expand isVirtual session targetCell s.
Proof.
  unfold Pure.hasConflict. rewrite JSFacts.find_is_Some.
  split; intros (s & Hin & H); exists s; split; try done;
    by apply conflicts_with_spec.
Qed.

End HasConflict.

(** The conflict check of [VirtualTimetable.tsx] is the one of the hook,
    over the official sessions. *)
Lemma VirtualTimetable_hasConflict_eq salles onlineFusions officialSessions
      session targetCell :
  VirtualTimetable.hasConflict salles onlineFusions officialSessions
                               session targetCell
  = Pure.hasConflict (Page.expandGroupIds (Page.fusionMap onlineFusions))
                     (Page.isVirtualRoom salles)
                     officialSessions session targetCell.
Proof. reflexivity. Qed.

(** C3. [hasConflict] returns a session exactly when some session of the
    list, other than the candidate (different id), sits at the target day and
    slot and shares with the candidate a physical room (equal rooms, neither
    virtual), or the trainer, or a member of the fusion expansions of the two
    groups; the session returned is such a session, and [null] is returned
    exactly when there is none.  In particular a shared member of the two
    expansions is enough, whatever the literal [groupe] strings.  The same
    holds for the check of the virtual timetable page. *)
Theorem hasConflict_iff
        (expand : string -> list string) (isVirtual : string -> bool)
        (sessions : list Session) (session : Session) (targetCell : Cell) :
  (Pure.hasConflict expand isVirtual sessions session targetCell <> None
   <-> exists s, s ∈ sessions /\ Conflict expand isVirtual session targetCell s)
  /\ (forall s,
         Pure.hasConflict expand isVirtual sessions session targetCell = Some s ->
         s ∈ sessions /\ Conflict expand isVirtual session targetCell s)
  /\ (Pure.hasConflict expand isVirtual sessions session targetCell = None
      <-> forall s, s ∈ sessions ->
                    ~ Conflict expand isVirtual session targetCell s)
  /\ (forall s g,
         s ∈ sessions -> id s <> id session ->
         jour s = day targetCell -> creneau s = slot targetCell ->
         g ∈ expand (groupe session) -> g ∈ expand (groupe s) ->
         Pure.hasConflict expand isVirtual sessions session targetCell <> None)
  /\ (forall salles onlineFusions,
         VirtualTimetable.hasConflict salles onlineFusions sessions
                                      session targetCell
         = Pure.hasConflict (Page.expandGroupIds (Page.fusionMap onlineFusions))
                            (Page.isVirtualRoom salles)
                            sessions session targetCell).
Proof.
  split; [apply hasConflict_is_Some|].
  split; [intros s; apply hasConflict_Some|].
  split.
  - unfold Pure.hasConflict. rewrite JSFacts.find_None.
    split; intros H s Hs.
    + rewrite <- conflicts_with_spec, (H s Hs). discriminate.
    + specialize (H s Hs). rewrite <- conflicts_with_spec in H.
      by destruct (Pure.conflicts_with _ _ _ _ s).
  - split; [|intros; apply VirtualTimetable_hasConflict_eq].
    intros s g Hs Hid Hj Hc Hg1 Hg2. apply hasConflict_is_Some.
    exists s. split; [done|]. repeat split; try done.
    right; right. by exists g.
Qed.

(** S1 of group G1 dropped on the cell of the online session S4 of the fused
    group G1_G2: the groups differ as strings, the check reports S4. *)
Lemma hasConflict_iff_witness :
  Index.hasConflict Sample.salles Sample.fusions
                    (Sample.world [Sample.S1; Sample.S4] 1)
                    Sample.S1 (mkCell "mardi" 2)
  = Some Sample.S4
  /\ groupe Sample.S1 <> groupe Sample.S4
  /\ Pure.hasConflict (Index.expandGroupIds Sample.fusions)
                      (Index.isVirtualRoom Sample.salles)
                      [Sample.S1; Sample.S4] Sample.S1 (mkCell "mardi" 2)
     <> None.
Proof.
  split; [vm_compute; reflexivity|]. split; [discriminate|].
  apply (hasConflict_iff (Index.expandGroupIds Sample.fusions)
                         (Index.isVirtualRoom Sample.salles)
                         [Sample.S1; Sample.S4] Sample.S1 (mkCell "mardi" 2)).
  exists Sample.S4. split; [right; left|].
  repeat split; try discriminate.
  right; right. exists "G1". split; vm_compute; left.
Defined.

(* ===================================================================== *)
(** * Running handlers: basic facts *)
(* ===================================================================== *)

Lemma run_bind B {A C} (p : Prog A) (f : A -> Prog C) (w : World) :
  run B (bind p f) w = run B (f (result B p w)) (exec B p w).
Proof.
  revert w. induction p as [a|X c k IH]; intros w; simpl; [done|]. apply IH.
Qed.

Lemma exec_bind B {A C} (p : Prog A) (f : A -> Prog C) (w : World) :
  exec B (bind p f) w = exec B (f (result B p w)) (exec B p w).
Proof. unfold exec at 1 2. by rewrite run_bind. Qed.

Lemma trace_bind B {A C} (p : Prog A) (f : A -> Prog C) (w : World) :
  trace B (bind p f) w
  = trace B p w ++ trace B (f (result B p w)) (exec B p w).
Proof.
  revert w. induction p as [a|X c k IH]; intros w; simpl; [done|].
  f_equal. apply IH.
Qed.

(** The log after a run is the log before it followed by the trace. *)
Lemma log_exec B {A} (p : Prog A) (w : World) :
  log (exec B p w) = log w ++ trace B p w.
Proof.
  revert w. induction p as [a|X c k IH]; intros w; simpl.
  - unfold exec. simpl. by rewrite app_nil_r.
  - unfold exec in *. simpl. rewrite IH. simpl. by rewrite <- app_assoc.
Qed.

Lemma trace_call B {X A} (c : Call X) (k : X -> Prog A) (w : World) :
  trace B (bind (call c) k) w
  = [Ev c (answer B c w)] ++ trace B (k (answer B c w)) (snd (handle B c w)).
Proof. reflexivity. Qed.

Lemma exec_call B {X A} (c : Call X) (k : X -> Prog A) (w : World) :
  exec B (bind (call c) k) w = exec B (k (answer B c w)) (snd (handle B c w)).
Proof. reflexivity. Qed.

(* ===================================================================== *)
(** * Dropping a session on its own cell *)
(* ===================================================================== *)

(** C10. In the main grid, a drop onto the cell the session already occupies
    makes the handler return at once: it is the empty program whatever the
    props are, so on the page the world (sessions, version, grid state, log
    of calls) is left as it was: no conflict check, no room query, no
    command, no state change. *)
Theorem handleDrop_same_cell
        (hasConflict : Session -> Cell -> option Session)
        (updateSession : string -> PartialSession -> Prog bool)
        (isLoading readOnly : bool)
        (session : Session) (day : string) (slot : Z) :
  jour session = day -> creneau session = slot ->
  ScheduleGrid.handleDrop hasConflict updateSession isLoading readOnly
                          session day slot = Ret tt
  /\ (forall salles onlineFusions B w,
         Index.drop_session salles onlineFusions readOnly B w session day slot
         = w).
Proof.
  intros Hj Hc.
  assert (Hsame : JS.str_eq (jour session) day
                  && JS.num_eq (creneau session) slot = true).
  { apply andb_true_iff. split; [by apply JSFacts.str_eq_true|by apply JSFacts.num_eq_true]. }
  split.
  - unfold ScheduleGrid.handleDrop. rewrite Hsame. by destruct isLoading, readOnly.
  - intros salles onlineFusions B w.
    unfold Index.drop_session, Index.dropped, Index.handleDrop,
      ScheduleGrid.handleDrop, exec.
    rewrite Hsame. by destruct (h_loading (hook (Index.first_rendered w))), readOnly.
Qed.

(** S1 dropped on Monday, first slot, where it already is. *)
Lemma handleDrop_same_cell_witness :
  Index.drop_session Sample.salles Sample.fusions false
                     (Sample.backend (Rejected (Sample.rejection "CONFLICT" None))
                                     (Resolved (mkDTO None None)) ["R1"])
                     (Sample.world [Sample.S1; Sample.S2] 1)
                     Sample.S1 "lundi" 1
  = Sample.world [Sample.S1; Sample.S2] 1.
Proof.
  apply (handleDrop_same_cell
           (fun _ _ => None) (fun _ _ => Ret true) false false
           Sample.S1 "lundi" 1); reflexivity.
Defined.

(* ===================================================================== *)
(** * Reconciliation after a command *)
(* ===================================================================== *)

(** Calls that do not reach the backend are neither commands nor fetches. *)
Lemma no_network_no_outcome (l : list Event) :
  filter is_network l = [] ->
  command_outcomes l = [] /\ refetches l = [] /\ commands l = [].
Proof.
  induction l as [|[X c x] l IH]; [done|].
  rewrite filter_cons. destruct c; simpl; try discriminate; apply IH.
Qed.

Lemma command_outcomes_app l1 l2 :
  command_outcomes (l1 ++ l2) = command_outcomes l1 ++ command_outcomes l2.
Proof. apply omap_app. Qed.

Lemma refetches_app l1 l2 : refetches (l1 ++ l2) = refetches l1 ++ refetches l2.
Proof. apply omap_app. Qed.

Lemma commands_app l1 l2 : commands (l1 ++ l2) = commands l1 ++ commands l2.
Proof. apply omap_app. Qed.

(** What [fetchData] does: one fetch of the timetable and no command; when
    the fetch succeeds the sessions are replaced by the fetched ones and the
    version by the fetched one if it is a number; when it fails both stay. *)
Lemma fetchData_outcome B w :
  exists r,
    filter is_network (trace B UseSchedule.fetchData w) = [Ev getTimetable r]
    /\ refetches (trace B UseSchedule.fetchData w) = [r]
    /\ command_outcomes (trace B UseSchedule.fetchData w) = []
    /\ commands (trace B UseSchedule.fetchData w) = []
    /\ rooms_prop (exec B UseSchedule.fetchData w) = rooms_prop w
    /\ match r with
       | Resolved dto =>
           h_sessions (hook (exec B UseSchedule.fetchData w))
           = UseSchedule.normalizeSessions (JS.nullish (dto_sessions dto) [])
           /\ h_version (hook (exec B UseSchedule.fetchData w))
              = JS.nullish (dto_version dto) (h_version (hook w))
       | Rejected _ =>
           h_sessions (hook (exec B UseSchedule.fetchData w)) = h_sessions (hook w)
           /\ h_version (hook (exec B UseSchedule.fetchData w)) = h_version (hook w)
       end.
Proof.
  destruct w as [[ss v ld er] rs g fr lg].
  unfold UseSchedule.fetchData, exec. cbn.
  case_timetable.
  - exists (Resolved dto). cbn.
    destruct (dto_version dto) as [v'|]; cbn; rewrite ?Hr; cbn; done.
  - exists (Rejected e). cbn. rewrite ?Hr. done.
Qed.

Lemma fetchData_no_command B w :
  command_outcomes (trace B UseSchedule.fetchData w) = [].
Proof. by destruct (fetchData_outcome B w) as (r & _ & _ & H & _). Qed.

Lemma moveSessionDnD_reconciled B w sessionId toJour toCreneau toSalle :
  exists commandId,
    Reconciled B w
      (UseSchedule.moveSessionDnD (h_sessions (hook w)) (h_version (hook w))
                                  sessionId toJour toCreneau toSalle)
      (MOVE_SESSION commandId (h_version (hook w))
                    sessionId toJour toCreneau toSalle)
      refetch_after_move.
Proof.
  destruct w as [[ss v ld er] rs g fr lg].
  unfold Reconciled, Adopted, RolledBack, refetch_after_move.
  unfold UseSchedule.moveSessionDnD, UseSchedule.newCommandId, exec. cbn.
  case_command.
  - eexists _, (Resolved res). cbn. split; [done|].
    split; [|discriminate]. intros ? [= <-].
    by eexists [_; _].
  - eexists _, (Rejected e). split.
    { cbn. destruct (JsError.body e) as [b|]; cbn; [|done].
      destruct (CommandError.ok b) as [[|]|]; cbn; try done.
      unfold when. case_bool_decide; cbn; [|done].
      rewrite trace_bind. cbn. by rewrite app_nil_r, fetchData_no_command. }
    split; [discriminate|]. intros ? [= <-].
    eexists [_; _], (mkWorld (mkHook ss v ld er) rs g fr _). cbn.
    destruct (JsError.body e) as [b|]; cbn; [|done].
    destruct (CommandError.ok b) as [[|]|]; cbn; try done.
    unfold when. case_bool_decide; cbn; [|done].
    rewrite trace_bind, run_bind. cbn. by rewrite app_nil_r.
Qed.

Lemma deleteSession_reconciled B w sessionId :
  exists commandId,
    Reconciled B w
      (UseSchedule.deleteSession (h_sessions (hook w)) (h_version (hook w))
                                 sessionId)
      (DELETE_SESSION commandId (h_version (hook w)) sessionId)
      refetch_after_delete.
Proof.
  destruct w as [[ss v ld er] rs g fr lg].
  unfold Reconciled, Adopted, RolledBack, refetch_after_delete.
  unfold UseSchedule.deleteSession, exec. cbn.
  case_command.
  - eexists _, (Resolved res). cbn. split; [done|].
    split; [|discriminate]. intros ? [= <-].
    by eexists [_; _].
  - eexists _, (Rejected e). split.
    { cbn. unfold when. case_bool_decide; cbn; [|done].
      rewrite trace_bind. cbn. by rewrite app_nil_r, fetchData_no_command. }
    split; [discriminate|]. intros ? [= <-].
    eexists [_; _], (mkWorld (mkHook ss v ld er) rs g fr _). cbn.
    unfold when. case_bool_decide; cbn; [|done].
    rewrite trace_bind, run_bind. cbn. by rewrite app_nil_r.
Qed.

(** Every move or delete sends exactly one command, carrying the version the
    hook held, and reconciles with its outcome. *)
Lemma initiated_reconciled B w (a : UseSchedule.Action) :
  exists commandId,
    Reconciled B w (UseSchedule.initiated w a) (command_of w a commandId)
               (refetch_after a).
Proof.
  destruct a as [sid j c s|sid]; simpl.
  - apply moveSessionDnD_reconciled.
  - apply deleteSession_reconciled.
Qed.

(** The outcome of the only command of a run, read back from its trace. *)
Lemma outcome_inv B w (a : UseSchedule.Action) cmd scope r :
  (cmd, scope, r) ∈ command_outcomes (trace B (UseSchedule.initiated w a) w) ->
  scope = official
  /\ command_outcomes (trace B (UseSchedule.initiated w a) w) = [(cmd, official, r)]
  /\ (forall res, r = Resolved res ->
                  Adopted B w (UseSchedule.initiated w a) cmd res)
  /\ (forall e, r = Rejected e ->
                RolledBack B w (UseSchedule.initiated w a) cmd e (refetch_after a e)).
Proof.
  intros Hin. destruct (initiated_reconciled B w a) as (cid & r' & Ho & Hres & Hrej).
  rewrite Ho in Hin. apply list_elem_of_singleton in Hin. injection Hin as -> -> ->.
  by rewrite Ho.
Qed.

(** Everything a refused action leaves behind. *)
Lemma rejected_run B w (a : UseSchedule.Action) cmd scope e :
  (cmd, scope, Rejected e)
    ∈ command_outcomes (trace B (UseSchedule.initiated w a) w) ->
  scope = official
  /\ commands (trace B (UseSchedule.initiated w a) w) = [(cmd, official)]
  /\ exists pre post w_rb,
      trace B (UseSchedule.initiated w a) w
      = pre ++ Ev (sendTimetableCommand cmd official) (Rejected e)
            :: Ev (setSessions (h_sessions (hook w))) tt :: post
      /\ filter is_network pre = []
      /\ hook w_rb = hook w
      /\ if refetch_after a e
         then post = trace B UseSchedule.fetchData w_rb
              /\ exec B (UseSchedule.initiated w a) w
                 = exec B UseSchedule.fetchData w_rb
              /\ refetches (trace B (UseSchedule.initiated w a) w)
                 = refetches (trace B UseSchedule.fetchData w_rb)
         else post = []
              /\ exec B (UseSchedule.initiated w a) w = w_rb
              /\ refetches (trace B (UseSchedule.initiated w a) w) = [].
Proof.
  intros Hin. apply outcome_inv in Hin as (-> & Ho & _ & Hrej).
  destruct (Hrej e eq_refl) as (pre & w_rb & Ht & Hpre & Hh & Hg & He).
  destruct (no_network_no_outcome pre Hpre) as (Hpo & Hpr & Hpc).
  split; [done|]. split.
  { rewrite Ht, commands_app, Hpc. cbn.
    destruct (refetch_after a e); [|done].
    destruct (fetchData_outcome B w_rb) as (r & _ & _ & _ & Hfc & _).
    f_equal. exact Hfc. }
  exists pre, (if refetch_after a e then trace B UseSchedule.fetchData w_rb else []), w_rb.
  split; [done|]. split; [done|]. split; [done|].
  rewrite Ht, refetches_app, Hpr. cbn.
  by destruct (refetch_after a e).
Qed.



(** C6, as amended.  After a command that succeeded the stored version is
    the [version] field of the response.  After a rejection the stored
    version is never taken from the body of the rejection: it keeps the
    value it had, unless the rejection made the hook fetch the timetable
    again and the fetched timetable carries a numeric version, which is then
    the stored one. *)
Theorem version_adoption
        (B : Backend) (w : World) (a : UseSchedule.Action)
        (cmd : TimetableCommand) (scope : Scope)
        (r : outcome CommandSuccess.t) :
  (cmd, scope, r)
    ∈ command_outcomes (trace B (UseSchedule.initiated w a) w) ->
  match r with
  | Resolved res =>
      h_version (hook (exec B (UseSchedule.initiated w a) w))
      = CommandSuccess.version res
  | Rejected e =>
      ((forall dto, Resolved dto
                      ∈ refetches (trace B (UseSchedule.initiated w a) w) ->
                    dto_version dto = None) ->
       h_version (hook (exec B (UseSchedule.initiated w a) w))
       = h_version (hook w))
      /\ (forall dto v,
             Resolved dto
               ∈ refetches (trace B (UseSchedule.initiated w a) w) ->
             dto_version dto = Some v ->
             h_version (hook (exec B (UseSchedule.initiated w a) w)) = v)
  end.
Proof.
  intros Hin. destruct r as [res|e].
  - apply outcome_inv in Hin as (_ & _ & Hres & _).
    by destruct (Hres res eq_refl) as (pre & _ & _ & _ & Hv).
  - apply rejected_run in Hin
      as (-> & Hc & pre & post & w_rb & Ht & Hpre & Hh & Hre).
    destruct (refetch_after a e).
    + destruct Hre as (-> & -> & ->).
      destruct (fetchData_outcome B w_rb) as (r & _ & -> & _ & _ & _ & Hr).
      destruct r as [dto|e'].
      * destruct Hr as [_ ->]. rewrite Hh. split.
        -- intros Hno. rewrite (Hno dto); [done|]. by apply list_elem_of_singleton.
        -- intros dto' v Hd Hv. apply list_elem_of_singleton in Hd.
           injection Hd as ->. by rewrite Hv.
      * destruct Hr as [_ ->]. rewrite Hh. split; [done|].
        intros dto v Hd. by apply list_elem_of_singleton in Hd.
    + destruct Hre as (-> & -> & ->). rewrite Hh. split; [done|].
      intros dto v Hd. by apply elem_of_nil in Hd.
Qed.




(** C6 fails as stated: the move of S1 is refused with a conflict whose body
    says the server is at version 7; the hook held version 3 and still holds
    3 afterwards. *)
Lemma rejection_version_not_adopted :
  (Sample.move_S1_command, official,
   Rejected (Sample.rejection "CONFLICT" (Some 7)))
    ∈ command_outcomes
        (trace Sample.conflict_backend
               (UseSchedule.initiated Sample.hook_S1_S2 Sample.move_S1)
               Sample.hook_S1_S2)
  /\ (CommandError.version
        <$> JsError.body (Sample.rejection "CONFLICT" (Some 7)))
     = Some (Some 7)
  /\ h_version (hook (exec Sample.conflict_backend
                           (UseSchedule.initiated Sample.hook_S1_S2 Sample.move_S1)
                           Sample.hook_S1_S2))
     = 3
  /\ h_version (hook (exec Sample.conflict_backend
                           (UseSchedule.initiated Sample.hook_S1_S2 Sample.move_S1)
                           Sample.hook_S1_S2))
     <> 7.
Proof.
  split; [vm_compute; left|].
  split; [reflexivity|]. split; [vm_compute; reflexivity|vm_compute; discriminate].
Qed.

(** The move of S1 accepted at version 4: the hook holds version 4. *)
Lemma version_adoption_witness :
  h_version (hook (exec Sample.accepting_backend
                        (UseSchedule.initiated Sample.hook_S1_S2 Sample.move_S1)
                        Sample.hook_S1_S2))
  = 4.
Proof.
  apply (version_adoption Sample.accepting_backend Sample.hook_S1_S2
                          Sample.move_S1 Sample.move_S1_command official
                          (Resolved Sample.accepted)).
  vm_compute. left.
Defined.

(* ===================================================================== *)
(** * Frames: what a handler does not touch *)
(* ===================================================================== *)

Lemma result_bind B {A C} (p : Prog A) (f : A -> Prog C) (w : World) :
  result B (bind p f) w = result B (f (result B p w)) (exec B p w).
Proof. unfold result at 1 2. by rewrite run_bind. Qed.

Lemma result_call B {X A} (c : Call X) (k : X -> Prog A) (w : World) :
  result B (bind (call c) k) w
  = result B (k (answer B c w)) (snd (handle B c w)).
Proof. reflexivity. Qed.

(** No call changes the [rooms] prop. *)
Lemma rooms_frame B {A} (p : Prog A) (w : World) :
  rooms_prop (exec B p w) = rooms_prop w.
Proof.
  revert w. induction p as [a|X c k IH]; intros w; [done|].
  unfold exec in *. simpl. rewrite IH. by destruct c.
Qed.

Lemma grid_frame B {A} (p : Prog A) (w : World) :
  Forall (fun e => touches_grid e = false /\ rerenders e = false) (trace B p w) ->
  grid (exec B p w) = grid w /\ first_render (exec B p w) = first_render w.
Proof.
  revert w. induction p as [a|X c k IH]; intros w; [done|].
  simpl. intros H. apply Forall_cons in H as [[Hc Hr] Hk].
  unfold exec in *. simpl. destruct (IH _ _ Hk) as [-> ->]. by destruct c.
Qed.

Lemma hook_frame B {A} (p : Prog A) (w : World) :
  Forall (fun e => touches_hook e = false) (trace B p w) ->
  hook (exec B p w) = hook w.
Proof.
  revert w. induction p as [a|X c k IH]; intros w; [done|].
  simpl. intros H. apply Forall_cons in H as [Hc Hk].
  unfold exec in *. simpl. rewrite (IH _ _ Hk). by destruct c.
Qed.

Lemma hook_calls_quiet (l : list Event) :
  Forall (fun e => hook_call e = true) l ->
  room_queries l = [] /\ toasts l = [] /\ prop_updates l = []
  /\ filter touches_grid l = [].
Proof.
  induction 1 as [|[X c x] l Hc _ IH]; [done|].
  destruct IH as (Hr & Ht & Hp & Hg).
  rewrite filter_cons.
  destruct c; try discriminate;
    (split; [exact Hr|split; [exact Ht|split; [exact Hp|exact Hg]]]).
Qed.

Lemma fetchData_hook_calls B w :
  Forall (fun e => hook_call e = true) (trace B UseSchedule.fetchData w).
Proof.
  unfold UseSchedule.fetchData. cbn.
  case_timetable; cbn; [destruct (dto_version dto); cbn|]; by repeat constructor.
Qed.

(** [fetchData] and the grid of the main page.  A grid that was on the page
    is taken off it while the timetable is fetched; the grid on the page
    afterwards is a new one, whose first render is given the state the fetch
    left.  In every case the grid is as it was or in its initial state. *)
Lemma fetchData_grid B w :
  (shown (hook w) = true ->
   grid (exec B UseSchedule.fetchData w) = initial_grid (rooms_prop w))
  /\ (shown (hook (exec B UseSchedule.fetchData w)) = true ->
      grid (exec B UseSchedule.fetchData w) = initial_grid (rooms_prop w)
      /\ first_render (exec B UseSchedule.fetchData w)
         = hook (exec B UseSchedule.fetchData w))
  /\ (grid (exec B UseSchedule.fetchData w) = grid w
      \/ grid (exec B UseSchedule.fetchData w) = initial_grid (rooms_prop w)).
Proof.
  destruct w as [[ss v ld er] rs g fr lg].
  unfold UseSchedule.fetchData, exec. cbn.
  case_timetable.
  - destruct (dto_version dto) as [v'|], ld, er as [[|c er]|]; cbn;
      repeat split; try done; try discriminate; auto.
  - destruct (JsError.message e) as [[|c m]|], ld, er as [[|c' er]|]; cbn;
      repeat split; try done; try discriminate; auto.
Qed.

(** A move through the hook, run from any world with any closure
    [(sessions, version)]: exactly one command is sent, the move of the
    session to the given place with the version of the closure, and nothing
    is called but the hook's own state, the command and possibly a fetch.
    Accepted, the sessions and the version of the answer are adopted and
    nothing is fetched; refused, an error is returned and the sessions are
    set back to those of the closure. *)
Lemma moveSessionDnD_run B w sessions version sessionId toJour toCreneau toSalle :
  let p := UseSchedule.moveSessionDnD sessions version
                                      sessionId toJour toCreneau toSalle in
  exists commandId r,
    command_outcomes (trace B p w)
    = [(MOVE_SESSION commandId version sessionId toJour toCreneau toSalle,
        official, r)]
    /\ Forall (fun e => hook_call e = true) (trace B p w)
    /\ (shown (hook w) = true ->
        grid (exec B p w) = grid_after_move (rooms_prop w) (grid w) r)
    /\ (grid (exec B p w) = grid w
        \/ grid (exec B p w) = initial_grid (rooms_prop w))
    /\ match r with
       | Resolved res =>
           run B p w
           = (Ok, mkWorld (mkHook (CommandSuccess.sessions res)
                                  (CommandSuccess.version res)
                                  (h_loading (hook w)) (h_error (hook w)))
                          (rooms_prop w) (grid w) (first_render w)
                          (log w ++ trace B p w))
           /\ refetches (trace B p w) = []
       | Rejected e =>
           (exists error, result B p w = Ko error)
           /\ (refetch_after_move e = false ->
               hook (exec B p w)
               = mkHook sessions (h_version (hook w))
                        (h_loading (hook w)) (h_error (hook w))
               /\ grid (exec B p w) = grid w
               /\ first_render (exec B p w) = first_render w)
       end.
Proof.
  intros p. subst p.
  destruct w as [[ss v ld er] rs g fr lg].
  unfold UseSchedule.moveSessionDnD, UseSchedule.newCommandId,
    grid_after_move, refetch_after_move, exec, result.
  cbn.
  case_command.
  - eexists _, (Resolved res). cbn. rewrite <- !app_assoc.
    repeat split; auto; by repeat constructor.
  - eexists _, (Rejected e).
    assert (Hfour : forall l : list Event,
               Forall (fun e => hook_call e = true) l ->
               Forall (fun e => hook_call e = true)
                 (Ev (setSessions
                        (Pure.applyMoveLocal sessions sessionId toJour
                                             toCreneau toSalle)) tt
                  :: Ev randomUUID
                        (on_randomUUID B
                           (lg ++ [Ev (setSessions
                                         (Pure.applyMoveLocal
                                            sessions sessionId toJour
                                            toCreneau toSalle)) tt]))
                  :: Ev (sendTimetableCommand
                           (MOVE_SESSION
                              (on_randomUUID B
                                 (lg ++ [Ev (setSessions
                                               (Pure.applyMoveLocal
                                                  sessions sessionId toJour
                                                  toCreneau toSalle)) tt]))
                              version sessionId toJour toCreneau toSalle)
                           official) (Rejected e)
                  :: Ev (setSessions sessions) tt :: l)).
    { intros l Hl. by repeat (constructor; [done|]). }
    destruct (JsError.body e) as [b|]; cbn;
      [|repeat split; eauto; by apply Hfour].
    destruct (CommandError.ok b) as [[|]|]; cbn;
      try (repeat split; eauto; by apply Hfour).
    unfold when. case_bool_decide; cbn;
      [|repeat split; eauto; by apply Hfour].
    rewrite !trace_bind, ?run_bind, ?result_bind, ?exec_bind. cbn.
    rewrite !app_nil_r.
    match goal with
    | |- context [trace B UseSchedule.fetchData ?w0] =>
        pose proof (fetchData_hook_calls B w0) as Hcalls;
        pose proof (fetchData_no_command B w0) as Hc;
        destruct (fetchData_grid B w0) as (Hsh & _ & Hor)
    end.
    unfold command_outcomes in Hc. cbn in Hsh, Hor.
    rewrite ?omap_app, ?Hc. cbn.
    repeat split; eauto; try discriminate; by apply Hfour.
Qed.

(** The same through [updateSession], called with a day, a slot and a
    room: besides, no room is queried, no toast is shown and no setter of the
    grid is called, and the answer is [true] exactly when the command is
    accepted. *)
Lemma updateSession_move_run B w sessions version sessionId toJour toCreneau toSalle :
  let p := UseSchedule.updateSession sessions version sessionId
             (move_updates toJour toCreneau toSalle) in
  exists commandId r,
    command_outcomes (trace B p w)
    = [(MOVE_SESSION commandId version sessionId toJour toCreneau toSalle,
        official, r)]
    /\ room_queries (trace B p w) = []
    /\ toasts (trace B p w) = []
    /\ filter touches_grid (trace B p w) = []
    /\ result B p w = match r with Resolved _ => true | Rejected _ => false end
    /\ (shown (hook w) = true ->
        grid (exec B p w) = grid_after_move (rooms_prop w) (grid w) r)
    /\ (grid (exec B p w) = grid w
        \/ grid (exec B p w) = initial_grid (rooms_prop w))
    /\ forall res,
        r = Resolved res ->
        hook (exec B p w)
        = mkHook (CommandSuccess.sessions res) (CommandSuccess.version res)
                 (h_loading (hook w)) (h_error (hook w)).
Proof.
  intros p.
  set (move := UseSchedule.moveSessionDnD sessions version
                 sessionId toJour toCreneau toSalle).
  assert (Hp : p = bind move (fun res => Ret (result_ok res))) by done.
  destruct (moveSessionDnD_run B w sessions version
              sessionId toJour toCreneau toSalle)
    as (cid & r & Hc & Hcalls & Hsh & Hor & Hr).
  cbn zeta in Hc, Hcalls, Hsh, Hor, Hr. fold move in Hc, Hcalls, Hsh, Hor, Hr.
  destruct (hook_calls_quiet _ Hcalls) as (Hq & Ht & _ & Hg).
  exists cid, r.
  rewrite Hp, trace_bind, exec_bind, result_bind. clearbody move.
  cbn [trace exec result run fst snd]. rewrite app_nil_r.
  do 4 (split; [done|]). split; [|split; [done|split; [done|]]].
  - destruct r as [res|e].
    + destruct Hr as [Hrun _]. unfold result. by rewrite Hrun.
    + destruct Hr as [[err Herr] _]. by rewrite Herr.
  - intros res ->. destruct Hr as [Hrun _]. unfold exec. by rewrite Hrun.
Qed.

(* ===================================================================== *)
(** * The teacher / group pre-check of a drop *)
(* ===================================================================== *)

(** The pre-check stops the drop exactly when the reported session has the
    trainer or the literal [groupe] of the dragged one; the message names
    the trainer when the trainer is shared, the group otherwise. *)
Lemma precheck_caught session c :
  formateur c = formateur session \/ groupe c = groupe session ->
  ScheduleGrid.precheck session (Some c)
  = Some (if JS.str_eq (formateur c) (formateur session)
          then ScheduleGrid.toast_teacher_busy
          else ScheduleGrid.toast_group_busy).
Proof.
  intros H. unfold ScheduleGrid.precheck.
  destruct (JS.str_eq (formateur c) (formateur session)) eqn:Ht; [done|].
  apply JSFacts.str_eq_false in Ht. destruct H as [H|H]; [done|].
  apply JSFacts.str_eq_true in H. by rewrite H.
Qed.

(** The pre-check lets the drop through exactly when no session is
    reported, or one that has neither the trainer nor the literal [groupe]
    of the dragged one. *)
Lemma precheck_passed session conflict :
  ScheduleGrid.precheck session conflict = None
  <-> forall c, conflict = Some c ->
                formateur c <> formateur session /\ groupe c <> groupe session.
Proof.
  unfold ScheduleGrid.precheck. destruct conflict as [c|]; [|by split].
  destruct (JS.str_eq (formateur c) (formateur session)) eqn:Ht;
    destruct (JS.str_eq (groupe c) (groupe session)) eqn:Hg; cbn.
  1-3: split; [discriminate|]; intros H; destruct (H c eq_refl) as [H1 H2].
  - by apply JSFacts.str_eq_true in Ht.
  - by apply JSFacts.str_eq_true in Ht.
  - by apply JSFacts.str_eq_true in Hg.
  - split; [|done]. intros _ c' [= <-].
    by apply JSFacts.str_eq_false in Ht, Hg.
Qed.

Lemma different_cell session (d : string) (s : Z) :
  ~ (jour session = d /\ creneau session = s) ->
  JS.str_eq (jour session) d && JS.num_eq (creneau session) s = false.
Proof.
  intros H. apply andb_false_iff.
  destruct (JS.str_eq (jour session) d) eqn:Hj; [|by left].
  destruct (JS.num_eq (creneau session) s) eqn:Hc; [|by right].
  apply JSFacts.str_eq_true in Hj. apply JSFacts.num_eq_true in Hc. by destruct H.
Qed.

(** A drop caught by the pre-check shows one message and does nothing
    else, in both grids. *)
Lemma drop_caught_by_precheck B w hasConflict updateSession scope
      session (d : string) (s : Z) c :
  ~ (jour session = d /\ creneau session = s) ->
  hasConflict session (mkCell d s) = Some c ->
  formateur c = formateur session \/ groupe c = groupe session ->
  let t := if JS.str_eq (formateur c) (formateur session)
           then ScheduleGrid.toast_teacher_busy
           else ScheduleGrid.toast_group_busy in
  trace B (ScheduleGrid.handleDrop hasConflict updateSession false false
                                   session d s) w
  = [Ev (toast t) tt]
  /\ (isOnlineSession session = false ->
      trace B (VirtualScheduleGrid.handleDrop hasConflict updateSession scope
                                              false session d s) w
      = [Ev (toast t) tt]).
Proof.
  intros Hcell Hc Hsame t.
  unfold ScheduleGrid.handleDrop, VirtualScheduleGrid.handleDrop.
  rewrite (different_cell _ _ _ Hcell), Hc, (precheck_caught _ _ Hsame).
  split; [done|]. by intros ->.
Qed.

(** The scenario of the specification: S1 is dropped on a cell where S3, a
    session of the same trainer, already sits.  The drop is aborted with the
    "trainer busy" message before any request, and nothing changes. *)
Example teacher_busy_scenario :
  trace Sample.accepting_backend
        (Index.handleDrop Sample.salles Sample.fusions false
                          (Sample.world [Sample.S1; Sample.S3] 3)
                          Sample.S1 "mardi" 2)
        (Sample.world [Sample.S1; Sample.S3] 3)
  = [Ev (toast ScheduleGrid.toast_teacher_busy) tt]
  /\ hook (Index.drop_session Sample.salles Sample.fusions false
                              Sample.accepting_backend
                              (Sample.world [Sample.S1; Sample.S3] 3)
                              Sample.S1 "mardi" 2)
     = hook (Sample.world [Sample.S1; Sample.S3] 3).
Proof. split; vm_compute; reflexivity. Qed.

(* ===================================================================== *)
(** * Drops on the main grid ([Index.tsx]) *)
(* ===================================================================== *)

Section IndexDrop.

Variable salles : list SalleEntry.
Variable onlineFusions : list OnlineFusion.
Variable B : Backend.
Variable w : World.
Variable session : Session.
Variable d : string.
Variable s : Z.

Local Abbreviation p :=
  (Index.dropped salles onlineFusions false w session d s).
Local Abbreviation conflict :=
  (Index.hasConflict salles onlineFusions (Index.first_rendered w)
                     session (mkCell d s)).
Local Abbreviation upd :=
  (UseSchedule.updateSession (h_sessions (first_render w))
                             (h_version (first_render w))
                             (id session) (move_updates d s (salle session))).

Hypothesis Hload : h_loading (first_render w) = false.
Hypothesis Hcell : ~ (jour session = d /\ creneau session = s).

(** The drop is stopped by the pre-check: one message, nothing else. *)
Lemma Index_drop_caught t :
  ScheduleGrid.precheck session conflict = Some t ->
  trace B p w = [Ev (toast t) tt]
  /\ hook (exec B p w) = hook w /\ grid (exec B p w) = grid w.
Proof.
  intros Hpre.
  unfold Index.dropped, Index.handleDrop, ScheduleGrid.handleDrop.
  cbn [Index.first_rendered hook]. rewrite Hload, (different_cell _ _ _ Hcell).
  cbn [Index.first_rendered hook] in Hpre. rewrite Hpre.
  by destruct w as [[] ? [] ?].
Qed.

Hypothesis Hpre : ScheduleGrid.precheck session conflict = None.

(** An online session: the handler goes straight to [updateSession]. *)
Lemma Index_drop_online :
  isOnlineSession session = true ->
  exists commandId r,
    command_outcomes (trace B p w)
    = [(MOVE_SESSION commandId (h_version (first_render w)) (id session) d s
                     (salle session), official, r)]
    /\ room_queries (trace B p w) = []
    /\ filter touches_grid (trace B p w) = []
    /\ toasts (trace B p w)
       = [match r with
          | Resolved _ => ScheduleGrid.toast_moved session d s "En ligne"
          | Rejected _ => ScheduleGrid.toast_refused
          end]
    /\ (shown (hook w) = true ->
        grid (exec B p w) = grid_after_move (rooms_prop w) (grid w) r)
    /\ (grid (exec B p w) = grid w
        \/ grid (exec B p w) = initial_grid (rooms_prop w)).
Proof.
  intros Honline.
  assert (Hp : p = bind upd (fun success : bool =>
                 if success
                 then call (toast (ScheduleGrid.toast_moved session d s "En ligne"))
                 else call (toast ScheduleGrid.toast_refused))).
  { unfold Index.dropped, Index.handleDrop, ScheduleGrid.handleDrop.
    cbn [Index.first_rendered hook]. rewrite Hload, (different_cell _ _ _ Hcell).
    cbn [Index.first_rendered hook] in Hpre. by rewrite Hpre, Honline. }
  destruct (updateSession_move_run B w (h_sessions (first_render w))
              (h_version (first_render w)) (id session) d s (salle session))
    as (cid & r & Hc & Hq & Ht & Hg & Hres & Hsh & Hor & _).
  exists cid, r.
  rewrite Hp, trace_bind, exec_bind, command_outcomes_app, filter_app.
  unfold room_queries, toasts in *. rewrite !omap_app, Hc, Hq, Ht, Hg, Hres.
  destruct r; cbn; rewrite ?app_nil_r; repeat split; auto.
Qed.

Variable api : AvailableRoomsResponse.
Hypothesis Hphys : isOnlineSession session = false.
Hypothesis Hrooms : on_getAvailableRooms B (log w) d s official = Resolved api.

Local Abbreviation freeRooms := (JS.nullish (availableRooms api) []).
Local Abbreviation w1 := (snd (handle B (getAvailableRooms d s official) w)).
Local Abbreviation rest :=
  (ScheduleGrid.with_free_rooms
     (UseSchedule.updateSession (h_sessions (first_render w))
                                (h_version (first_render w)))
     session (mkCell d s) conflict freeRooms).

(** Past the pre-check, the handler asks for the free rooms of the cell and
    goes on with the answer. *)
Lemma Index_drop_rooms :
  trace B p w
  = [Ev (getAvailableRooms d s official) (Resolved api)] ++ trace B rest w1
  /\ exec B p w = exec B rest w1.
Proof.
  unfold Index.dropped, Index.handleDrop, ScheduleGrid.handleDrop.
  cbn [Index.first_rendered hook]. rewrite Hload, (different_cell _ _ _ Hcell).
  cbn [Index.first_rendered hook] in Hpre. rewrite Hpre, Hphys.
  rewrite trace_call, exec_call. unfold answer. by rewrite Hrooms.
Qed.

(** No room is free: one message, nothing else. *)
Lemma Index_drop_no_room :
  freeRooms = [] ->
  trace B p w = [Ev (getAvailableRooms d s official) (Resolved api);
                 Ev (toast ScheduleGrid.toast_no_room) tt]
  /\ hook (exec B p w) = hook w /\ grid (exec B p w) = grid w.
Proof.
  intros Hfree. destruct Index_drop_rooms as [-> ->].
  unfold ScheduleGrid.with_free_rooms. rewrite Hfree. by destruct w as [[] ? [] ?].
Qed.

(** The room of the session is free: the move is sent with that room. *)
Lemma Index_drop_same_room :
  salle session ∈ freeRooms ->
  exists commandId r,
    command_outcomes (trace B p w)
    = [(MOVE_SESSION commandId (h_version (first_render w)) (id session) d s
                     (salle session), official, r)]
    /\ room_queries (trace B p w) = [(d, s, official, Resolved api)]
    /\ filter touches_grid (trace B p w) = []
    /\ toasts (trace B p w)
       = [match r with
          | Resolved _ =>
              ScheduleGrid.toast_moved session d s ("Salle " +:+ salle session)
          | Rejected _ => ScheduleGrid.toast_refused
          end]
    /\ (shown (hook w) = true ->
        grid (exec B p w) = grid_after_move (rooms_prop w) (grid w) r)
    /\ (grid (exec B p w) = grid w
        \/ grid (exec B p w) = initial_grid (rooms_prop w)).
Proof.
  intros Hin. destruct Index_drop_rooms as [-> ->].
  assert (Hlen : (length freeRooms =? 0)%nat = false).
  { apply Nat.eqb_neq. destruct freeRooms; [by apply elem_of_nil in Hin|done]. }
  apply JSFacts.includes_true in Hin.
  unfold ScheduleGrid.with_free_rooms. rewrite Hlen, Hin.
  destruct (updateSession_move_run B w1 (h_sessions (first_render w))
              (h_version (first_render w)) (id session) d s (salle session))
    as (cid & r & Hc & Hq & Ht & Hg & Hres & Hsh & Hor & _).
  exists cid, r. cbn [day slot].
  rewrite trace_bind, exec_bind, !command_outcomes_app, !filter_app.
  unfold room_queries, toasts in *. rewrite !omap_app, Hc, Hq, Ht, Hg, Hres.
  destruct r; cbn; rewrite ?app_nil_r; repeat split; auto.
Qed.

(** The room of the session is not free: the prompt is opened on the rooms
    the backend listed, for the session and the cell of the drop, and
    nothing is sent. *)
Lemma Index_drop_prompt :
  freeRooms <> [] -> salle session ∉ freeRooms ->
  commands (trace B p w) = []
  /\ hook (exec B p w) = hook w
  /\ grid (exec B p w)
     = mkGrid true freeRooms (Some session) conflict (Some (mkCell d s)).
Proof.
  intros Hne Hnotin. destruct Index_drop_rooms as [-> ->].
  assert (Hlen : (length freeRooms =? 0)%nat = false).
  { apply Nat.eqb_neq. by destruct freeRooms. }
  assert (Hinc : JS.includes freeRooms (salle session) = false).
  { destruct (JS.includes freeRooms (salle session)) eqn:Hi; [|done].
    by apply JSFacts.includes_true in Hi. }
  unfold ScheduleGrid.with_free_rooms. rewrite Hlen, Hinc. by destruct w as [[] ? [] ?].
Qed.

End IndexDrop.

(** Cancelling the prompt closes it and does nothing else, in both grids. *)
Lemma cancel_prompt_frame B w :
  trace B (RoomSelector.cancel ScheduleGrid.onClose) w
  = [Ev (setRoomSelectorOpen false) tt]
  /\ hook (Index.cancel_prompt B w) = hook w
  /\ grid (Index.cancel_prompt B w)
     = mkGrid false (g_availableRooms (grid w)) (g_draggedSession (grid w))
              (g_conflictSession (grid w)) (g_targetCell (grid w))
  /\ trace B (RoomSelector.cancel VirtualScheduleGrid.onClose) w
     = [Ev (setRoomSelectorOpen false) tt]
  /\ VirtualTimetable.cancel_prompt B w = Index.cancel_prompt B w.
Proof. by destruct w as [[] ? [] ?]. Qed.

(* ===================================================================== *)
(** * Drops on the virtual grid ([VirtualTimetable.tsx]) *)
(* ===================================================================== *)

(** An online session dropped on the virtual grid: the handler returns at
    once, whatever its props. *)
Lemma Virtual_drop_online hasConflict updateSession scope isLoading
      session (d : string) (s : Z) :
  isOnlineSession session = true ->
  VirtualScheduleGrid.handleDrop hasConflict updateSession scope isLoading
                                 session d s
  = Ret tt.
Proof.
  intros H. unfold VirtualScheduleGrid.handleDrop. rewrite H.
  by destruct isLoading.
Qed.

Section VirtualDrop.

Variable salles : list SalleEntry.
Variable onlineFusions : list OnlineFusion.
Variable officialSessions : list Session.
Variable roomsScope : Scope.
Variable B : Backend.
Variable w : World.
Variable session : Session.
Variable d : string.
Variable s : Z.
Variable api : AvailableRoomsResponse.

Local Abbreviation p :=
  (VirtualTimetable.handleDrop salles onlineFusions officialSessions roomsScope
                               false session d s).
Local Abbreviation conflict :=
  (VirtualTimetable.hasConflict salles onlineFusions officialSessions
                                session (mkCell d s)).
Local Abbreviation freeRooms := (JS.nullish (availableRooms api) []).

Hypothesis Hphys : isOnlineSession session = false.
Hypothesis Hpre : ScheduleGrid.precheck session conflict = None.
Hypothesis Hrooms :
  on_getAvailableRooms B (log w) d s roomsScope = Resolved api.

Lemma Virtual_drop_rooms :
  p = bind (call (getAvailableRooms d s roomsScope))
           (fun r => match r with
                     | Rejected e =>
                         call (toast (VirtualScheduleGrid.toast_rooms_error e))
                     | Resolved api =>
                         VirtualScheduleGrid.with_free_rooms
                           VirtualTimetable.updateSession session (mkCell d s)
                           conflict (JS.nullish (availableRooms api) [])
                     end).
Proof.
  unfold VirtualTimetable.handleDrop, VirtualScheduleGrid.handleDrop.
  by rewrite Hphys, Hpre.
Qed.

(** No room is free: one message, nothing else. *)
Lemma Virtual_drop_no_room :
  freeRooms = [] ->
  trace B p w = [Ev (getAvailableRooms d s roomsScope) (Resolved api);
                 Ev (toast VirtualScheduleGrid.toast_no_room) tt]
  /\ hook (exec B p w) = hook w /\ grid (exec B p w) = grid w.
Proof.
  intros Hfree. rewrite Virtual_drop_rooms, trace_call, exec_call.
  unfold answer. rewrite Hrooms.
  unfold VirtualScheduleGrid.with_free_rooms. rewrite Hfree.
  by destruct w as [[] ? [] ?].
Qed.

(** The room of the session is free and no conflict was reported: the page
    is asked to move the session, keeping its room. *)
Lemma Virtual_drop_same_room :
  salle session ∈ freeRooms -> conflict = None ->
  prop_updates (trace B p w)
  = [(id session, move_updates d s (salle session))]
  /\ room_queries (trace B p w) = [(d, s, roomsScope, Resolved api)]
  /\ commands (trace B p w) = []
  /\ filter touches_grid (trace B p w) = []
  /\ hook (exec B p w) = hook w /\ grid (exec B p w) = grid w.
Proof.
  intros Hin Hnone. rewrite Virtual_drop_rooms, trace_call, exec_call.
  unfold answer. rewrite Hrooms.
  unfold VirtualScheduleGrid.with_free_rooms.
  assert (Hlen : (length freeRooms =? 0)%nat = false).
  { apply Nat.eqb_neq. destruct freeRooms; [by apply elem_of_nil in Hin|done]. }
  apply JSFacts.includes_true in Hin. rewrite Hlen, Hin, Hnone.
  unfold VirtualTimetable.updateSession, exec. cbn.
  destruct (on_propUpdateSession B _ _ _); by destruct w as [[] ? [] ?].
Qed.

(** The room of the session is not free, or a conflict was reported: the
    prompt is opened on the rooms the backend listed, for the session and the
    cell of the drop; the page is not asked to move anything. *)
Lemma Virtual_drop_prompt :
  freeRooms <> [] -> salle session ∉ freeRooms \/ conflict <> None ->
  prop_updates (trace B p w) = []
  /\ commands (trace B p w) = []
  /\ hook (exec B p w) = hook w
  /\ grid (exec B p w)
     = mkGrid true freeRooms (Some session) conflict (Some (mkCell d s)).
Proof.
  intros Hne Hor. rewrite Virtual_drop_rooms, trace_call, exec_call.
  unfold answer. rewrite Hrooms.
  unfold VirtualScheduleGrid.with_free_rooms.
  assert (Hlen : (length freeRooms =? 0)%nat = false).
  { apply Nat.eqb_neq. by destruct freeRooms. }
  assert (Hdirect : JS.includes freeRooms (salle session)
                    && negb (bool_decide (is_Some conflict)) = false).
  { apply andb_false_iff. destruct Hor as [Hnotin|Hsome].
    - left. destruct (JS.includes freeRooms (salle session)) eqn:Hi; [|done].
      by apply JSFacts.includes_true in Hi.
    - right. apply negb_false_iff, bool_decide_eq_true.
      by destruct conflict. }
  rewrite Hlen, Hdirect. by destruct w as [[] ? [] ?].
Qed.

End VirtualDrop.

(* ===================================================================== *)
(** * Room resolution, online sessions, and the pre-check on fusions *)
(* ===================================================================== *)

(** C5, as amended.  A session in a physical room is dropped on another cell
    and passes the teacher / group pre-check (it returns no message), and the
    backend lists the available rooms of the cell.  On the main page the drop
    runs the handler that the first render of the grid registered, with the
    conflict check and the version of that render.
    - No room is available: the drop is aborted with the "no room available"
      message; nothing is sent, the hook and the grid are as they were.
    - The current room of the session is among the available rooms: the main
      grid sends one move command with that same room, after the one room
      query, and calls no setter of the grid (no prompt), whether or not a
      conflict on the room was reported; the grid stays as it was, unless the
      command is refused with a version mismatch, after which the grid of the
      page is a new one.  The virtual grid asks its page for that move,
      without prompting, when no conflict was reported.
    - The current room is not among the (non-empty) available rooms, or, in
      the virtual grid, a conflict was reported: nothing is sent and the
      prompt is put on the page for the dropped session, with the reported
      conflict and exactly the available rooms, the target cell being the
      cell of the drop.  Cancelling the prompt calls [onClose] only: the
      prompt leaves the page, nothing is sent, and the hook (sessions,
      version) is as it was. *)
Theorem room_resolution
        (salles : list SalleEntry) (onlineFusions : list OnlineFusion)
        (B : Backend) (w : World) (session : Session) (d : string) (s : Z)
        (api : AvailableRoomsResponse) :
  isOnlineSession session = false ->
  ~ (jour session = d /\ creneau session = s) ->
  (shown (hook w) = true ->
   h_loading (first_render w) = false ->
   ScheduleGrid.precheck
     session (Index.hasConflict salles onlineFusions (Index.first_rendered w)
                                session (mkCell d s)) = None ->
   on_getAvailableRooms B (log w) d s official = Resolved api ->
   (JS.nullish (availableRooms api) [] = [] ->
    trace B (Index.dropped salles onlineFusions false w session d s) w
    = [Ev (getAvailableRooms d s official) (Resolved api);
       Ev (toast ScheduleGrid.toast_no_room) tt]
    /\ hook (Index.drop_session salles onlineFusions false B w session d s)
       = hook w
    /\ grid (Index.drop_session salles onlineFusions false B w session d s)
       = grid w)
   /\ (salle session ∈ JS.nullish (availableRooms api) [] ->
       exists commandId r,
         command_outcomes
           (trace B (Index.dropped salles onlineFusions false w session d s) w)
         = [(MOVE_SESSION commandId (h_version (first_render w)) (id session)
                          d s (salle session), official, r)]
         /\ room_queries
              (trace B (Index.dropped salles onlineFusions false w session d s) w)
            = [(d, s, official, Resolved api)]
         /\ filter touches_grid
              (trace B (Index.dropped salles onlineFusions false w session d s) w)
            = []
         /\ grid (Index.drop_session salles onlineFusions false B w session d s)
            = grid_after_move (rooms_prop w) (grid w) r)
   /\ (JS.nullish (availableRooms api) [] <> [] ->
       salle session ∉ JS.nullish (availableRooms api) [] ->
       let conflict :=
         Index.hasConflict salles onlineFusions (Index.first_rendered w)
                           session (mkCell d s) in
       let w' := Index.drop_session salles onlineFusions false B w session d s in
       commands
         (trace B (Index.dropped salles onlineFusions false w session d s) w)
       = []
       /\ hook w' = hook w
       /\ prompt (grid w')
          = Some (session, conflict, JS.nullish (availableRooms api) [])
       /\ g_targetCell (grid w') = Some (mkCell d s)
       /\ trace B (RoomSelector.cancel ScheduleGrid.onClose) w'
          = [Ev (setRoomSelectorOpen false) tt]
       /\ hook (Index.cancel_prompt B w') = hook w
       /\ prompt (grid (Index.cancel_prompt B w')) = None))
  /\ (forall (officialSessions : list Session) (roomsScope : Scope),
         let conflict :=
           VirtualTimetable.hasConflict salles onlineFusions officialSessions
                                        session (mkCell d s) in
         let p :=
           VirtualTimetable.handleDrop salles onlineFusions officialSessions
                                       roomsScope false session d s in
         let w' :=
           VirtualTimetable.drop_session salles onlineFusions officialSessions
                                         roomsScope false B w session d s in
         ScheduleGrid.precheck session conflict = None ->
         on_getAvailableRooms B (log w) d s roomsScope = Resolved api ->
         (JS.nullish (availableRooms api) [] = [] ->
          trace B p w
          = [Ev (getAvailableRooms d s roomsScope) (Resolved api);
             Ev (toast VirtualScheduleGrid.toast_no_room) tt]
          /\ hook w' = hook w /\ grid w' = grid w)
         /\ (salle session ∈ JS.nullish (availableRooms api) [] ->
             conflict = None ->
             prop_updates (trace B p w)
             = [(id session, move_updates d s (salle session))]
             /\ room_queries (trace B p w) = [(d, s, roomsScope, Resolved api)]
             /\ filter touches_grid (trace B p w) = []
             /\ grid w' = grid w)
         /\ (JS.nullish (availableRooms api) [] <> [] ->
             salle session ∉ JS.nullish (availableRooms api) []
             \/ conflict <> None ->
             prop_updates (trace B p w) = []
             /\ commands (trace B p w) = []
             /\ hook w' = hook w
             /\ prompt (grid w')
                = Some (session, conflict, JS.nullish (availableRooms api) [])
             /\ g_targetCell (grid w') = Some (mkCell d s)
             /\ trace B (RoomSelector.cancel VirtualScheduleGrid.onClose) w'
                = [Ev (setRoomSelectorOpen false) tt]
             /\ hook (VirtualTimetable.cancel_prompt B w') = hook w
             /\ prompt (grid (VirtualTimetable.cancel_prompt B w')) = None)).
Proof.
  intros Hphys Hcell. split.
  - intros Hshown Hload Hpre Hrooms. unfold Index.drop_session.
    split; [|split].
    + by apply Index_drop_no_room.
    + intros Hin.
      destruct (Index_drop_same_room salles onlineFusions B w session d s
                  Hload Hcell Hpre api Hphys Hrooms Hin)
        as (cid & r & Hc & Hq & Hg & _ & Hsh & _).
      exists cid, r. auto.
    + intros Hne Hnotin. cbv zeta.
      destruct (Index_drop_prompt salles onlineFusions B w session d s
                  Hload Hcell Hpre api Hphys Hrooms Hne Hnotin)
        as (Hc & Hh & Hg).
      destruct (cancel_prompt_frame B
                  (exec B (Index.dropped salles onlineFusions false
                                         w session d s) w))
        as (Ht & Hk & Hkg & _).
      rewrite Hkg, Hk, Hg, Hh. done.
  - intros officialSessions roomsScope conflict p w' Hpre Hrooms.
    subst conflict p w'. unfold VirtualTimetable.drop_session.
    split; [|split].
    + by apply Virtual_drop_no_room.
    + intros Hin Hnone.
      destruct (Virtual_drop_same_room salles onlineFusions officialSessions
                  roomsScope B w session d s api Hphys Hpre Hrooms Hin Hnone)
        as (Hu & Hq & _ & Hg & _ & Hgr).
      done.
    + intros Hne Hor.
      destruct (Virtual_drop_prompt salles onlineFusions officialSessions
                  roomsScope B w session d s api Hphys Hpre Hrooms Hne Hor)
        as (Hu & Hc & Hh & Hg).
      destruct (cancel_prompt_frame B
                  (exec B (VirtualTimetable.handleDrop salles onlineFusions
                             officialSessions roomsScope false session d s) w))
        as (_ & Hk & Hkg & Ht & He).
      rewrite He, Hkg, Hk, Hg, Hh. done.
Qed.

(** C5 fails as stated: S1 (room R1) is dropped on the cell of S2, which sits
    in R1 with another trainer and another group, while the backend lists R1
    among the available rooms.  There is a conflict on the room, yet the main
    grid does not prompt: it sends the move with R1 at once. *)
Lemma room_conflict_moved_without_prompt :
  Index.hasConflict Sample.salles Sample.fusions Sample.hook_S1_S2
                    Sample.S1 (mkCell "mardi" 2)
  = Some Sample.S2
  /\ salle Sample.S2 = salle Sample.S1
  /\ Index.isVirtualRoom Sample.salles (salle Sample.S1) = false
  /\ ScheduleGrid.precheck Sample.S1 (Some Sample.S2) = None
  /\ isOnlineSession Sample.S1 = false
  /\ room_queries
       (trace Sample.accepting_backend
              (Index.handleDrop Sample.salles Sample.fusions false
                                Sample.hook_S1_S2 Sample.S1 "mardi" 2)
              Sample.hook_S1_S2)
     = [("mardi", 2, official, Resolved (mkRooms (Some ["R1"; "R2"]) None))]
  /\ commands
       (trace Sample.accepting_backend
              (Index.handleDrop Sample.salles Sample.fusions false
                                Sample.hook_S1_S2 Sample.S1 "mardi" 2)
              Sample.hook_S1_S2)
     = [(MOVE_SESSION "uuid-1" 3 "S1" "mardi" 2 "R1", official)]
  /\ g_roomSelectorOpen
       (grid (Index.drop_session Sample.salles Sample.fusions false
                                 Sample.accepting_backend Sample.hook_S1_S2
                                 Sample.S1 "mardi" 2))
     = false.
Proof. vm_compute. by repeat split. Qed.

(** The two scenarios of the specification: S1 dropped on Tuesday, second
    slot, with no session there.  When R1 and R2 are free the move is sent
    with R1, the version being the one the grid was first rendered with;
    when only R2 is free nothing is sent and the prompt offers exactly R2 for
    S1. *)
Lemma room_resolution_witness :
  (exists commandId r,
      command_outcomes
        (trace Sample.accepting_backend
               (Index.dropped Sample.salles Sample.fusions false
                              Sample.hook_S1 Sample.S1 "mardi" 2)
               Sample.hook_S1)
      = [(MOVE_SESSION commandId 3 "S1" "mardi" 2 "R1", official, r)])
  /\ commands
       (trace Sample.only_R2_backend
              (Index.dropped Sample.salles Sample.fusions false
                             Sample.hook_S1 Sample.S1 "mardi" 2)
              Sample.hook_S1)
     = []
  /\ prompt
       (grid (Index.drop_session Sample.salles Sample.fusions false
                                 Sample.only_R2_backend Sample.hook_S1
                                 Sample.S1 "mardi" 2))
     = Some (Sample.S1, None, ["R2"]).
Proof.
  assert (Hcell : ~ (jour Sample.S1 = "mardi" /\ creneau Sample.S1 = 2)).
  { intros [Hj _]. discriminate. }
  split.
  - destruct (room_resolution Sample.salles Sample.fusions
                Sample.accepting_backend Sample.hook_S1 Sample.S1 "mardi" 2
                (mkRooms (Some ["R1"; "R2"]) None) eq_refl Hcell) as [Hmain _].
    destruct (Hmain eq_refl eq_refl eq_refl eq_refl) as (_ & Hsame & _).
    destruct Hsame as (cid & r & Hc & _); [simpl; left|].
    by exists cid, r.
  - destruct (room_resolution Sample.salles Sample.fusions
                Sample.only_R2_backend Sample.hook_S1 Sample.S1 "mardi" 2
                (mkRooms (Some ["R2"]) None) eq_refl Hcell) as [Hmain _].
    destruct (Hmain eq_refl eq_refl eq_refl eq_refl) as (_ & _ & Hprompt).
    destruct Hprompt as (Hc & _ & Hp & _).
    + discriminate.
    + simpl. intros Hin. apply list_elem_of_singleton in Hin. discriminate.
    + by split.
Defined.

(** C7, as amended.  A session whose room is the online room ([salle] equal
    to TEAMS up to letter case) is dropped on another cell.
    - In the main grid room resolution is bypassed: whatever the conflict
      check reports, no room is queried, no setter of the grid is called and
      no prompt comes onto the page.  The drop is subject to the teacher /
      group pre-check only: when the pre-check returns a message, that
      message is shown and nothing else happens; when it returns none, one
      move command that keeps the room of the session is sent, with the
      version the grid was first rendered with, and the grid stays as it was
      unless the command is refused with a version mismatch.
    - In the virtual grid the drop is ignored: the handler returns at once,
      before the pre-check, whatever its props; nothing is queried, prompted
      or moved. *)
Theorem online_session_drop
        (salles : list SalleEntry) (onlineFusions : list OnlineFusion)
        (B : Backend) (w : World) (session : Session) (d : string) (s : Z) :
  isOnlineSession session = true ->
  ~ (jour session = d /\ creneau session = s) ->
  (shown (hook w) = true ->
   h_loading (first_render w) = false ->
   room_queries
     (trace B (Index.dropped salles onlineFusions false w session d s) w) = []
   /\ filter touches_grid
        (trace B (Index.dropped salles onlineFusions false w session d s) w) = []
   /\ (forall x,
          prompt (grid (Index.drop_session salles onlineFusions false
                                           B w session d s)) = Some x ->
          prompt (grid w) = Some x)
   /\ match ScheduleGrid.precheck
              session
              (Index.hasConflict salles onlineFusions (Index.first_rendered w)
                                 session (mkCell d s)) with
      | Some t =>
          trace B (Index.dropped salles onlineFusions false w session d s) w
          = [Ev (toast t) tt]
          /\ hook (Index.drop_session salles onlineFusions false B w session d s)
             = hook w
          /\ grid (Index.drop_session salles onlineFusions false B w session d s)
             = grid w
      | None =>
          exists commandId r,
            command_outcomes
              (trace B (Index.dropped salles onlineFusions false w session d s) w)
            = [(MOVE_SESSION commandId (h_version (first_render w)) (id session)
                             d s (salle session), official, r)]
            /\ grid (Index.drop_session salles onlineFusions false
                                        B w session d s)
               = grid_after_move (rooms_prop w) (grid w) r
      end)
  /\ (forall hasConflict updateSession scope isLoading,
         VirtualScheduleGrid.handleDrop hasConflict updateSession scope
                                        isLoading session d s
         = Ret tt).
Proof.
  intros Honline Hcell. split; [|intros; by apply Virtual_drop_online].
  intros Hshown Hload. unfold Index.drop_session.
  destruct (ScheduleGrid.precheck _ _) as [t|] eqn:Hpre.
  - destruct (Index_drop_caught salles onlineFusions B w session d s
                Hload Hcell t Hpre) as (Ht & Hh & Hg).
    rewrite Ht, Hg. done.
  - destruct (Index_drop_online salles onlineFusions B w session d s
                Hload Hcell Hpre Honline)
      as (cid & r & Hc & Hq & Hg & _ & Hsh & Hor).
    split; [done|]. split; [done|]. split.
    + intros x. destruct Hor as [-> | ->]; [done|discriminate].
    + exists cid, r. auto.
Qed.

(** C7 fails as stated: the online session S5 (room "Teams") is dropped on a
    free cell of the virtual grid; no conflict is reported, and nothing
    happens: no command, no call of the page, no call at all. *)
Lemma online_drop_ignored_by_virtual_grid :
  isOnlineSession Sample.S5 = true
  /\ jour Sample.S5 <> "mardi"
  /\ VirtualTimetable.hasConflict Sample.salles Sample.fusions
                                  [Sample.S5; Sample.S2]
                                  Sample.S5 (mkCell "mardi" 3)
     = None
  /\ trace Sample.accepting_backend
           (VirtualTimetable.handleDrop Sample.salles Sample.fusions
                                        [Sample.S5; Sample.S2] official false
                                        Sample.S5 "mardi" 3)
           Sample.hook_S5_S2
     = []
  /\ VirtualTimetable.drop_session Sample.salles Sample.fusions
                                   [Sample.S5; Sample.S2] official false
                                   Sample.accepting_backend Sample.hook_S5_S2
                                   Sample.S5 "mardi" 3
     = Sample.hook_S5_S2.
Proof. vm_compute. by repeat split. Qed.

(** The online session S5 dropped on a free cell of the main grid: the move
    is sent with its room, no room is queried. *)
Lemma online_session_drop_witness :
  (exists commandId r,
      command_outcomes
        (trace Sample.accepting_backend
               (Index.dropped Sample.salles Sample.fusions false
                              Sample.hook_S5_S2 Sample.S5 "mardi" 3)
               Sample.hook_S5_S2)
      = [(MOVE_SESSION commandId 3 "S5" "mardi" 3 "Teams", official, r)])
  /\ room_queries
       (trace Sample.accepting_backend
              (Index.dropped Sample.salles Sample.fusions false
                             Sample.hook_S5_S2 Sample.S5 "mardi" 3)
              Sample.hook_S5_S2)
     = [].
Proof.
  assert (Hcell : ~ (jour Sample.S5 = "mardi" /\ creneau Sample.S5 = 3)).
  { intros [Hj _]. discriminate. }
  destruct (online_session_drop Sample.salles Sample.fusions
              Sample.accepting_backend Sample.hook_S5_S2 Sample.S5 "mardi" 3
              eq_refl Hcell) as [Hmain _].
  destruct (Hmain eq_refl eq_refl) as (Hq & _ & _ & Hmove).
  split; [|exact Hq].
  destruct Hmove as (cid & r & Hc & _). by exists cid, r.
Defined.

(** A drop after an accepted move.  S1 is dropped on Tuesday, fourth slot:
    the move is sent with version 3 and accepted, and the hook holds version
    4.  S2 is then dropped on Thursday, first slot: the handler is still the
    one of the first render of the grid, and the move is sent with version 3
    again. *)
Example drop_after_an_accepted_move :
  commands
    (trace Sample.accepting_backend
           (Index.dropped Sample.salles Sample.fusions false
                          Sample.hook_S1_S2 Sample.S1 "mardi" 4)
           Sample.hook_S1_S2)
  = [(MOVE_SESSION "uuid-1" 3 "S1" "mardi" 4 "R1", official)]
  /\ h_version
       (hook (Index.drop_session Sample.salles Sample.fusions false
                                 Sample.accepting_backend Sample.hook_S1_S2
                                 Sample.S1 "mardi" 4))
     = 4
  /\ commands
       (trace Sample.accepting_backend
              (Index.dropped Sample.salles Sample.fusions false
                 (Index.drop_session Sample.salles Sample.fusions false
                                     Sample.accepting_backend Sample.hook_S1_S2
                                     Sample.S1 "mardi" 4)
                 Sample.S2 "jeudi" 1)
              (Index.drop_session Sample.salles Sample.fusions false
                                  Sample.accepting_backend Sample.hook_S1_S2
                                  Sample.S1 "mardi" 4))
     = [(MOVE_SESSION "uuid-1" 3 "S2" "jeudi" 1 "R1", official)].
Proof. vm_compute. by repeat split. Qed.

(** C4, at the input on which the code departs from it.  S1 (group G1,
    trainer T1) is dropped on the cell of S4, an online session of the fused
    group G1_G2 (members G1 and G2) with another trainer.  The conflict check
    reports S4, a conflict on the group through the expansion, with [groupe]
    strings that differ.  The pre-check compares the [groupe] strings only
    (it passes whenever the trainer and the [groupe] string both differ), so
    the drop is not aborted: no "group busy" message is shown, the main
    grid queries the rooms and sends the move, the virtual grid queries the
    rooms and opens the room prompt. *)
Theorem fusion_group_conflict_not_caught :
  (forall session c : Session,
      formateur c <> formateur session -> groupe c <> groupe session ->
      ScheduleGrid.precheck session (Some c) = None)
  /\ Index.hasConflict Sample.salles Sample.fusions Sample.hook_S1_S4
                       Sample.S1 (mkCell "mardi" 2)
     = Some Sample.S4
  /\ "G1" ∈ Index.expandGroupIds Sample.fusions (groupe Sample.S1)
  /\ "G1" ∈ Index.expandGroupIds Sample.fusions (groupe Sample.S4)
  /\ groupe Sample.S4 <> groupe Sample.S1
  /\ formateur Sample.S4 <> formateur Sample.S1
  /\ toasts
       (trace Sample.accepting_backend
              (Index.handleDrop Sample.salles Sample.fusions false
                                Sample.hook_S1_S4 Sample.S1 "mardi" 2)
              Sample.hook_S1_S4)
     = [ScheduleGrid.toast_moved Sample.S1 "mardi" 2 "Salle R1"]
  /\ room_queries
       (trace Sample.accepting_backend
              (Index.handleDrop Sample.salles Sample.fusions false
                                Sample.hook_S1_S4 Sample.S1 "mardi" 2)
              Sample.hook_S1_S4)
     = [("mardi", 2, official, Resolved (mkRooms (Some ["R1"; "R2"]) None))]
  /\ commands
       (trace Sample.accepting_backend
              (Index.handleDrop Sample.salles Sample.fusions false
                                Sample.hook_S1_S4 Sample.S1 "mardi" 2)
              Sample.hook_S1_S4)
     = [(MOVE_SESSION "uuid-1" 3 "S1" "mardi" 2 "R1", official)]
  /\ VirtualTimetable.hasConflict Sample.salles Sample.fusions
                                  [Sample.S1; Sample.S4]
                                  Sample.S1 (mkCell "mardi" 2)
     = Some Sample.S4
  /\ toasts
       (trace Sample.accepting_backend
              (VirtualTimetable.handleDrop Sample.salles Sample.fusions
                                           [Sample.S1; Sample.S4] official false
                                           Sample.S1 "mardi" 2)
              Sample.hook_S1_S4)
     = []
  /\ room_queries
       (trace Sample.accepting_backend
              (VirtualTimetable.handleDrop Sample.salles Sample.fusions
                                           [Sample.S1; Sample.S4] official false
                                           Sample.S1 "mardi" 2)
              Sample.hook_S1_S4)
     = [("mardi", 2, official, Resolved (mkRooms (Some ["R1"; "R2"]) None))]
  /\ g_roomSelectorOpen
       (grid (VirtualTimetable.drop_session Sample.salles Sample.fusions
                                            [Sample.S1; Sample.S4] official false
                                            Sample.accepting_backend
                                            Sample.hook_S1_S4 Sample.S1 "mardi" 2))
     = true.
Proof.
  split.
  { intros session c Ht Hg. unfold ScheduleGrid.precheck.
    apply JSFacts.str_eq_false in Ht, Hg. by rewrite Ht, Hg. }
  split; [vm_compute; reflexivity|].
  split; [vm_compute; left|]. split; [vm_compute; left|].
  split; [discriminate|]. split; [discriminate|].
  vm_compute. by repeat split.
Qed.

(* ===================================================================== *)
(** * The virtual view: [buildVirtualFromRequests] *)
(* ===================================================================== *)

(** Tagging changes the entry the id refers to, and only its tags. *)
Lemma tag_lookup st rid (byId : gmap string nat) sessionId
      (base : list BaseSession) (i : nat) (b : BaseSession) :
  byId !! sessionId = Some i -> base !! i = Some b ->
  VirtualTimetable.tag st rid byId sessionId base !! i
  = Some (mkBase (b_session b) (Some st) rid)
  /\ (forall j, j <> i ->
                VirtualTimetable.tag st rid byId sessionId base !! j = base !! j)
  /\ length (VirtualTimetable.tag st rid byId sessionId base) = length base.
Proof.
  intros Hi Hb. unfold VirtualTimetable.tag. rewrite Hi.
  split; [|split].
  - by rewrite list_lookup_alter_eq, Hb.
  - intros j Hj. by rewrite list_lookup_alter_ne.
  - by rewrite length_alter.
Qed.

(** What one MOVE or CHANGE_ROOM request does: the session it refers to is
    tagged MOVED_AWAY and one PROPOSED_DESTINATION ghost is pushed, whose
    day, slot and room are those of [newData], else of [oldData], else of
    the session, for both types of request. *)
Lemma move_like_request_reconciled (byId : gmap string nat)
      (base : list BaseSession) (extra : list GhostSession)
      (r : ChangeRequest.t) :
  JS.toUpperCase (JS.nullish (ChangeRequest.type r) "") = "MOVE"
  \/ JS.toUpperCase (JS.nullish (ChangeRequest.type r) "") = "CHANGE_ROOM" ->
  exists g,
    VirtualTimetable.reconcile_request byId (base, extra) r
    = (VirtualTimetable.tag
         MOVED_AWAY
         (JS.nullish_opt (ChangeRequest.id r) (ChangeRequest.requestId r))
         byId (JS.nullish (ChangeRequest.sessionId r) "") base,
       extra ++ [g])
    /\ gh_virtualState g = PROPOSED_DESTINATION
    /\ (forall s' oldData newData,
           s' = VirtualTimetable.get
                  byId (JS.nullish (ChangeRequest.sessionId r) "")
                  (VirtualTimetable.tag
                     MOVED_AWAY
                     (JS.nullish_opt (ChangeRequest.id r)
                                     (ChangeRequest.requestId r))
                     byId (JS.nullish (ChangeRequest.sessionId r) "") base) ->
           oldData = JS.nullish (ChangeRequest.oldData r)
                                VirtualTimetable.no_data ->
           newData = JS.nullish (ChangeRequest.newData r)
                                VirtualTimetable.no_data ->
           gh_jour g
           = Some (JS.String_
                     (JS.nullish_opt (d_jour newData)
                        (JS.nullish_opt (d_jour oldData)
                                        (jour ∘ b_session <$> s'))))
           /\ gh_creneau g
              = Some (JS.Number
                        (JS.nullish_opt (d_creneau newData)
                           (JS.nullish_opt (d_creneau oldData)
                                           (creneau ∘ b_session <$> s'))))
           /\ gh_salle g
              = Some (JS.String_
                        (JS.nullish_opt (d_salle newData)
                           (JS.nullish_opt (d_salle oldData)
                                           (salle ∘ b_session <$> s'))))).
Proof.
  intros Htype. unfold VirtualTimetable.reconcile_request.
  destruct Htype as [-> | ->]; cbn -[VirtualTimetable.tag VirtualTimetable.get];
    (eexists; split; [reflexivity|]; split; [reflexivity|];
     by intros s' oldData newData -> -> ->).
Qed.

(** C8, at the input on which the code departs from it.  A CHANGE_ROOM
    request on S1 carries Monday, slot 1, room R1 as [oldData] and Tuesday,
    slot 2, room R2 as [newData].  S1 is tagged MOVED_AWAY and one
    PROPOSED_DESTINATION ghost is pushed, as for a MOVE; but the day and the
    slot of the ghost are those of [newData] (Tuesday, slot 2), not those of
    [oldData]: the ghost is the one the MOVE request with the same payload
    produces. *)
Theorem change_room_ghost_follows_newData :
  VirtualTimetable.buildVirtualFromRequests
    [Sample.S1] (Some [Sample.change_room_request])
  = ([mkBase Sample.S1 (Some MOVED_AWAY) (Some "CR1")],
     [mkGhost "S1" (Some "T1") (Some "G1") (Some "M1") None
              (Some "mardi") (Some (JS.Num 2)) (Some "R2")
              PROPOSED_DESTINATION (Some "CR1")])
  /\ d_jour Sample.old_place = Some "lundi"
  /\ d_creneau Sample.old_place = Some 1
  /\ (gh_jour <$> (VirtualTimetable.buildVirtualFromRequests
                     [Sample.S1] (Some [Sample.change_room_request])).2)
     = (gh_jour <$> (VirtualTimetable.buildVirtualFromRequests
                       [Sample.S1] (Some [Sample.move_request])).2)
  /\ (gh_creneau <$> (VirtualTimetable.buildVirtualFromRequests
                        [Sample.S1] (Some [Sample.change_room_request])).2)
     = (gh_creneau <$> (VirtualTimetable.buildVirtualFromRequests
                          [Sample.S1] (Some [Sample.move_request])).2).
Proof. vm_compute. by repeat split. Qed.

(* ===================================================================== *)
(** * Beyond the claims: the rest of the hook, of the grids and of the pages *)
(* ===================================================================== *)

Import JSFacts.
(* ===================================================================== *)
(** * Local edits of the session list *)
(* ===================================================================== *)

Lemma applyDeleteLocal_elem sessions sessionId s :
  s ∈ Pure.applyDeleteLocal sessions sessionId
  <-> s ∈ sessions /\ id s <> sessionId.
Proof.
  unfold Pure.applyDeleteLocal. rewrite list_elem_of_filter.
  rewrite negb_True, Is_true_true, str_eq_true. tauto.
Qed.

Lemma applyDeleteLocal_cons s sessions sessionId :
  Pure.applyDeleteLocal (s :: sessions) sessionId
  = if JS.str_eq (id s) sessionId
    then Pure.applyDeleteLocal sessions sessionId
    else s :: Pure.applyDeleteLocal sessions sessionId.
Proof.
  unfold Pure.applyDeleteLocal. rewrite filter_cons.
  destruct (JS.str_eq (id s) sessionId); by case_decide.
Qed.

Lemma applyDeleteLocal_absent sessions sessionId :
  (forall s, s ∈ sessions -> id s <> sessionId) ->
  Pure.applyDeleteLocal sessions sessionId = sessions.
Proof.
  induction sessions as [|s l IH]; intros H; [done|].
  rewrite applyDeleteLocal_cons.
  destruct (JS.str_eq (id s) sessionId) eqn:E.
  - apply str_eq_true in E. exfalso. apply (H s); [left|done].
  - f_equal. apply IH. intros x Hx. apply H. by right.
Qed.

(** X1. [applyDeleteLocal] keeps, in their order, exactly the sessions
    whose id differs from [sessionId]: the result is a sublist of the input,
    a session is in it iff it was in the input with another id, and the list
    comes back unchanged exactly when no session has that id. *)
Theorem applyDeleteLocal_removes_exactly sessions sessionId :
  Pure.applyDeleteLocal sessions sessionId `sublist_of` sessions
  /\ (forall s, s ∈ Pure.applyDeleteLocal sessions sessionId
                <-> s ∈ sessions /\ id s <> sessionId)
  /\ (Pure.applyDeleteLocal sessions sessionId = sessions
      <-> forall s, s ∈ sessions -> id s <> sessionId).
Proof.
  split; [apply sublist_filter|]. split; [apply applyDeleteLocal_elem|].
  split; [|apply applyDeleteLocal_absent].
  intros E s Hs. rewrite <- E in Hs. by apply applyDeleteLocal_elem in Hs as [_ ?].
Qed.

Lemma applyMoveLocal_cons s sessions sid j c r :
  Pure.applyMoveLocal (s :: sessions) sid j c r
  = (if JS.str_eq (id s) sid
     then mkSession (id s) (formateur s) (groupe s) (module s) j c r
     else s) :: Pure.applyMoveLocal sessions sid j c r.
Proof. reflexivity. Qed.

(** X2. How the optimistic edits compose: two moves of the same session
    amount to the last one; deleting a session after moving it amounts to
    deleting it; deleting is idempotent and deletions commute; a deletion and
    a move of sessions with different ids commute. *)
Theorem local_edits_compose sessions a b j c r j' c' r' :
  Pure.applyMoveLocal (Pure.applyMoveLocal sessions a j c r) a j' c' r'
  = Pure.applyMoveLocal sessions a j' c' r'
  /\ Pure.applyDeleteLocal (Pure.applyMoveLocal sessions a j c r) a
     = Pure.applyDeleteLocal sessions a
  /\ Pure.applyDeleteLocal (Pure.applyDeleteLocal sessions a) a
     = Pure.applyDeleteLocal sessions a
  /\ Pure.applyDeleteLocal (Pure.applyDeleteLocal sessions a) b
     = Pure.applyDeleteLocal (Pure.applyDeleteLocal sessions b) a
  /\ (a <> b ->
      Pure.applyDeleteLocal (Pure.applyMoveLocal sessions a j c r) b
      = Pure.applyMoveLocal (Pure.applyDeleteLocal sessions b) a j c r).
Proof.
  repeat split.
  - induction sessions as [|s l IH]; [done|].
    rewrite !applyMoveLocal_cons, IH. f_equal.
    destruct (JS.str_eq (id s) a) eqn:E; cbn [id]; by rewrite ?E.
  - induction sessions as [|s l IH]; [done|].
    rewrite applyMoveLocal_cons, !applyDeleteLocal_cons, IH.
    destruct (JS.str_eq (id s) a) eqn:E; cbn [id]; by rewrite ?E.
  - apply applyDeleteLocal_absent. intros s Hs.
    by apply applyDeleteLocal_elem in Hs as [_ ?].
  - induction sessions as [|s l IH]; [done|].
    rewrite !applyDeleteLocal_cons.
    destruct (JS.str_eq (id s) a) eqn:Ea, (JS.str_eq (id s) b) eqn:Eb;
      rewrite ?applyDeleteLocal_cons, ?Ea, ?Eb, ?IH; done.
  - intros Hab. induction sessions as [|s l IH]; [done|].
    rewrite applyMoveLocal_cons, !applyDeleteLocal_cons.
    destruct (JS.str_eq (id s) a) eqn:Ea; cbn [id].
    + apply str_eq_true in Ea.
      assert (JS.str_eq (id s) b = false) as -> by (apply str_eq_false; congruence).
      rewrite applyMoveLocal_cons, IH.
      assert (JS.str_eq (id s) a = true) as -> by (by apply str_eq_true).
      done.
    + destruct (JS.str_eq (id s) b) eqn:Eb; [done|].
      by rewrite applyMoveLocal_cons, Ea, IH.
Qed.

(** X3. The round trip of a move: when every session that carries the id
    sits at [(j0, c0, r0)], moving the id elsewhere and then back to
    [(j0, c0, r0)] gives the list one started from. *)
Theorem applyMoveLocal_round_trip sessions sessionId j0 c0 r0 j c r :
  (forall s, s ∈ sessions -> id s = sessionId ->
             jour s = j0 /\ creneau s = c0 /\ salle s = r0) ->
  Pure.applyMoveLocal (Pure.applyMoveLocal sessions sessionId j c r)
                      sessionId j0 c0 r0
  = sessions.
Proof.
  intros H. induction sessions as [|s l IH]; [done|].
  rewrite !applyMoveLocal_cons, IH by (intros x Hx; apply H; by right).
  f_equal. destruct (JS.str_eq (id s) sessionId) eqn:E; cbn [id]; rewrite E; [|done].
  apply str_eq_true in E. destruct (H s) as (<- & <- & <-); [left|done|].
  by destruct s.
Qed.

Lemma applyMoveLocal_round_trip_witness :
  Pure.applyMoveLocal
    (Pure.applyMoveLocal [Sample.S1; Sample.S2] "S1" "mardi" 4 "R2")
    "S1" "lundi" 1 "R1"
  = [Sample.S1; Sample.S2].
Proof.
  apply (applyMoveLocal_round_trip [Sample.S1; Sample.S2] "S1" "lundi" 1 "R1").
  intros s Hs Hid.
  apply elem_of_cons in Hs as [->|Hs]; [done|].
  apply list_elem_of_singleton in Hs as ->. discriminate Hid.
Defined.

(* ===================================================================== *)
(** * More on the conflict check *)
(* ===================================================================== *)

Lemma find_filter {A} (p q : A -> bool) (l : list A) :
  (forall x, p x = true -> q x = true) ->
  JS.find p (filter (fun x => q x) l) = JS.find p l.
Proof.
  intros H. induction l as [|x l IH]; [done|].
  rewrite filter_cons. cbn. destruct (p x) eqn:Ep.
  - rewrite decide_True by (apply Is_true_true; auto). cbn. by rewrite Ep.
  - case_decide; cbn; by rewrite ?Ep.
Qed.

Lemma find_map_fixed {A} (p : A -> bool) (f : A -> A) (l : list A) :
  (forall x, f x = x \/ (p x = false /\ p (f x) = false)) ->
  JS.find p (map f l) = JS.find p l.
Proof.
  intros H. induction l as [|x l IH]; [done|].
  cbn. rewrite IH. destruct (H x) as [->|[-> ->]]; done.
Qed.

(** X4. The conflict check does not depend on the dragged session itself:
    [hasConflict] answers the same on the list where that session has been
    moved (to any place) and on the list where it has been deleted as on the
    list itself. *)
Theorem hasConflict_ignores_dragged_session
        (expand : string -> list string) (isVirtual : string -> bool)
        sessions session targetCell j c r :
  Pure.hasConflict expand isVirtual
    (Pure.applyMoveLocal sessions (id session) j c r) session targetCell
  = Pure.hasConflict expand isVirtual sessions session targetCell
  /\ Pure.hasConflict expand isVirtual
       (Pure.applyDeleteLocal sessions (id session)) session targetCell
     = Pure.hasConflict expand isVirtual sessions session targetCell.
Proof.
  unfold Pure.hasConflict. split.
  - apply find_map_fixed. intros x.
    destruct (JS.str_eq (id x) (id session)) eqn:E; [right|by left].
    unfold Pure.conflicts_with. cbn [id]. by rewrite E.
  - unfold Pure.applyDeleteLocal.
    apply (find_filter _ (fun s => negb (JS.str_eq (id s) (id session)))).
    intros x. unfold Pure.conflicts_with.
    by destruct (JS.str_eq (id x) (id session)).
Qed.

(* ===================================================================== *)
(** * More on the JavaScript helpers *)
(* ===================================================================== *)

Lemma find_split {A} (p : A -> bool) (l : list A) (x : A) :
  JS.find p l = Some x
  <-> exists pre post,
        l = pre ++ x :: post /\ p x = true /\ forall y, y ∈ pre -> p y = false.
Proof.
  induction l as [|a l IH]; cbn.
  - split; [done|]. intros (pre & post & E & _). by destruct pre.
  - destruct (p a) eqn:Ea.
    + split.
      * intros [= <-]. exists [], l. repeat split; [done|].
        intros y Hy. by apply elem_of_nil in Hy.
      * intros (pre & post & E & Hx & Hpre). destruct pre as [|b pre].
        -- by injection E as -> _.
        -- injection E as -> _. rewrite Hpre in Ea by left. done.
    + rewrite IH. split.
      * intros (pre & post & -> & Hx & Hpre). exists (a :: pre), post.
        repeat split; [done|]. intros y Hy.
        apply elem_of_cons in Hy as [->|Hy]; auto.
      * intros (pre & post & E & Hx & Hpre). destruct pre as [|b pre].
        -- injection E as -> _. congruence.
        -- injection E as -> ->. exists pre, post. repeat split; [done|].
           intros y Hy. apply Hpre. by right.
Qed.

Lemma includes_false (l : list string) (x : string) :
  JS.includes l x = false <-> x ∉ l.
Proof.
  rewrite <- includes_true. by destruct (JS.includes l x).
Qed.

Lemma unique_from (acc l : list string) :
  NoDup acc ->
  exists t,
    foldl (fun acc x => if JS.includes acc x then acc else acc ++ [x]) acc l
    = acc ++ t
    /\ NoDup (acc ++ t)
    /\ t `sublist_of` l
    /\ (forall x, x ∈ l -> x ∈ acc ++ t)
    /\ (forall a l', l = a :: l' -> a ∉ acc -> exists t', t = a :: t').
Proof.
  revert acc. induction l as [|a l IH]; intros acc Hacc; cbn.
  - exists []. rewrite app_nil_r. repeat split; try done.
    intros x Hx. by apply elem_of_nil in Hx.
  - destruct (JS.includes acc a) eqn:Ea.
    + apply includes_true in Ea.
      destruct (IH acc Hacc) as (t & -> & Hnd & Hsub & Hin & _).
      exists t. repeat split; try done.
      * by apply sublist_cons.
      * intros x Hx. apply elem_of_cons in Hx as [->|Hx]; [|by auto].
        apply elem_of_app. by left.
      * intros a' l' [= <- <-] Hn. done.
    + apply includes_false in Ea.
      destruct (IH (acc ++ [a])) as (t & -> & Hnd & Hsub & Hin & _).
      { apply NoDup_app. repeat split; [done| |apply NoDup_singleton].
        intros x Hx Hx'. apply list_elem_of_singleton in Hx' as ->. done. }
      exists (a :: t). rewrite <- app_assoc in *. cbn in *.
      repeat split; try done.
      * by apply sublist_skip.
      * intros x Hx. apply elem_of_cons in Hx as [->|Hx]; [|by auto].
        apply elem_of_app. right. left.
      * intros a' l' [= <- <-] _. by exists t.
Qed.

Lemma unique_spec (l : list string) :
  NoDup (JS.unique l)
  /\ JS.unique l `sublist_of` l
  /\ (forall x, x ∈ JS.unique l <-> x ∈ l)
  /\ head (JS.unique l) = head l.
Proof.
  unfold JS.unique.
  destruct (unique_from [] l) as (t & -> & Hnd & Hsub & Hin & Hhd);
    [apply NoDup_nil_2|].
  cbn in *. repeat split; try done.
  - intros Hx. eapply elem_of_sublist; eauto.
  - apply Hin.
  - destruct l as [|a l]; cbn.
    + by apply sublist_nil_r in Hsub as ->.
    + destruct (Hhd a l eq_refl) as [t' ->]; [apply not_elem_of_nil|]. done.
Qed.

Lemma unique_snoc (l : list string) (a : string) :
  JS.unique (l ++ [a])
  = if JS.includes (JS.unique l) a then JS.unique l else JS.unique l ++ [a].
Proof. unfold JS.unique. by rewrite foldl_app. Qed.

(** The order of [unique l] is the order of first appearance in [l]: of two
    values of the result, the one that comes first occurs in [l] at a
    position before which the other does not occur. *)
Lemma unique_order (l : list string) (i j : nat) (x y : string) :
  JS.unique l !! i = Some x -> JS.unique l !! j = Some y -> (i < j)%nat ->
  exists p, l !! p = Some x /\ forall q, (q <= p)%nat -> l !! q <> Some y.
Proof.
  revert i j x y. induction l as [|a l IH] using rev_ind; intros i j x y.
  { by intros Hi. }
  destruct (unique_spec l) as (_ & _ & Hin & _).
  assert (Hlift : forall p, l !! p = Some x ->
            (forall q, (q <= p)%nat -> l !! q <> Some y) ->
            exists p, (l ++ [a]) !! p = Some x
                      /\ forall q, (q <= p)%nat -> (l ++ [a]) !! q <> Some y).
  { intros p Hp Hq. exists p. pose proof (lookup_lt_Some _ _ _ Hp) as Hlt.
    split; [by rewrite lookup_app_l|].
    intros q Hle. rewrite lookup_app_l by lia. by apply Hq. }
  rewrite unique_snoc. destruct (JS.includes (JS.unique l) a) eqn:Ea.
  - intros Hi Hj Hlt. destruct (IH i j x y Hi Hj Hlt) as (p & Hp & Hq). eauto.
  - apply includes_false in Ea. rewrite Hin in Ea.
    intros Hi Hj Hlt.
    pose proof (lookup_lt_Some _ _ _ Hj) as Hjlt. rewrite length_app in Hjlt.
    cbn in Hjlt.
    rewrite lookup_app_l in Hi by lia.
    destruct (decide (j < length (JS.unique l))%nat) as [Hjl|Hjl].
    + rewrite lookup_app_l in Hj by done.
      destruct (IH i j x y Hi Hj Hlt) as (p & Hp & Hq). eauto.
    + assert (j = length (JS.unique l)) as -> by lia.
      rewrite list_lookup_middle in Hj by done. injection Hj as <-.
      assert (Hx : x ∈ l) by (apply Hin; by eapply list_elem_of_lookup_2).
      apply list_elem_of_lookup_1 in Hx as [p Hp].
      apply (Hlift p Hp). intros q _ Hq. apply Ea.
      by eapply list_elem_of_lookup_2.
Qed.

(** X5. [uniqueFormateurValues] holds every trainer of the sessions exactly
    once, in the order of first appearance: it has no duplicate, it has the
    trainers of the sessions and nothing else, it starts with the trainer of
    the first session, and of two trainers of the result the one that comes
    first is the trainer of some session before which (and at which) no
    session has the other trainer.  No other list has these properties. *)
Theorem uniqueFormateurValues_first_occurrences sessions :
  NoDup (UseSchedule.uniqueFormateurValues sessions)
  /\ (forall x, x ∈ UseSchedule.uniqueFormateurValues sessions
                <-> exists s, s ∈ sessions /\ formateur s = x)
  /\ UseSchedule.uniqueFormateurValues sessions
     `sublist_of` map formateur sessions
  /\ head (UseSchedule.uniqueFormateurValues sessions)
     = formateur <$> head sessions
  /\ (forall (i j : nat) x y,
         UseSchedule.uniqueFormateurValues sessions !! i = Some x ->
         UseSchedule.uniqueFormateurValues sessions !! j = Some y ->
         (i < j)%nat ->
         exists (p : nat) s,
           sessions !! p = Some s /\ formateur s = x
           /\ forall (q : nat) s',
               (q <= p)%nat -> sessions !! q = Some s' -> formateur s' <> y)
  /\ (forall r : list string,
         NoDup r ->
         (forall x, x ∈ r <-> exists s, s ∈ sessions /\ formateur s = x) ->
         (forall (i j : nat) x y,
             r !! i = Some x -> r !! j = Some y -> (i < j)%nat ->
             exists (p : nat) s,
               sessions !! p = Some s /\ formateur s = x
               /\ forall (q : nat) s',
                   (q <= p)%nat -> sessions !! q = Some s' -> formateur s' <> y) ->
         r = UseSchedule.uniqueFormateurValues sessions).
Proof.
  unfold UseSchedule.uniqueFormateurValues.
  destruct (unique_spec (map formateur sessions)) as (Hnd & Hsub & Hin & Hhd).
  assert (Hmem : forall x, x ∈ JS.unique (map formateur sessions)
                           <-> exists s, s ∈ sessions /\ formateur s = x).
  { intros x. rewrite Hin.
    change (map formateur sessions) with (formateur <$> sessions).
    rewrite list_elem_of_fmap. split; intros (s & H1 & H2); exists s; done. }
  assert (Hord : forall (i j : nat) x y,
             JS.unique (map formateur sessions) !! i = Some x ->
             JS.unique (map formateur sessions) !! j = Some y ->
             (i < j)%nat ->
             exists (p : nat) s,
               sessions !! p = Some s /\ formateur s = x
               /\ forall (q : nat) s',
                   (q <= p)%nat -> sessions !! q = Some s' -> formateur s' <> y).
  { intros i j x y Hi Hj Hlt.
    destruct (unique_order _ i j x y Hi Hj Hlt) as (p & Hp & Hq).
    change (map formateur sessions) with (formateur <$> sessions) in Hp, Hq.
    rewrite list_lookup_fmap in Hp.
    destruct (sessions !! p) as [s|] eqn:Hs; [|done]. injection Hp as Hp.
    exists p, s. split; [done|]. split; [done|].
    intros q s' Hle Hs' Heq. apply (Hq q Hle).
    by rewrite list_lookup_fmap, Hs', <- Heq. }
  split; [done|]. split; [done|]. split; [done|].
  split; [rewrite Hhd; by destruct sessions|]. split; [done|].
  intros r Hr Hrm Hro.
  set (u := JS.unique (map formateur sessions)) in *.
  (* two duplicate-free lists with the same elements, each in the order of
     first appearance, are equal *)
  assert (Hprec : forall (l1 l2 : list string),
             NoDup l1 -> NoDup l2 -> (forall x, x ∈ l1 <-> x ∈ l2) ->
             (forall (i j : nat) x y,
                 l1 !! i = Some x -> l1 !! j = Some y -> (i < j)%nat ->
                 forall (i' j' : nat),
                   l2 !! i' = Some x -> l2 !! j' = Some y -> (i' < j')%nat) ->
             l1 = l2).
  { induction l1 as [|a l1 IHl]; intros l2 Hn1 Hn2 Hsame Hmono.
    - destruct l2 as [|b l2]; [done|].
      assert (b ∈ []) by (apply Hsame; left). by apply elem_of_nil in H.
    - destruct l2 as [|b l2].
      { assert (a ∈ []) by (apply Hsame; left). by apply elem_of_nil in H. }
      apply NoDup_cons in Hn1 as [Ha Hn1]. apply NoDup_cons in Hn2 as [Hb Hn2].
      assert (a = b) as <-.
      { destruct (decide (a = b)) as [|Hne]; [done|]. exfalso.
        assert (Hbin : b ∈ a :: l1) by (apply Hsame; left).
        apply elem_of_cons in Hbin as [->|Hbin]; [done|].
        apply list_elem_of_lookup_1 in Hbin as [j Hj].
        assert (Hain : a ∈ b :: l2) by (apply Hsame; left).
        apply elem_of_cons in Hain as [->|Hain]; [done|].
        apply list_elem_of_lookup_1 in Hain as [i' Hi'].
        pose proof (Hmono 0%nat (S j) a b eq_refl Hj ltac:(lia)
                          (S i') 0%nat Hi' eq_refl). lia. }
      f_equal. apply IHl; try done.
      + intros x. split; intros Hx.
        * assert (Hx' : x ∈ a :: l2) by (apply Hsame; by right).
          apply elem_of_cons in Hx' as [->|]; done.
        * assert (Hx' : x ∈ a :: l1) by (apply Hsame; by right).
          apply elem_of_cons in Hx' as [->|]; done.
      + intros i j x y Hi Hj Hlt i' j' Hi' Hj'.
        pose proof (Hmono (S i) (S j) x y Hi Hj ltac:(lia) (S i') (S j') Hi' Hj').
        lia. }
  apply Hprec; try done.
  - intros x. by rewrite Hrm, Hmem.
  - intros i j x y Hi Hj Hlt i' j' Hi' Hj'.
    destruct (Hro i j x y Hi Hj Hlt) as (p & s & Hp & Hfx & Hq).
    destruct (decide (i' < j')%nat) as [|Hge]; [done|]. exfalso.
    assert (Hne : i' <> j').
    { intros ->. rewrite Hi' in Hj'. injection Hj' as <-.
      assert (i = j) by (eapply NoDup_lookup; eauto). lia. }
    destruct (Hord j' i' y x Hj' Hi' ltac:(lia)) as (p' & s' & Hp' & Hfy & Hq').
    destruct (decide (p' <= p)%nat).
    + by apply (Hq p' s').
    + apply (Hq' p s); [lia|done|done].
Qed.

(* ===================================================================== *)
(** * Fusions and virtual rooms *)
(* ===================================================================== *)

Lemma fusionMap_snoc fs f :
  Page.fusionMap (fs ++ [f])
  = <[fusion_id f := JS.nullish (groupes f) []]> (Page.fusionMap fs).
Proof. unfold Page.fusionMap. by rewrite foldl_app. Qed.

Lemma fusionMap_lookup fs (g : string) :
  Page.fusionMap fs !! g
  = (fun f => JS.nullish (groupes f) [])
      <$> last (filter (fun f => JS.str_eq (fusion_id f) g) fs).
Proof.
  induction fs as [|f fs IH] using rev_ind; [done|].
  rewrite fusionMap_snoc, filter_app, filter_cons, filter_nil.
  destruct (JS.str_eq (fusion_id f) g) eqn:E.
  - rewrite decide_True by exact I.
    rewrite last_snoc. apply str_eq_true in E as ->.
    by rewrite lookup_insert_eq.
  - rewrite decide_False by (intros []).
    rewrite app_nil_r. apply str_eq_false in E.
    by rewrite lookup_insert_ne.
Qed.

(** X6. The expansion of a group id over the fusions of the catalog is
    decided by the last fusion that carries the id: its members if it has at
    least one; the id alone when no fusion carries it, or when that fusion has
    no [groupes] or an empty list.  The expansion is never empty. *)
Theorem expandGroupIds_last_fusion_wins fs (g : string) :
  Page.expandGroupIds (Page.fusionMap fs) g
  = match last (filter (fun f => JS.str_eq (fusion_id f) g) fs) with
    | Some f =>
        match groupes f with
        | Some (x :: kids) => x :: kids
        | _ => [g]
        end
    | None => [g]
    end
  /\ Page.expandGroupIds (Page.fusionMap fs) g <> [].
Proof.
  unfold Page.expandGroupIds. rewrite fusionMap_lookup.
  destruct (last _) as [f|]; cbn; [|done].
  destruct (groupes f) as [[|x kids]|]; done.
Qed.

(** X7. [isVirtualRoom r] holds exactly when the first entry of the
    configured rooms that names [r] (a bare string [r], or an object whose id
    is [r]) is an object whose type, upper-cased, is ["VIRTUEL"].  A bare
    string [r] placed before it, or no entry at all, makes the room
    physical. *)
Theorem isVirtualRoom_first_entry_wins salles (r : string) :
  Page.isVirtualRoom salles r = true
  <-> exists pre t post,
        salles = pre ++ SalleObj (Some r) (Some t) :: post
        /\ (forall e, e ∈ pre ->
                      e <> SalleId r /\ forall t', e <> SalleObj (Some r) t')
        /\ JS.toUpperCase t = "VIRTUEL".
Proof.
  assert (Hm : forall e, Page.salle_matches r e = false
                         <-> e <> SalleId r /\ forall t', e <> SalleObj (Some r) t').
  { intros [x|[x|] t]; cbn; rewrite ?str_eq_false.
    - split; [intros H; split; congruence|intros [H _]; congruence].
    - split; [intros H; split; congruence|intros [_ H] ->; by apply (H t)].
    - split; [done|intros _; done]. }
  unfold Page.isVirtualRoom. split.
  - destruct (JS.find _ salles) as [e|] eqn:Hf; [|done].
    apply find_split in Hf as (pre & post & -> & He & Hpre).
    destruct e as [x|x [t|]]; try done. intros Ht.
    destruct x as [x|]; [|done]. cbn in He. apply str_eq_true in He as ->.
    exists pre, t, post. repeat split; [apply Hm; auto..|].
    by apply str_eq_true in Ht.
  - intros (pre & t & post & -> & Hpre & Ht).
    assert (JS.find (Page.salle_matches r)
                    (pre ++ SalleObj (Some r) (Some t) :: post)
            = Some (SalleObj (Some r) (Some t))) as ->.
    { apply find_split. exists pre, post. repeat split.
      - cbn. by apply str_eq_true.
      - intros y Hy. apply Hm. by apply Hpre. }
    cbn. by apply str_eq_true.
Qed.

(* ===================================================================== *)
(** * Filters *)
(* ===================================================================== *)

Lemma filter_bool_cons {A} (p : A -> bool) (a : A) (l : list A) :
  filter (fun x => p x) (a :: l)
  = if p a then a :: filter (fun x => p x) l else filter (fun x => p x) l.
Proof. rewrite filter_cons. destruct (p a); by case_decide. Qed.

Lemma filter_bool_ext {A} (p q : A -> bool) (l : list A) :
  (forall x, x ∈ l -> p x = q x) ->
  filter (fun x => p x) l = filter (fun x => q x) l.
Proof.
  induction l as [|a l IH]; intros H; [done|].
  rewrite !filter_bool_cons, <- (H a) by left.
  rewrite IH; [done|]. intros x Hx. apply H. by right.
Qed.

Lemma filter_bool_true {A} (p : A -> bool) (l : list A) :
  (forall x, x ∈ l -> p x = true) -> filter (fun x => p x) l = l.
Proof.
  induction l as [|a l IH]; intros H; [done|].
  rewrite filter_bool_cons, H by left. f_equal. apply IH.
  intros x Hx. apply H. by right.
Qed.

Lemma filter_bool_filter {A} (p q : A -> bool) (l : list A) :
  filter (fun x => p x) (filter (fun x => q x) l)
  = filter (fun x => q x && p x) l.
Proof.
  induction l as [|a l IH]; [done|].
  rewrite (filter_bool_cons q), (filter_bool_cons (fun x => q x && p x)).
  destruct (q a); cbn [andb]; [|done].
  rewrite filter_bool_cons. destruct (p a); by rewrite IH.
Qed.

Lemma filter_bool_false {A} (p : A -> bool) (l : list A) :
  (forall x, x ∈ l -> p x = false) -> filter (fun x => p x) l = [].
Proof.
  induction l as [|a l IH]; intros H; [done|].
  rewrite filter_bool_cons, H by left. apply IH.
  intros x Hx. apply H. by right.
Qed.

Lemma elem_of_filter_bool {A} (p : A -> bool) (l : list A) (x : A) :
  x ∈ filter (fun x => p x) l <-> p x = true /\ x ∈ l.
Proof. by rewrite list_elem_of_filter, Is_true_true. Qed.

Lemma find_app {A} (p : A -> bool) (l1 l2 : list A) :
  JS.find p (l1 ++ l2)
  = match JS.find p l1 with Some x => Some x | None => JS.find p l2 end.
Proof.
  induction l1 as [|a l1 IH]; [done|]. cbn. by destruct (p a).
Qed.

Lemma every_true {A} (p : A -> bool) (l : list A) :
  JS.every p l = true <-> forall x, x ∈ l -> p x = true.
Proof.
  induction l as [|a l IH]; cbn.
  - split; [|done]. intros _ x Hx. by apply elem_of_nil in Hx.
  - rewrite andb_true_iff, IH. split.
    + intros [Ha Hl] x Hx. apply elem_of_cons in Hx as [->|Hx]; auto.
    + intros H. split; [apply H; left|]. intros x Hx. apply H. by right.
Qed.

Lemma every_app {A} (p : A -> bool) (l1 l2 : list A) :
  JS.every p (l1 ++ l2) = JS.every p l1 && JS.every p l2.
Proof.
  induction l1 as [|a l1 IH]; [done|]. cbn. by rewrite IH, andb_assoc.
Qed.

Lemma every_ext {A} (p : A -> bool) (l1 l2 : list A) :
  (forall x, x ∈ l1 <-> x ∈ l2) -> JS.every p l1 = JS.every p l2.
Proof.
  intros H. apply eq_true_iff_eq. rewrite !every_true.
  split; intros Hp x Hx; apply Hp, H, Hx.
Qed.

Lemma type_eq_true a b : UseSchedule.type_eq a b = true <-> a = b.
Proof. destruct a, b; cbn; split; congruence. Qed.

Lemma type_eq_false a b : UseSchedule.type_eq a b = false <-> a <> b.
Proof. rewrite <- type_eq_true. by destruct (UseSchedule.type_eq a b). Qed.

Lemma type_eq_refl a : UseSchedule.type_eq a a = true.
Proof. by apply type_eq_true. Qed.

Lemma type_eq_sym a b : UseSchedule.type_eq a b = UseSchedule.type_eq b a.
Proof. by destruct a, b. Qed.

Lemma find_none_of_type (t : UseSchedule.FilterType) fs :
  JS.find (fun f => UseSchedule.type_eq (UseSchedule.f_type f) t)
          (filter (fun f => negb (UseSchedule.type_eq (UseSchedule.f_type f) t)) fs)
  = None.
Proof.
  apply find_None. intros f Hf.
  apply elem_of_filter_bool in Hf as [Hf _]. by destruct (UseSchedule.type_eq _ _).
Qed.

Lemma find_other_type (t u : UseSchedule.FilterType) fs :
  t <> u ->
  JS.find (fun f => UseSchedule.type_eq (UseSchedule.f_type f) t)
          (filter (fun f => negb (UseSchedule.type_eq (UseSchedule.f_type f) u)) fs)
  = JS.find (fun f => UseSchedule.type_eq (UseSchedule.f_type f) t) fs.
Proof.
  intros Htu. apply find_filter. intros f Hf.
  apply type_eq_true in Hf as <-. apply negb_true_iff. by apply type_eq_false.
Qed.

(** X8. Adding a filter replaces the filter of its type: after
    [addFilter flt] the filter found for the type of [flt] is [flt], exactly
    one filter of that type is left, and the filter found for another type is
    the one found before.  After [removeFilter t] none is found for [t].
    Adding the same filter twice changes nothing more, and removing the type
    of a filter just added undoes the addition. *)
Theorem addFilter_replaces_the_type (flt : UseSchedule.Filter) prev t :
  JS.find (fun f => UseSchedule.type_eq (UseSchedule.f_type f) t)
          (UseSchedule.addFilter flt prev)
  = (if UseSchedule.type_eq (UseSchedule.f_type flt) t then Some flt
     else JS.find (fun f => UseSchedule.type_eq (UseSchedule.f_type f) t) prev)
  /\ filter (fun f => UseSchedule.type_eq (UseSchedule.f_type f)
                                          (UseSchedule.f_type flt))
            (UseSchedule.addFilter flt prev)
     = [flt]
  /\ JS.find (fun f => UseSchedule.type_eq (UseSchedule.f_type f) t)
             (UseSchedule.removeFilter t prev)
     = None
  /\ UseSchedule.addFilter flt (UseSchedule.addFilter flt prev)
     = UseSchedule.addFilter flt prev
  /\ UseSchedule.removeFilter (UseSchedule.f_type flt)
                              (UseSchedule.addFilter flt prev)
     = UseSchedule.removeFilter (UseSchedule.f_type flt) prev.
Proof.
  unfold UseSchedule.addFilter, UseSchedule.removeFilter.
  set (ft := UseSchedule.f_type flt).
  assert (Hrm : forall l,
             filter (fun f => negb (UseSchedule.type_eq (UseSchedule.f_type f) ft))
                    (filter (fun f => negb (UseSchedule.type_eq
                                              (UseSchedule.f_type f) ft)) l
                     ++ [flt])
             = filter (fun f => negb (UseSchedule.type_eq
                                        (UseSchedule.f_type f) ft)) l).
  { intros l. rewrite filter_app, filter_bool_filter, filter_bool_cons.
    fold ft. rewrite type_eq_refl. cbn [negb]. rewrite filter_nil, app_nil_r.
    apply filter_bool_ext. intros x _. by destruct (negb _). }
  split; [|split; [|split; [|split]]].
  - rewrite find_app. destruct (UseSchedule.type_eq ft t) eqn:E.
    + apply type_eq_true in E as <-. rewrite find_none_of_type. cbn.
      fold ft. by rewrite type_eq_refl.
    + apply type_eq_false in E. rewrite find_other_type by congruence.
      destruct (JS.find _ prev); [done|]. cbn. fold ft.
      by assert (UseSchedule.type_eq ft t = false) as -> by by apply type_eq_false.
  - rewrite filter_app, filter_bool_filter, filter_bool_cons.
    fold ft. rewrite type_eq_refl, filter_nil.
    rewrite (filter_bool_ext _ (fun _ => false)); [|intros x _; by destruct (UseSchedule.type_eq _ _)].
    assert (forall l : list UseSchedule.Filter, filter (fun _ => false) l = []) as ->; [|done].
    induction l as [|a l IH]; [done|]. by rewrite (filter_bool_cons (fun _ => false)).
  - apply find_none_of_type.
  - by rewrite Hrm.
  - apply Hrm.
Qed.

(** X9. At most one filter per type: when the list of filters has no two
    filters of the same type (as the initial empty list), it still has none
    after [addFilter], after [removeFilter] and after the effect that installs
    the default filter; the list left by [addFilter] then holds at most three
    filters. *)
Theorem filters_keep_one_value_per_type sessions
        (flt : UseSchedule.Filter) (t : UseSchedule.FilterType) prev :
  NoDup (UseSchedule.f_type <$> prev) ->
  NoDup (UseSchedule.f_type <$> UseSchedule.addFilter flt prev)
  /\ NoDup (UseSchedule.f_type <$> UseSchedule.removeFilter t prev)
  /\ (forall next, UseSchedule.defaultFilterEffect sessions prev = Some next ->
                   NoDup (UseSchedule.f_type <$> next))
  /\ (length (UseSchedule.addFilter flt prev) <= 3)%nat.
Proof.
  intros Hnd.
  assert (Hrm : forall u,
             NoDup (UseSchedule.f_type <$>
                    filter (fun f => negb (UseSchedule.type_eq
                                             (UseSchedule.f_type f) u)) prev)).
  { intros u. eapply sublist_NoDup; [exact Hnd|apply fmap_sublist, sublist_filter]. }
  assert (Hadd : forall f,
             NoDup (UseSchedule.f_type <$> UseSchedule.addFilter f prev)).
  { intros f. unfold UseSchedule.addFilter. rewrite fmap_app. cbn.
    apply NoDup_app. repeat split; [apply Hrm| |apply NoDup_singleton].
    intros x Hx Hx'. apply list_elem_of_singleton in Hx' as ->.
    apply list_elem_of_fmap in Hx as (g & Hg & Hin).
    apply elem_of_filter_bool in Hin as [Hin _].
    apply negb_true_iff, type_eq_false in Hin. congruence. }
  repeat split; [apply Hadd|apply Hrm| |].
  - intros next. unfold UseSchedule.defaultFilterEffect.
    destruct (UseSchedule.uniqueFormateurValues sessions) as [|first ?]; [done|].
    destruct (JS.str_eq first ""); [done|].
    case_bool_decide; [done|].
    destruct (match _ with Some c => _ | None => false end); [done|].
    intros [= <-].
    apply (Hadd (UseSchedule.mkFilter UseSchedule.by_formateur (Some first))).
  - specialize (Hadd flt).
    assert (forall l : list UseSchedule.FilterType, NoDup l -> (length l <= 3)%nat) as Hle.
    { intros l Hl.
      assert (l ⊆+ [UseSchedule.by_formateur; UseSchedule.by_groupe;
                    UseSchedule.by_salle]) as Hs.
      { apply NoDup_submseteq; [done|]. intros [] _; set_solver. }
      by apply submseteq_length in Hs. }
    apply Hle in Hadd. by rewrite length_fmap in Hadd.
Qed.

Lemma filters_keep_one_value_per_type_witness :
  NoDup (UseSchedule.f_type <$>
         UseSchedule.addFilter
           (UseSchedule.mkFilter UseSchedule.by_groupe (Some "G2"))
           [UseSchedule.mkFilter UseSchedule.by_groupe (Some "G1");
            UseSchedule.mkFilter UseSchedule.by_salle (Some "R1")])
  /\ (length (UseSchedule.addFilter
                (UseSchedule.mkFilter UseSchedule.by_groupe (Some "G2"))
                [UseSchedule.mkFilter UseSchedule.by_groupe (Some "G1");
                 UseSchedule.mkFilter UseSchedule.by_salle (Some "R1")])
      <= 3)%nat.
Proof.
  destruct (filters_keep_one_value_per_type
              [Sample.S1]
              (UseSchedule.mkFilter UseSchedule.by_groupe (Some "G2"))
              UseSchedule.by_groupe
              [UseSchedule.mkFilter UseSchedule.by_groupe (Some "G1");
               UseSchedule.mkFilter UseSchedule.by_salle (Some "R1")])
    as (H1 & _ & _ & H4).
  - cbn. apply NoDup_cons. split; [|apply NoDup_singleton].
    intros H. apply list_elem_of_singleton in H. discriminate H.
  - split; [exact H1|exact H4].
Defined.

Lemma filtersRecord_last fs t :
  Index.filtersRecord fs t
  = match last (filter (fun f => UseSchedule.type_eq (UseSchedule.f_type f) t) fs) with
    | Some f => UseSchedule.f_value f
    | None => Some UseSchedule.ALL
    end.
Proof.
  unfold Index.filtersRecord.
  induction fs as [|f fs IH] using rev_ind; [done|].
  rewrite foldl_app, filter_app, filter_bool_cons, filter_nil. cbn.
  destruct (UseSchedule.type_eq (UseSchedule.f_type f) t).
  - by rewrite last_snoc.
  - by rewrite app_nil_r.
Qed.

(** X10. The record that the main page shows in the filter bar follows the
    filters of the hook: after [addFilter flt] it shows the value of [flt]
    for its type and what it showed before for the other types, after
    [removeFilter t] it shows ["_all"] for [t], and with no filter at all it
    shows ["_all"] for every type. *)
Theorem filtersRecord_shows_the_filter (flt : UseSchedule.Filter) prev t :
  Index.filtersRecord (UseSchedule.addFilter flt prev) t
  = (if UseSchedule.type_eq (UseSchedule.f_type flt) t
     then UseSchedule.f_value flt
     else Index.filtersRecord prev t)
  /\ Index.filtersRecord (UseSchedule.removeFilter t prev) t
     = Some UseSchedule.ALL
  /\ Index.filtersRecord [] t = Some UseSchedule.ALL.
Proof.
  split; [|split; [|done]].
  - rewrite !filtersRecord_last. unfold UseSchedule.addFilter.
    rewrite filter_app, filter_bool_filter, filter_bool_cons, filter_nil.
    destruct (UseSchedule.type_eq (UseSchedule.f_type flt) t) eqn:E.
    + by rewrite last_snoc.
    + rewrite app_nil_r.
      rewrite (filter_bool_ext _ (fun f => UseSchedule.type_eq (UseSchedule.f_type f) t));
        [done|].
      intros x _. destruct (UseSchedule.type_eq (UseSchedule.f_type x) t) eqn:Ex;
        [|by rewrite andb_false_r].
      apply type_eq_true in Ex as <-. by rewrite type_eq_sym, E.
  - rewrite filtersRecord_last. unfold UseSchedule.removeFilter.
    rewrite filter_bool_filter, filter_bool_false; [done|].
    intros x _. by destruct (UseSchedule.type_eq _ _).
Qed.

Lemma filteredSessions_filter expand sessions fs :
  UseSchedule.filteredSessions expand sessions fs
  = filter (fun s => JS.every (UseSchedule.filter_matches expand s) fs) sessions.
Proof.
  unfold UseSchedule.filteredSessions. destruct fs as [|f fs]; [|done].
  change (sessions
          = filter (fun s => JS.every (UseSchedule.filter_matches expand s) [])
                   sessions).
  symmetry. by apply (filter_bool_true (fun s => JS.every _ [])).
Qed.

Lemma filteredSessions_elem expand sessions fs s :
  s ∈ UseSchedule.filteredSessions expand sessions fs
  <-> s ∈ sessions
      /\ forall f, f ∈ fs -> UseSchedule.filter_matches expand s f = true.
Proof.
  rewrite filteredSessions_filter, elem_of_filter_bool, every_true. tauto.
Qed.

(** X11. A filter on the group, whose value trimmed is [v], neither empty
    nor ["_all"]: the sessions shown are exactly those whose group is [v] or
    whose expansion holds [v], so that a fused session appears in the
    timetable of each of its groups. *)
Theorem filteredSessions_groupe_filter
        (expand : string -> list string) sessions (v : string) s :
  JS.trim v <> "" ->
  JS.trim v <> "_all" ->
  s ∈ UseSchedule.filteredSessions expand sessions
        [UseSchedule.mkFilter UseSchedule.by_groupe (Some v)]
  <-> s ∈ sessions
      /\ (groupe s = JS.trim v \/ JS.trim v ∈ expand (groupe s)).
Proof.
  intros Hv Hall. rewrite filteredSessions_elem.
  assert (UseSchedule.filter_matches expand s
            (UseSchedule.mkFilter UseSchedule.by_groupe (Some v)) = true
          <-> groupe s = JS.trim v \/ JS.trim v ∈ expand (groupe s)) as <-.
  { unfold UseSchedule.filter_matches. cbn [UseSchedule.f_value UseSchedule.f_type JS.nullish].
    apply str_eq_false in Hv as ->. apply str_eq_false in Hall.
    unfold UseSchedule.ALL. rewrite Hall.
    by rewrite orb_true_iff, str_eq_true, includes_true. }
  split; intros [Hs H]; (split; [done|]).
  - apply H. left.
  - intros f Hf. by apply list_elem_of_singleton in Hf as ->.
Qed.

Lemma filteredSessions_groupe_filter_witness :
  Sample.S4 ∈ UseSchedule.filteredSessions
                (Index.expandGroupIds Sample.fusions)
                [Sample.S1; Sample.S2; Sample.S4]
                [UseSchedule.mkFilter UseSchedule.by_groupe (Some " G2 ")]
  <-> Sample.S4 ∈ [Sample.S1; Sample.S2; Sample.S4]
      /\ (groupe Sample.S4 = JS.trim " G2 "
          \/ JS.trim " G2 " ∈ Index.expandGroupIds Sample.fusions
                                 (groupe Sample.S4)).
Proof.
  apply (filteredSessions_groupe_filter
           (Index.expandGroupIds Sample.fusions)
           [Sample.S1; Sample.S2; Sample.S4] " G2 " Sample.S4).
  - vm_compute. discriminate.
  - vm_compute. discriminate.
Defined.

(** X12. Filters whose value is missing, blank or ["_all"] (white space
    around it aside) filter nothing: when all the filters are such, the
    sessions shown are the sessions. *)
Theorem filteredSessions_neutral_filters
        (expand : string -> list string) sessions fs :
  (forall f, f ∈ fs ->
             JS.trim (JS.nullish (UseSchedule.f_value f) "") = ""
             \/ JS.trim (JS.nullish (UseSchedule.f_value f) "") = "_all") ->
  UseSchedule.filteredSessions expand sessions fs = sessions.
Proof.
  intros H. rewrite filteredSessions_filter. apply filter_bool_true.
  intros s _. apply every_true. intros f Hf.
  unfold UseSchedule.filter_matches. destruct (H f Hf) as [->| ->]; done.
Qed.

Lemma filteredSessions_neutral_filters_witness :
  UseSchedule.filteredSessions
    (Index.expandGroupIds Sample.fusions)
    [Sample.S1; Sample.S2; Sample.S4]
    [UseSchedule.mkFilter UseSchedule.by_formateur (Some "_all");
     UseSchedule.mkFilter UseSchedule.by_groupe (Some "  ");
     UseSchedule.mkFilter UseSchedule.by_salle None]
  = [Sample.S1; Sample.S2; Sample.S4].
Proof.
  apply (filteredSessions_neutral_filters
           (Index.expandGroupIds Sample.fusions)).
  intros f Hf.
  apply elem_of_cons in Hf as [->|Hf]; [right; reflexivity|].
  apply elem_of_cons in Hf as [->|Hf]; [left; reflexivity|].
  apply list_elem_of_singleton in Hf as ->. left; reflexivity.
Defined.

(** X13. Filtering returns a sublist of the sessions; filtering the result
    again with the same filters changes nothing; filtering with [fs ++ fs']
    is filtering with [fs] and then with [fs']; and the order of the filters
    does not matter. *)
Theorem filteredSessions_composes
        (expand : string -> list string) sessions fs :
  UseSchedule.filteredSessions expand sessions fs `sublist_of` sessions
  /\ UseSchedule.filteredSessions expand
       (UseSchedule.filteredSessions expand sessions fs) fs
     = UseSchedule.filteredSessions expand sessions fs
  /\ (forall fs',
         UseSchedule.filteredSessions expand sessions (fs ++ fs')
         = UseSchedule.filteredSessions expand
             (UseSchedule.filteredSessions expand sessions fs) fs')
  /\ (forall fs',
         fs ≡ₚ fs' ->
         UseSchedule.filteredSessions expand sessions fs
         = UseSchedule.filteredSessions expand sessions fs').
Proof.
  rewrite !filteredSessions_filter. repeat split.
  - apply sublist_filter.
  - rewrite filter_bool_filter.
    apply filter_bool_ext. intros s _. by destruct (JS.every _ fs).
  - intros fs'. rewrite !filteredSessions_filter, filter_bool_filter.
    apply filter_bool_ext. intros s _. apply every_app.
  - intros fs' Hp. rewrite filteredSessions_filter.
    apply filter_bool_ext. intros s _. apply every_ext.
    intros f. by rewrite Hp.
Qed.

(** X14. Clearing the filter of a type and choosing ["_all"] for that type
    show the same sessions, whatever the other filters. *)
Theorem clearing_a_filter_shows_what_all_shows
        (expand : string -> list string) sessions fs t :
  UseSchedule.filteredSessions expand sessions (UseSchedule.removeFilter t fs)
  = UseSchedule.filteredSessions expand sessions
      (UseSchedule.addFilter
         (UseSchedule.mkFilter t (Some UseSchedule.ALL)) fs).
Proof.
  rewrite !filteredSessions_filter. apply filter_bool_ext. intros s _.
  unfold UseSchedule.addFilter, UseSchedule.removeFilter.
  cbn [UseSchedule.f_type]. rewrite every_app. cbn [JS.every].
  assert (UseSchedule.filter_matches expand s
            (UseSchedule.mkFilter t (Some UseSchedule.ALL)) = true) as ->
      by reflexivity.
  by rewrite !andb_true_r.
Qed.

(** X15. When the effect that installs the default filter sets the
    filters, the trainer of the first session is not empty and the filters
    set are those of [addFilter] with that trainer.  Run again on them, the
    effect does nothing more, except when the name of that trainer is white
    space only: it then sets the same filters again, at every run. *)
Theorem defaultFilterEffect_settles sessions fs next :
  UseSchedule.defaultFilterEffect sessions fs = Some next ->
  exists s,
    head sessions = Some s
    /\ formateur s <> ""
    /\ next = UseSchedule.addFilter
                (UseSchedule.mkFilter UseSchedule.by_formateur
                                      (Some (formateur s))) fs
    /\ UseSchedule.defaultFilterEffect sessions next
       = if JS.str_eq (JS.trim (formateur s)) "" then Some next else None.
Proof.
  unfold UseSchedule.defaultFilterEffect, UseSchedule.uniqueFormateurValues.
  destruct (unique_spec (map formateur sessions))
    as (_ & _ & _ & Hhd).
  destruct (JS.unique (map formateur sessions)) as [|first rest] eqn:Hu; [done|].
  destruct sessions as [|s sessions]; [done|].
  cbn in Hhd. injection Hhd as ->.
  destruct (JS.str_eq (formateur s) "") eqn:Hne; [done|].
  case_bool_decide; [done|].
  destruct (match _ with Some c => _ | None => false end); [done|].
  intros [= <-]. exists s. split; [done|]. split; [by apply str_eq_false|].
  split; [done|].
  rewrite find_app, (find_none_of_type UseSchedule.by_formateur). cbn.
  case_bool_decide as Hall.
  - injection Hall as ->. done.
  - rewrite Hne. cbn.
    rewrite filter_app, filter_bool_filter, filter_bool_cons, filter_nil. cbn.
    rewrite app_nil_r.
    rewrite (filter_bool_ext _ (fun f => negb (UseSchedule.type_eq
                                (UseSchedule.f_type f) UseSchedule.by_formateur)));
      [|intros x _; by destruct (negb _)].
    by destruct (JS.str_eq (JS.trim (formateur s)) "").
Qed.

Lemma defaultFilterEffect_settles_witness :
  exists s,
    head [Sample.S1; Sample.S2] = Some s
    /\ formateur s <> ""
    /\ [UseSchedule.mkFilter UseSchedule.by_salle (Some "R1");
        UseSchedule.mkFilter UseSchedule.by_formateur (Some "T1")]
       = UseSchedule.addFilter
           (UseSchedule.mkFilter UseSchedule.by_formateur (Some (formateur s)))
           [UseSchedule.mkFilter UseSchedule.by_formateur (Some " ");
            UseSchedule.mkFilter UseSchedule.by_salle (Some "R1")]
    /\ UseSchedule.defaultFilterEffect
         [Sample.S1; Sample.S2]
         [UseSchedule.mkFilter UseSchedule.by_salle (Some "R1");
          UseSchedule.mkFilter UseSchedule.by_formateur (Some "T1")]
       = if JS.str_eq (JS.trim (formateur s)) ""
         then Some [UseSchedule.mkFilter UseSchedule.by_salle (Some "R1");
                    UseSchedule.mkFilter UseSchedule.by_formateur (Some "T1")]
         else None.
Proof.
  apply (defaultFilterEffect_settles
           [Sample.S1; Sample.S2]
           [UseSchedule.mkFilter UseSchedule.by_formateur (Some " ");
            UseSchedule.mkFilter UseSchedule.by_salle (Some "R1")]).
  vm_compute. reflexivity.
Defined.

(* ===================================================================== *)
(** * More on the hook's handlers *)
(* ===================================================================== *)

(** X16. [fetchData] makes one request, the fetch of the timetable, and
    always ends with [loading] false.  When the fetch succeeds the sessions
    are the fetched ones, normalised, the version is the fetched one if there
    is one, and the error is cleared: the main page shows its grid.  When it
    fails the sessions and the version are kept and the error is the message
    of the failure, or ["Failed to fetch schedule data"].  The page shows the
    spinner in place of the grid during the fetch: a grid that was on the
    page before is gone with its state, and a grid on the page afterwards is
    a new one, in its initial state, whose first render (hence its drop
    targets) is given the state the fetch left. *)
Theorem fetchData_settles B w :
  exists r,
    filter is_network (trace B UseSchedule.fetchData w) = [Ev getTimetable r]
    /\ h_loading (hook (exec B UseSchedule.fetchData w)) = false
    /\ (shown (hook w) = true ->
        grid (exec B UseSchedule.fetchData w) = initial_grid (rooms_prop w))
    /\ (shown (hook (exec B UseSchedule.fetchData w)) = true ->
        grid (exec B UseSchedule.fetchData w) = initial_grid (rooms_prop w)
        /\ first_render (exec B UseSchedule.fetchData w)
           = hook (exec B UseSchedule.fetchData w))
    /\ match r with
       | Resolved dto =>
           h_sessions (hook (exec B UseSchedule.fetchData w))
           = UseSchedule.normalizeSessions (JS.nullish (dto_sessions dto) [])
           /\ h_version (hook (exec B UseSchedule.fetchData w))
              = JS.nullish (dto_version dto) (h_version (hook w))
           /\ h_error (hook (exec B UseSchedule.fetchData w)) = None
           /\ shown (hook (exec B UseSchedule.fetchData w)) = true
       | Rejected e =>
           h_sessions (hook (exec B UseSchedule.fetchData w))
           = h_sessions (hook w)
           /\ h_version (hook (exec B UseSchedule.fetchData w))
              = h_version (hook w)
           /\ h_error (hook (exec B UseSchedule.fetchData w))
              = Some (JS.nullish (JsError.message e)
                                 "Failed to fetch schedule data")
       end.
Proof.
  destruct (fetchData_grid B w) as (Hsh & Hnew & _).
  revert Hsh Hnew.
  destruct w as [[ss v ld er] rs g fr lg].
  unfold UseSchedule.fetchData, exec. cbn.
  case_timetable.
  - exists (Resolved dto). cbn.
    destruct (dto_version dto) as [v'|]; cbn; rewrite ?Hr; cbn; done.
  - exists (Rejected e). cbn. rewrite ?Hr. done.
Qed.

Lemma str_or_nonempty (s : option string) (d : string) :
  d <> "" -> JS.str_or s d <> "".
Proof. intros Hd. by destruct s as [[|c s]|]. Qed.

Lemma fetchData_no_toast B w : toasts (trace B UseSchedule.fetchData w) = [].
Proof.
  by destruct (hook_calls_quiet _ (fetchData_hook_calls B w)) as (_ & ? & _).
Qed.

Lemma deleteSession_result B w sessionId :
  exists commandId r,
    command_outcomes
      (trace B (UseSchedule.deleteSession (h_sessions (hook w)) (h_version (hook w))
                                          sessionId) w)
    = [(DELETE_SESSION commandId (h_version (hook w)) sessionId, official, r)]
    /\ toasts (trace B (UseSchedule.deleteSession
                          (h_sessions (hook w)) (h_version (hook w))
                          sessionId) w) = []
    /\ match r with
       | Resolved res =>
           run B (UseSchedule.deleteSession
                    (h_sessions (hook w)) (h_version (hook w)) sessionId) w
           = (Ok, mkWorld (mkHook (CommandSuccess.sessions res)
                                  (CommandSuccess.version res)
                                  (h_loading (hook w)) (h_error (hook w)))
                          (rooms_prop w) (grid w) (first_render w)
                          (log w ++ trace B (UseSchedule.deleteSession
                                     (h_sessions (hook w)) (h_version (hook w))
                                     sessionId) w))
           /\ refetches (trace B (UseSchedule.deleteSession
                       (h_sessions (hook w)) (h_version (hook w))
                       sessionId) w) = []
       | Rejected e =>
           exists error,
             result B (UseSchedule.deleteSession
                         (h_sessions (hook w)) (h_version (hook w))
                         sessionId) w
             = Ko error
             /\ error <> ""
       end.
Proof.
  destruct w as [[ss v ld er] rs g fr lg].
  unfold UseSchedule.deleteSession, result. cbn.
  case_command.
  - eexists _, (Resolved res). cbn. split; [done|]. split; [done|].
    split; [|done]. by rewrite <- !app_assoc.
  - eexists _, (Rejected e). split; [|split].
    { cbn. unfold when. case_bool_decide; cbn; [|done].
      rewrite trace_bind. cbn. by rewrite app_nil_r, fetchData_no_command. }
    { cbn. unfold when. case_bool_decide; cbn; [|done].
      rewrite trace_bind. cbn. by rewrite app_nil_r, fetchData_no_toast. }
    cbn. rewrite run_bind. cbn. eexists. split; [done|].
    by destruct (JS.str_or _ _).
Qed.


(** X18. [updateSession] with updates that lack the day, the slot or the
    room stays local: no request is made, it returns [true], and the sessions
    with the id get the updates spread over them, in the list the hook holds
    at that time whatever the closure of the handler holds; the version, the
    flags and the grid are unchanged. *)
Theorem updateSession_partial_is_local B w sessions version sessionId
        (updates : PartialSession) :
  p_jour updates = None \/ p_creneau updates = None \/ p_salle updates = None ->
  filter is_network
         (trace B (UseSchedule.updateSession sessions version sessionId updates) w)
  = []
  /\ run B (UseSchedule.updateSession sessions version sessionId updates) w
     = (true,
        mkWorld
          (mkHook (map (fun s => if JS.str_eq (id s) sessionId
                                 then spread_updates s updates else s)
                       (h_sessions (hook w)))
                  (h_version (hook w)) (h_loading (hook w)) (h_error (hook w)))
          (rooms_prop w) (grid w) (first_render w)
          (log w ++ trace B (UseSchedule.updateSession
                               sessions version sessionId updates) w)).
Proof.
  intros H. destruct w as [[ss v ld er] rs g fr lg].
  unfold UseSchedule.updateSession.
  destruct (p_jour updates), (p_creneau updates), (p_salle updates);
    try (exfalso; destruct H as [?|[?|?]]; discriminate); done.
Qed.

Lemma updateSession_partial_is_local_witness :
  filter is_network
         (trace Sample.accepting_backend
                (UseSchedule.updateSession [] 0 "S1"
                   (mkPartial None None None (Some "M9") None None (Some "R2")))
                Sample.hook_S1_S2)
  = []
  /\ run Sample.accepting_backend
         (UseSchedule.updateSession [] 0 "S1"
            (mkPartial None None None (Some "M9") None None (Some "R2")))
         Sample.hook_S1_S2
     = (true,
        mkWorld
          (mkHook (map (fun s => if JS.str_eq (id s) "S1"
                                 then spread_updates s
                                        (mkPartial None None None (Some "M9")
                                                   None None (Some "R2"))
                                 else s)
                       (h_sessions (hook Sample.hook_S1_S2)))
                  (h_version (hook Sample.hook_S1_S2))
                  (h_loading (hook Sample.hook_S1_S2))
                  (h_error (hook Sample.hook_S1_S2)))
          (rooms_prop Sample.hook_S1_S2) (grid Sample.hook_S1_S2)
          (first_render Sample.hook_S1_S2)
          (log Sample.hook_S1_S2
           ++ trace Sample.accepting_backend
                (UseSchedule.updateSession [] 0 "S1"
                   (mkPartial None None None (Some "M9") None None (Some "R2")))
                Sample.hook_S1_S2)).
Proof.
  apply (updateSession_partial_is_local Sample.accepting_backend
           Sample.hook_S1_S2 [] 0 "S1"
           (mkPartial None None None (Some "M9") None None (Some "R2"))).
  left. reflexivity.
Defined.

(* ===================================================================== *)
(** * A move request that checks the room first *)
(* ===================================================================== *)

Section RequestMove.

Variable B : Backend.
Variable w : World.
Variables (sessionId toJour : string) (toCreneau : Z).

Local Abbreviation request :=
  (UseSchedule.requestMoveWithRoomCheck
     (h_sessions (hook w)) (h_version (hook w)) sessionId toJour toCreneau).
Local Abbreviation found :=
  (JS.find (fun s => JS.str_eq (id s) sessionId) (h_sessions (hook w))).

(** X19. The modes of [requestMoveWithRoomCheck], which shows no toast and
    calls no setter of the grid.  An error always has a text; it means that
    the session is unknown, and then nothing was called, or that the move
    command was refused.  [moved] means that one move command, keeping the
    room of the session found, was sent and accepted, its sessions and version
    adopted.  [choose_room] means that the room query was the only call, that
    the preferred room is the room of the session and is not among the rooms
    listed, and that the hook is as it was.  When the promise is rejected no
    command was sent and the hook is as it was.  The grid of the main page
    stays as it was in every mode, except after a move refused with a version
    mismatch: the timetable is then fetched again, and the grid of the page
    is a new one. *)
Theorem requestMoveWithRoomCheck_modes :
  match result B request w with
  | inr (UseSchedule.check_error error) =>
      error <> ""
      /\ ((found = None /\ trace B request w = []
           /\ grid (exec B request w) = grid w)
          \/ exists cmd e,
              command_outcomes (trace B request w)
              = [(cmd, official, Rejected e)]
              /\ (shown (hook w) = true ->
                  grid (exec B request w)
                  = grid_after_move (rooms_prop w) (grid w) (Rejected e)))
  | inr UseSchedule.check_moved =>
      exists session commandId res,
        found = Some session
        /\ command_outcomes (trace B request w)
           = [(MOVE_SESSION commandId (h_version (hook w)) sessionId
                            toJour toCreneau (salle session),
               official, Resolved res)]
        /\ h_sessions (hook (exec B request w)) = CommandSuccess.sessions res
        /\ h_version (hook (exec B request w)) = CommandSuccess.version res
        /\ grid (exec B request w) = grid w
  | inr (UseSchedule.check_choose_room rooms preferredRoom) =>
      exists session occupied,
        found = Some session
        /\ preferredRoom = salle session
        /\ (preferredRoom ∉ rooms)
        /\ trace B request w
           = [Ev (getAvailableRooms toJour toCreneau official)
                 (Resolved (mkRooms (Some rooms) occupied))]
        /\ hook (exec B request w) = hook w
        /\ grid (exec B request w) = grid w
  | inl _ =>
      commands (trace B request w) = [] /\ hook (exec B request w) = hook w
      /\ grid (exec B request w) = grid w
  end
  /\ filter touches_grid (trace B request w) = []
  /\ toasts (trace B request w) = [].
Proof.
  unfold UseSchedule.requestMoveWithRoomCheck.
  destruct found as [session|] eqn:Hfound.
  2:{ cbn. split; [|done]. split; [done|]. by left. }
  rewrite result_call, trace_call, exec_call. unfold answer.
  destruct (on_getAvailableRooms B (log w) toJour toCreneau official)
    as [[[rooms|] occupied]|e] eqn:Hrooms; cbn [availableRooms].
  2,3: destruct w as [[ss v ld er] rs g fr lg]; done.
  destruct (JS.includes rooms (salle session)) eqn:Hinc.
  2:{ apply includes_false in Hinc.
      destruct w as [[ss v ld er] rs g fr lg]. cbn. split; [|done].
      exists session, occupied. done. }
  set (w1 := snd (handle B (getAvailableRooms toJour toCreneau official) w)).
  assert (Hh : hook w1 = hook w).
  { destruct w as [[ss v ld er] rs g fr lg]. done. }
  assert (Hg : grid w1 = grid w).
  { destruct w as [[ss v ld er] rs g fr lg]. done. }
  assert (Hrs : rooms_prop w1 = rooms_prop w).
  { destruct w as [[ss v ld er] rs g fr lg]. done. }
  rewrite result_bind, trace_bind, exec_bind.
  destruct (moveSessionDnD_run B w1 (h_sessions (hook w)) (h_version (hook w))
              sessionId toJour toCreneau (salle session))
    as (cid & r & Ho & Hcalls & Hsh & _ & Hr).
  cbn zeta in Ho, Hcalls, Hsh, Hr.
  set (move := UseSchedule.moveSessionDnD (h_sessions (hook w)) (h_version (hook w))
                 sessionId toJour toCreneau (salle session)) in *.
  destruct (hook_calls_quiet _ Hcalls) as (_ & Hto & _ & Hquiet).
  rewrite Hh, Hg, Hrs in Hsh.
  clearbody move.
  destruct r as [res|e].
  - destruct Hr as [Hrun _].
    assert (Hres : result B move w1 = Ok) by (unfold result; by rewrite Hrun).
    assert (Hex : exec B move w1
                  = mkWorld (mkHook (CommandSuccess.sessions res)
                                    (CommandSuccess.version res)
                                    (h_loading (hook w1)) (h_error (hook w1)))
                            (rooms_prop w1) (grid w1) (first_render w1)
                            (log w1 ++ trace B move w1))
      by (unfold exec; by rewrite Hrun).
    rewrite Hres. cbn [result run fst exec snd trace]. rewrite Hex, app_nil_r.
    cbn [hook grid h_sessions h_version].
    split; [|split].
    + exists session, cid, res. split; [done|]. split; [|done].
      rewrite command_outcomes_app. exact Ho.
    + rewrite filter_app. by rewrite Hquiet.
    + unfold toasts in *. rewrite omap_app. exact Hto.
  - destruct Hr as [[err Herr] _]. rewrite Herr.
    cbn [result run fst exec snd trace]. rewrite app_nil_r.
    split; [|split].
    + split; [by apply str_or_nonempty|]. right.
      eexists _, e. rewrite command_outcomes_app. split; [exact Ho|exact Hsh].
    + rewrite filter_app. by rewrite Hquiet.
    + unfold toasts in *. rewrite omap_app. exact Hto.
Qed.

End RequestMove.

(* ===================================================================== *)
(** * Changing the room of a session, deleting a session *)
(* ===================================================================== *)

Lemma toasts_app l1 l2 : toasts (l1 ++ l2) = toasts l1 ++ toasts l2.
Proof. apply omap_app. Qed.

Lemma room_queries_app l1 l2 :
  room_queries (l1 ++ l2) = room_queries l1 ++ room_queries l2.
Proof. apply omap_app. Qed.

Lemma prop_updates_app l1 l2 :
  prop_updates (l1 ++ l2) = prop_updates l1 ++ prop_updates l2.
Proof. apply omap_app. Qed.

(** X20. Clicking on the room of a session, in either grid, sends no
    command; in the main grid the state of the hook is left as it was, in the
    virtual grid [updateSession] is not called.  A room query, if one is made,
    is for the day and the slot of the session itself, in the scope of the
    grid, and for an online session nothing happens at all. *)
Theorem change_room_click_sends_nothing B w (isLoading readOnly : bool)
        (scope : Scope) (session : Session) :
  commands (trace B (ScheduleGrid.handleChangeRoomClick
                       isLoading readOnly session) w) = []
  /\ hook (exec B (ScheduleGrid.handleChangeRoomClick
                     isLoading readOnly session) w) = hook w
  /\ (forall q,
         q ∈ room_queries (trace B (ScheduleGrid.handleChangeRoomClick
                                      isLoading readOnly session) w) ->
         exists r, q = (jour session, creneau session, official, r))
  /\ commands (trace B (VirtualScheduleGrid.handleChangeRoomClick
                          scope isLoading session) w) = []
  /\ prop_updates (trace B (VirtualScheduleGrid.handleChangeRoomClick
                              scope isLoading session) w) = []
  /\ (forall q,
         q ∈ room_queries (trace B (VirtualScheduleGrid.handleChangeRoomClick
                                      scope isLoading session) w) ->
         exists r, q = (jour session, creneau session, scope, r))
  /\ (isOnlineSession session = true ->
      exec B (ScheduleGrid.handleChangeRoomClick isLoading readOnly session) w = w
      /\ exec B (VirtualScheduleGrid.handleChangeRoomClick
                   scope isLoading session) w = w).
Proof.
  unfold ScheduleGrid.handleChangeRoomClick,
    VirtualScheduleGrid.handleChangeRoomClick, exec.
  destruct w as [[ss v ld er] rs g fr lg].
  assert (Hq : forall sc r (q : string * Z * Scope * outcome AvailableRoomsResponse),
             q ∈ [(jour session, creneau session, sc, r)] ->
             exists r, q = (jour session, creneau session, sc, r)).
  { intros sc r q Hin. apply list_elem_of_singleton in Hin. by exists r. }
  assert (Hn : forall sc (q : string * Z * Scope * outcome AvailableRoomsResponse),
             q ∈ [] -> exists r, q = (jour session, creneau session, sc, r)).
  { intros sc q Hin. by apply elem_of_nil in Hin. }
  destruct isLoading, readOnly, (isOnlineSession session); cbn;
    try (repeat split; (done || apply Hn || discriminate)).
  all: repeat match goal with
         | |- context [on_getAvailableRooms ?B ?l ?j ?c ?s] =>
             destruct (on_getAvailableRooms B l j c s) as [[[[|? ?]|] ?]|?];
             cbn
         end.
  all: repeat split; try done; try discriminate;
    try (apply Hn); try (eapply Hq).
Qed.

Lemma fetchData_quiet B w :
  command_outcomes (trace B UseSchedule.fetchData w) = []
  /\ room_queries (trace B UseSchedule.fetchData w) = []
  /\ toasts (trace B UseSchedule.fetchData w) = [].
Proof.
  destruct (hook_calls_quiet _ (fetchData_hook_calls B w)) as (Hq & Ht & _ & Hg).
  split; [apply fetchData_no_command|]. by split.
Qed.

(** The click on "Confirmer" on the main page: the move is sent, the prompt
    is closed while the command is on its way, and the handler goes on with
    the outcome. *)
Lemma Index_confirm_run B w ds tc room :
  g_draggedSession (grid w) = Some ds ->
  g_targetCell (grid w) = Some tc ->
  exists commandId r,
    command_outcomes
      (trace B (RoomSelector.confirm (Index.handleRoomSelect w)
                                     ScheduleGrid.onClose room) w)
    = [(MOVE_SESSION commandId (h_version (hook w)) (id ds) (day tc) (slot tc)
                     room, official, r)]
    /\ room_queries
         (trace B (RoomSelector.confirm (Index.handleRoomSelect w)
                                        ScheduleGrid.onClose room) w) = []
    /\ toasts
         (trace B (RoomSelector.confirm (Index.handleRoomSelect w)
                                        ScheduleGrid.onClose room) w)
       = [match r with
          | Resolved _ =>
              if JS.str_eq (jour ds) (day tc) && JS.num_eq (creneau ds) (slot tc)
              then mkToast "Salle modifiée"
                           (module ds +:+ " (" +:+ groupe ds
                            +:+ ") : Salle " +:+ room) None
              else ScheduleGrid.toast_moved ds (day tc) (slot tc)
                                            ("Salle " +:+ room)
          | Rejected _ =>
              mkToast "Action refusée"
                      "Action refusée par le serveur (contraintes / conflits)."
                      (Some "destructive")
          end]
    /\ g_roomSelectorOpen
         (grid (exec B (RoomSelector.confirm (Index.handleRoomSelect w)
                                             ScheduleGrid.onClose room) w))
       = false
    /\ (shown (hook w) = true ->
        grid (exec B (RoomSelector.confirm (Index.handleRoomSelect w)
                                           ScheduleGrid.onClose room) w)
        = grid_after_move
            (rooms_prop w)
            (mkGrid false (g_availableRooms (grid w))
                    (g_draggedSession (grid w)) (g_conflictSession (grid w))
                    (g_targetCell (grid w)))
            r)
    /\ forall res,
        r = Resolved res ->
        h_sessions (hook (exec B (RoomSelector.confirm (Index.handleRoomSelect w)
                                    ScheduleGrid.onClose room) w))
        = CommandSuccess.sessions res
        /\ h_version (hook (exec B (RoomSelector.confirm
                                      (Index.handleRoomSelect w)
                                      ScheduleGrid.onClose room) w))
           = CommandSuccess.version res.
Proof.
  intros Hds Htc.
  unfold RoomSelector.confirm, Index.handleRoomSelect,
    ScheduleGrid.handleRoomSelect, ScheduleGrid.onClose.
  rewrite Hds, Htc.
  unfold Index.updateSession, UseSchedule.updateSession,
    UseSchedule.moveSessionDnD, UseSchedule.newCommandId,
    grid_after_move, refetch_after_move.
  destruct w as [[ss v ld er] rs [op av dr cf tg] fr lg].
  cbn [move_updates p_jour p_creneau p_salle hook grid h_sessions h_version
       g_availableRooms g_draggedSession g_conflictSession g_targetCell
       rooms_prop].
  cbn in Hds, Htc. subst dr tg.
  unfold exec. cbn.
  case_command.
  - eexists _, (Resolved res). cbn.
    do 5 (split; [done|]). by intros ? [= <-].
  - eexists _, (Rejected e). cbn.
    destruct (JsError.body e) as [b|]; cbn; [|by repeat split].
    destruct (CommandError.ok b) as [[|]|]; cbn; try by repeat split.
    unfold when. case_bool_decide; cbn; [|by repeat split].
    rewrite !trace_bind, !run_bind, !result_bind. cbn.
    match goal with
    | |- context [trace B UseSchedule.fetchData ?w0] =>
        destruct (fetchData_quiet B w0) as (Hc & Hq & Ht);
        destruct (fetchData_grid B w0) as (Hsh & _ & Hor)
    end.
    unfold command_outcomes, room_queries, toasts in Hc, Hq, Ht.
    cbn in Hsh, Hor.
    rewrite ?app_nil_r, ?omap_app, ?Hc, ?Hq, ?Ht. cbn.
    do 3 (split; [done|]). rewrite !exec_bind. cbn.
    split; [|split; [exact Hsh|by intros ? [=]]].
    by destruct Hor as [-> | ->].
Qed.

(** X21. Confirming a room in the prompt, a dragged session and a target
    cell being recorded: [RoomSelector] calls [handleRoomSelect] without
    awaiting it and closes the prompt at once.  On the main page one move
    command is sent, for that session, that cell and the chosen room, without
    any room query; one toast is shown; the prompt ends closed whatever the
    outcome of the command.  In the virtual grid [updateSession] is called
    once with that cell and that room, no room is queried, a toast is shown
    only when the answer is a refusal, and the prompt ends closed. *)
Theorem room_choice_is_one_move B w ds tc room :
  g_draggedSession (grid w) = Some ds ->
  g_targetCell (grid w) = Some tc ->
  (exists commandId r,
      command_outcomes
        (trace B (RoomSelector.confirm (Index.handleRoomSelect w)
                                       ScheduleGrid.onClose room) w)
      = [(MOVE_SESSION commandId (h_version (hook w))
                       (id ds) (day tc) (slot tc) room, official, r)]
      /\ room_queries
           (trace B (RoomSelector.confirm (Index.handleRoomSelect w)
                                          ScheduleGrid.onClose room) w) = []
      /\ length (toasts
                   (trace B (RoomSelector.confirm (Index.handleRoomSelect w)
                                                  ScheduleGrid.onClose room) w))
         = 1%nat
      /\ g_roomSelectorOpen
           (grid (exec B (RoomSelector.confirm (Index.handleRoomSelect w)
                                               ScheduleGrid.onClose room) w))
         = false)
  /\ prop_updates
       (trace B (RoomSelector.confirm
                   (VirtualScheduleGrid.handleRoomSelect
                      VirtualTimetable.updateSession
                      (g_draggedSession (grid w)) (g_targetCell (grid w)))
                   VirtualScheduleGrid.onClose room) w)
     = [(id ds, move_updates (day tc) (slot tc) room)]
  /\ room_queries
       (trace B (RoomSelector.confirm
                   (VirtualScheduleGrid.handleRoomSelect
                      VirtualTimetable.updateSession
                      (g_draggedSession (grid w)) (g_targetCell (grid w)))
                   VirtualScheduleGrid.onClose room) w)
     = []
  /\ toasts
       (trace B (RoomSelector.confirm
                   (VirtualScheduleGrid.handleRoomSelect
                      VirtualTimetable.updateSession
                      (g_draggedSession (grid w)) (g_targetCell (grid w)))
                   VirtualScheduleGrid.onClose room) w)
     = (if on_propUpdateSession B (log w) (id ds)
                                (move_updates (day tc) (slot tc) room)
        then [] else [VirtualScheduleGrid.toast_refused])
  /\ g_roomSelectorOpen
       (grid (exec B (RoomSelector.confirm
                        (VirtualScheduleGrid.handleRoomSelect
                           VirtualTimetable.updateSession
                           (g_draggedSession (grid w)) (g_targetCell (grid w)))
                        VirtualScheduleGrid.onClose room) w))
     = false.
Proof.
  intros Hds Htc. split.
  - destruct (Index_confirm_run B w ds tc room Hds Htc)
      as (cid & r & Ho & Hq & Hto & Hg & _).
    exists cid, r. rewrite Hto. done.
  - rewrite Hds, Htc. clear Hds Htc. destruct w as [[ss v ld er] rs g fr lg].
    unfold RoomSelector.confirm, VirtualScheduleGrid.handleRoomSelect,
      VirtualTimetable.updateSession, VirtualScheduleGrid.onClose, exec.
    cbn. by destruct (on_propUpdateSession B lg (id ds) _).
Qed.

Lemma room_choice_is_one_move_witness :
  (exists commandId r,
      command_outcomes
        (trace Sample.conflict_backend
           (RoomSelector.confirm
              (Index.handleRoomSelect
                 (mkWorld (mkHook [Sample.S1; Sample.S2] 3 false None)
                          ["R1"; "R2"; "R3"]
                          (mkGrid true ["R2"] (Some Sample.S1) None
                                  (Some (mkCell "lundi" 1)))
                          (mkHook [Sample.S1; Sample.S2] 3 false None) []))
              ScheduleGrid.onClose "R2")
           (mkWorld (mkHook [Sample.S1; Sample.S2] 3 false None)
                    ["R1"; "R2"; "R3"]
                    (mkGrid true ["R2"] (Some Sample.S1) None
                            (Some (mkCell "lundi" 1)))
                    (mkHook [Sample.S1; Sample.S2] 3 false None) []))
      = [(MOVE_SESSION commandId 3 "S1" "lundi" 1 "R2", official, r)]
      /\ room_queries
           (trace Sample.conflict_backend
              (RoomSelector.confirm
                 (Index.handleRoomSelect
                    (mkWorld (mkHook [Sample.S1; Sample.S2] 3 false None)
                             ["R1"; "R2"; "R3"]
                             (mkGrid true ["R2"] (Some Sample.S1) None
                                     (Some (mkCell "lundi" 1)))
                             (mkHook [Sample.S1; Sample.S2] 3 false None) []))
                 ScheduleGrid.onClose "R2")
              (mkWorld (mkHook [Sample.S1; Sample.S2] 3 false None)
                       ["R1"; "R2"; "R3"]
                       (mkGrid true ["R2"] (Some Sample.S1) None
                               (Some (mkCell "lundi" 1)))
                       (mkHook [Sample.S1; Sample.S2] 3 false None) []))
         = []
      /\ length (toasts
                   (trace Sample.conflict_backend
                      (RoomSelector.confirm
                         (Index.handleRoomSelect
                            (mkWorld (mkHook [Sample.S1; Sample.S2] 3 false None)
                                     ["R1"; "R2"; "R3"]
                                     (mkGrid true ["R2"] (Some Sample.S1) None
                                             (Some (mkCell "lundi" 1)))
                                     (mkHook [Sample.S1; Sample.S2] 3 false None) []))
                         ScheduleGrid.onClose "R2")
                      (mkWorld (mkHook [Sample.S1; Sample.S2] 3 false None)
                               ["R1"; "R2"; "R3"]
                               (mkGrid true ["R2"] (Some Sample.S1) None
                                       (Some (mkCell "lundi" 1)))
                               (mkHook [Sample.S1; Sample.S2] 3 false None) [])))
         = 1%nat
      /\ g_roomSelectorOpen
           (grid (exec Sample.conflict_backend
                    (RoomSelector.confirm
                       (Index.handleRoomSelect
                          (mkWorld (mkHook [Sample.S1; Sample.S2] 3 false None)
                                   ["R1"; "R2"; "R3"]
                                   (mkGrid true ["R2"] (Some Sample.S1) None
                                           (Some (mkCell "lundi" 1)))
                                   (mkHook [Sample.S1; Sample.S2] 3 false None) []))
                       ScheduleGrid.onClose "R2")
                    (mkWorld (mkHook [Sample.S1; Sample.S2] 3 false None)
                             ["R1"; "R2"; "R3"]
                             (mkGrid true ["R2"] (Some Sample.S1) None
                                     (Some (mkCell "lundi" 1)))
                             (mkHook [Sample.S1; Sample.S2] 3 false None) [])))
         = false)
  /\ prop_updates
       (trace Sample.conflict_backend
          (RoomSelector.confirm
             (VirtualScheduleGrid.handleRoomSelect
                VirtualTimetable.updateSession
                (Some Sample.S1) (Some (mkCell "lundi" 1)))
             VirtualScheduleGrid.onClose "R2")
          (mkWorld (mkHook [Sample.S1; Sample.S2] 3 false None)
                   ["R1"; "R2"; "R3"]
                   (mkGrid true ["R2"] (Some Sample.S1) None
                           (Some (mkCell "lundi" 1)))
                   (mkHook [Sample.S1; Sample.S2] 3 false None) []))
     = [("S1", move_updates "lundi" 1 "R2")]
  /\ room_queries
       (trace Sample.conflict_backend
          (RoomSelector.confirm
             (VirtualScheduleGrid.handleRoomSelect
                VirtualTimetable.updateSession
                (Some Sample.S1) (Some (mkCell "lundi" 1)))
             VirtualScheduleGrid.onClose "R2")
          (mkWorld (mkHook [Sample.S1; Sample.S2] 3 false None)
                   ["R1"; "R2"; "R3"]
                   (mkGrid true ["R2"] (Some Sample.S1) None
                           (Some (mkCell "lundi" 1)))
                   (mkHook [Sample.S1; Sample.S2] 3 false None) []))
     = []
  /\ toasts
       (trace Sample.conflict_backend
          (RoomSelector.confirm
             (VirtualScheduleGrid.handleRoomSelect
                VirtualTimetable.updateSession
                (Some Sample.S1) (Some (mkCell "lundi" 1)))
             VirtualScheduleGrid.onClose "R2")
          (mkWorld (mkHook [Sample.S1; Sample.S2] 3 false None)
                   ["R1"; "R2"; "R3"]
                   (mkGrid true ["R2"] (Some Sample.S1) None
                           (Some (mkCell "lundi" 1)))
                   (mkHook [Sample.S1; Sample.S2] 3 false None) []))
     = (if on_propUpdateSession Sample.conflict_backend [] "S1"
                                (move_updates "lundi" 1 "R2")
        then [] else [VirtualScheduleGrid.toast_refused])
  /\ g_roomSelectorOpen
       (grid (exec Sample.conflict_backend
                (RoomSelector.confirm
                   (VirtualScheduleGrid.handleRoomSelect
                      VirtualTimetable.updateSession
                      (Some Sample.S1) (Some (mkCell "lundi" 1)))
                   VirtualScheduleGrid.onClose "R2")
                (mkWorld (mkHook [Sample.S1; Sample.S2] 3 false None)
                         ["R1"; "R2"; "R3"]
                         (mkGrid true ["R2"] (Some Sample.S1) None
                                 (Some (mkCell "lundi" 1)))
                         (mkHook [Sample.S1; Sample.S2] 3 false None) [])))
     = false.
Proof.
  apply (room_choice_is_one_move
           Sample.conflict_backend
           (mkWorld (mkHook [Sample.S1; Sample.S2] 3 false None)
                    ["R1"; "R2"; "R3"]
                    (mkGrid true ["R2"] (Some Sample.S1) None
                            (Some (mkCell "lundi" 1)))
                    (mkHook [Sample.S1; Sample.S2] 3 false None) [])
           Sample.S1 (mkCell "lundi" 1) "R2");
    reflexivity.
Defined.

(** X22. Changing the room of a session on the main page, the grid being on
    the page, for a session in a physical room and a backend that lists at
    least one free room: the click on the card and then the confirmation of
    a room make one room query, for the cell of the session, and send one
    move command, which keeps the day and the slot of the session and carries
    the chosen room and the version of the hook.  The toast says
    ["Salle modifiée"] when the command is accepted, its sessions and version
    being adopted, and ["Action refusée"] when it is refused.  No prompt is on
    the page at the end.  The grid still holds the session and the rooms
    listed, unless the command was refused with a version mismatch: the
    timetable was then fetched again and the grid of the page is a new one,
    in its initial state. *)
Theorem change_room_flow B w (session : Session) (room : string)
        (api : AvailableRoomsResponse) :
  shown (hook w) = true ->
  isOnlineSession session = false ->
  on_getAvailableRooms B (log w) (jour session) (creneau session) official
  = Resolved api ->
  JS.nullish (availableRooms api) [] <> [] ->
  exists commandId r,
    command_outcomes (log (Index.change_room false B w session room))
    = command_outcomes (log w)
      ++ [(MOVE_SESSION commandId (h_version (hook w))
                        (id session) (jour session) (creneau session) room,
           official, r)]
    /\ room_queries (log (Index.change_room false B w session room))
       = room_queries (log w)
         ++ [(jour session, creneau session, official, Resolved api)]
    /\ toasts (log (Index.change_room false B w session room))
       = toasts (log w)
         ++ [match r with
             | Resolved _ =>
                 mkToast "Salle modifiée"
                         (module session +:+ " (" +:+ groupe session
                          +:+ ") : Salle " +:+ room) None
             | Rejected _ =>
                 mkToast "Action refusée"
                   "Action refusée par le serveur (contraintes / conflits)."
                   (Some "destructive")
             end]
    /\ prompt (grid (Index.change_room false B w session room)) = None
    /\ grid (Index.change_room false B w session room)
       = grid_after_move
           (rooms_prop w)
           (mkGrid false (JS.nullish (availableRooms api) [])
                   (Some session) None
                   (Some (mkCell (jour session) (creneau session))))
           r
    /\ forall res,
        r = Resolved res ->
        h_sessions (hook (Index.change_room false B w session room))
        = CommandSuccess.sessions res
        /\ h_version (hook (Index.change_room false B w session room))
           = CommandSuccess.version res.
Proof.
  intros Hshown Hphys Hrooms Hne.
  assert (Hld : h_loading (hook w) = false).
  { unfold shown in Hshown. destruct (h_error (hook w)) as [[|? ?]|];
      try discriminate; by destruct (h_loading (hook w)). }
  unfold Index.change_room.
  set (w1 := exec B (Index.handleChangeRoomClick false w session) w).
  assert (Hw1 : w1 = mkWorld (hook w) (rooms_prop w)
                       (mkGrid true (JS.nullish (availableRooms api) [])
                               (Some session) None
                               (Some (mkCell (jour session) (creneau session))))
                       (first_render w)
                       (log w
                        ++ [Ev (getAvailableRooms (jour session) (creneau session)
                                                  official) (Resolved api);
                            Ev (setDraggedSession (Some session)) tt;
                            Ev (setTargetCell
                                  (Some (mkCell (jour session) (creneau session)))) tt;
                            Ev (setConflictSession None) tt;
                            Ev (setAvailableRooms
                                  (JS.nullish (availableRooms api) [])) tt;
                            Ev (setRoomSelectorOpen true) tt])).
  { subst w1. unfold Index.handleChangeRoomClick,
      ScheduleGrid.handleChangeRoomClick.
    rewrite Hld, Hphys. rewrite exec_call. unfold answer. rewrite Hrooms.
    destruct (JS.nullish (availableRooms api) []) as [|r0 rs0] eqn:Hfree; [done|].
    destruct w as [[ss v ld er] rs g fr lg]. unfold exec. cbn.
    cbn in Hrooms. by rewrite Hrooms, <- !app_assoc. }
  destruct (Index_confirm_run B w1 session
              (mkCell (jour session) (creneau session)) room)
    as (cid & r & Ho & Hq & Hto & Hop & Hg & Hr); [by rewrite Hw1..|].
  assert (Hsh1 : shown (hook w1) = true) by by rewrite Hw1.
  specialize (Hg Hsh1).
  exists cid, r.
  rewrite log_exec, command_outcomes_app, room_queries_app, toasts_app,
    Ho, Hq, Hto, Hg.
  assert (Hv : h_version (hook w1) = h_version (hook w)) by by rewrite Hw1.
  rewrite Hv. cbn [day slot].
  assert (Hl1 : command_outcomes (log w1) = command_outcomes (log w)
                /\ room_queries (log w1)
                   = room_queries (log w)
                     ++ [(jour session, creneau session, official, Resolved api)]
                /\ toasts (log w1) = toasts (log w)).
  { rewrite Hw1. cbn [log].
    rewrite command_outcomes_app, room_queries_app, toasts_app. cbn.
    by rewrite !app_nil_r. }
  destruct Hl1 as (-> & -> & ->).
  assert (JS.str_eq (jour session) (jour session)
          && JS.num_eq (creneau session) (creneau session) = true) as ->.
  { apply andb_true_iff. split; [by apply str_eq_true|by apply num_eq_true]. }
  split; [done|]. split; [by rewrite app_nil_r|]. split; [done|].
  split; [|split; [by rewrite Hw1|exact Hr]].
  rewrite Hw1. unfold grid_after_move.
  destruct r as [res|e]; [done|]. by destruct (refetch_after_move e).
Qed.

Lemma change_room_flow_witness :
  exists commandId r,
    command_outcomes
      (log (Index.change_room false Sample.mismatch_backend Sample.hook_S1_S2
                              Sample.S1 "R2"))
    = command_outcomes (log Sample.hook_S1_S2)
      ++ [(MOVE_SESSION commandId (h_version (hook Sample.hook_S1_S2))
                        (id Sample.S1) (jour Sample.S1) (creneau Sample.S1) "R2",
           official, r)]
    /\ room_queries
         (log (Index.change_room false Sample.mismatch_backend Sample.hook_S1_S2
                                 Sample.S1 "R2"))
       = room_queries (log Sample.hook_S1_S2)
         ++ [(jour Sample.S1, creneau Sample.S1, official,
              Resolved (mkRooms (Some ["R1"; "R2"]) None))]
    /\ toasts
         (log (Index.change_room false Sample.mismatch_backend Sample.hook_S1_S2
                                 Sample.S1 "R2"))
       = toasts (log Sample.hook_S1_S2)
         ++ [match r with
             | Resolved _ =>
                 mkToast "Salle modifiée"
                         (module Sample.S1 +:+ " (" +:+ groupe Sample.S1
                          +:+ ") : Salle " +:+ "R2") None
             | Rejected _ =>
                 mkToast "Action refusée"
                   "Action refusée par le serveur (contraintes / conflits)."
                   (Some "destructive")
             end]
    /\ prompt (grid (Index.change_room false Sample.mismatch_backend
                                       Sample.hook_S1_S2 Sample.S1 "R2"))
       = None
    /\ grid (Index.change_room false Sample.mismatch_backend Sample.hook_S1_S2
                               Sample.S1 "R2")
       = grid_after_move
           (rooms_prop Sample.hook_S1_S2)
           (mkGrid false
                   (JS.nullish (availableRooms (mkRooms (Some ["R1"; "R2"]) None))
                               [])
                   (Some Sample.S1) None
                   (Some (mkCell (jour Sample.S1) (creneau Sample.S1))))
           r
    /\ forall res,
        r = Resolved res ->
        h_sessions
          (hook (Index.change_room false Sample.mismatch_backend
                                   Sample.hook_S1_S2 Sample.S1 "R2"))
        = CommandSuccess.sessions res
        /\ h_version
             (hook (Index.change_room false Sample.mismatch_backend
                                      Sample.hook_S1_S2 Sample.S1 "R2"))
           = CommandSuccess.version res.
Proof.
  apply (change_room_flow Sample.mismatch_backend Sample.hook_S1_S2
                          Sample.S1 "R2" (mkRooms (Some ["R1"; "R2"]) None)).
  - reflexivity.
  - reflexivity.
  - reflexivity.
  - simpl. discriminate.
Defined.

(** X23. Deleting from the grid of the main page: one delete command is
    sent, with the version of the hook, and the toast ["Séance supprimée"] is
    shown, the only one, whatever the outcome of the command, since
    [deleteSession] reports a refusal in what it returns and never throws
    while [handleDelete] only looks for a throw.  On a read-only page
    [handleDelete] does nothing. *)
Theorem delete_toast_whatever_the_outcome B w (sessionId : string) :
  (exists commandId r,
      command_outcomes (trace B (Index.handleDelete false w sessionId) w)
      = [(DELETE_SESSION commandId (h_version (hook w)) sessionId, official, r)]
      /\ toasts (trace B (Index.handleDelete false w sessionId) w)
         = [ScheduleGrid.toast_deleted])
  /\ Index.handleDelete true w sessionId = Ret tt.
Proof.
  split; [|done].
  unfold Index.handleDelete, ScheduleGrid.handleDelete, Index.deleteSession.
  destruct (deleteSession_result B w sessionId) as (cid & r & Ho & Hto & _).
  exists cid, r.
  set (del := UseSchedule.deleteSession (h_sessions (hook w)) (h_version (hook w))
                sessionId) in *.
  rewrite !trace_bind, command_outcomes_app, toasts_app.
  rewrite command_outcomes_app, toasts_app, Ho, Hto.
  rewrite result_bind. cbn. done.
Qed.

(* ===================================================================== *)
(** * The virtual view: what the requests change *)
(* ===================================================================== *)

Lemma index_by_id_snoc base (b : BaseSession) :
  VirtualTimetable.index_by_id (base ++ [b])
  = <[id (b_session b) := length base]> (VirtualTimetable.index_by_id base).
Proof.
  unfold VirtualTimetable.index_by_id.
  rewrite imap_app, foldl_app. cbn. by rewrite Nat.add_0_r.
Qed.

(** [byId] maps an id to the position of the last entry that has it. *)
Lemma index_by_id_spec base (k : string) :
  match VirtualTimetable.index_by_id base !! k with
  | Some i =>
      exists b, base !! i = Some b /\ id (b_session b) = k
                /\ forall j b', base !! j = Some b' ->
                                id (b_session b') = k -> (j <= i)%nat
  | None => forall b, b ∈ base -> id (b_session b) <> k
  end.
Proof.
  induction base as [|b base IH] using rev_ind.
  - unfold VirtualTimetable.index_by_id. cbn. rewrite lookup_empty.
    intros b Hb. by apply elem_of_nil in Hb.
  - rewrite index_by_id_snoc.
    destruct (decide (id (b_session b) = k)) as [<-|Hk].
    + rewrite lookup_insert_eq. exists b. split; [|split; [done|]].
      * by rewrite lookup_app_r, Nat.sub_diag.
      * intros j b' Hj _. apply lookup_lt_Some in Hj.
        rewrite length_app in Hj. cbn in Hj. lia.
    + rewrite lookup_insert_ne by done.
      destruct (VirtualTimetable.index_by_id base !! k) as [i|].
      * destruct IH as (b0 & Hb0 & Hid & Hmax). exists b0.
        split; [by apply lookup_app_l_Some|]. split; [done|].
        intros j b' Hj Hb'.
        destruct (decide (j < length base)%nat) as [Hlt|Hge].
        -- rewrite lookup_app_l in Hj by done. eauto.
        -- rewrite lookup_app_r in Hj by lia.
           destruct (j - length base)%nat; [|done].
           injection Hj as <-. done.
      * intros b' Hb'. apply elem_of_app in Hb' as [Hb'|Hb']; [by apply IH|].
        by apply list_elem_of_singleton in Hb' as ->.
Qed.

Lemma tag_sessions st rid byId sessionId base :
  b_session <$> VirtualTimetable.tag st rid byId sessionId base
  = b_session <$> base.
Proof.
  unfold VirtualTimetable.tag. destruct (byId !! sessionId) as [i|]; [|done].
  apply list_eq. intros j. rewrite !list_lookup_fmap.
  destruct (decide (i = j)) as [<-|Hij].
  - rewrite list_lookup_alter_eq. by destruct (base !! i).
  - by rewrite list_lookup_alter_ne.
Qed.

Lemma reconcile_request_step byId base extra (r : ChangeRequest.t) :
  exists base' ghosts,
    VirtualTimetable.reconcile_request byId (base, extra) r
    = (base', extra ++ ghosts)
    /\ b_session <$> base' = b_session <$> base
    /\ length ghosts = (if pushes_ghost r then 1 else 0)%nat
    /\ base' = match tag_of r with
               | Some st =>
                   VirtualTimetable.tag st (request_id r) byId
                                        (request_session r) base
               | None => base
               end.
Proof.
  unfold VirtualTimetable.reconcile_request, pushes_ghost, tag_of.
  fold (request_type r) (request_session r) (request_id r).
  destruct (JS.str_eq (request_type r) "DELETE") eqn:Ed.
  { apply str_eq_true in Ed. rewrite Ed. cbn.
    eexists _, []. rewrite app_nil_r. repeat split. apply tag_sessions. }
  destruct (JS.str_eq (request_type r) "INSERT") eqn:Ei.
  { eexists _, [_]. repeat split. }
  cbn [orb].
  destruct (JS.str_eq (request_type r) "MOVE"
            || JS.str_eq (request_type r) "CHANGE_ROOM") eqn:Em.
  - eexists _, [_]. repeat split. apply tag_sessions.
  - eexists _, []. rewrite app_nil_r. repeat split.
Qed.

Lemma buildVirtual_snoc official requests (r : ChangeRequest.t) :
  VirtualTimetable.buildVirtualFromRequests official (Some (requests ++ [r]))
  = VirtualTimetable.reconcile_request
      (VirtualTimetable.index_by_id (map (fun s => mkBase s None None) official))
      (VirtualTimetable.buildVirtualFromRequests official (Some requests)) r.
Proof.
  unfold VirtualTimetable.buildVirtualFromRequests. cbn. by rewrite foldl_app.
Qed.

(** X24. The virtual view never adds, removes, reorders or edits a session
    of [base]: whatever the requests, the sessions of [base] are the official
    ones, only tags change.  [extra] gets one ghost for each INSERT, MOVE or
    CHANGE_ROOM request.  Without requests nothing is tagged and there is no
    ghost, and a request of another type is ignored. *)
Theorem buildVirtualFromRequests_only_tags official requests :
  map b_session (VirtualTimetable.buildVirtualFromRequests official requests).1
  = official
  /\ length (VirtualTimetable.buildVirtualFromRequests official requests).2
     = length (filter (fun r => pushes_ghost r) (JS.nullish requests []))
  /\ VirtualTimetable.buildVirtualFromRequests official None
     = (map (fun s => mkBase s None None) official, [])
  /\ VirtualTimetable.buildVirtualFromRequests official requests
     = VirtualTimetable.buildVirtualFromRequests official
         (Some (filter (fun r => bool_decide (is_Some (tag_of r))
                                 || pushes_ghost r)
                       (JS.nullish requests []))).
Proof.
  assert (Hnone : VirtualTimetable.buildVirtualFromRequests official None
                  = VirtualTimetable.buildVirtualFromRequests official (Some []))
    by done.
  assert (H : forall reqs,
             map b_session
                 (VirtualTimetable.buildVirtualFromRequests official (Some reqs)).1
             = official
             /\ length (VirtualTimetable.buildVirtualFromRequests
                          official (Some reqs)).2
                = length (filter (fun r => pushes_ghost r) reqs)
             /\ VirtualTimetable.buildVirtualFromRequests official (Some reqs)
                = VirtualTimetable.buildVirtualFromRequests official
                    (Some (filter (fun r => bool_decide (is_Some (tag_of r))
                                            || pushes_ghost r) reqs))).
  { induction reqs as [|r reqs IH] using rev_ind.
    - cbn. split; [|done]. rewrite map_map. cbn. apply map_id.
    - destruct IH as (IH1 & IH2 & IH3).
      rewrite buildVirtual_snoc, !filter_app, !filter_bool_cons, !filter_nil.
      destruct (VirtualTimetable.buildVirtualFromRequests official (Some reqs))
        as [base extra] eqn:Hb.
      destruct (reconcile_request_step
                  (VirtualTimetable.index_by_id
                     (map (fun s => mkBase s None None) official))
                  base extra r)
        as (base' & ghosts & Hstep & Hs & Hg & Ht).
      rewrite Hstep. cbn [fst snd] in *.
      split; [|split].
      + change (map b_session base') with (b_session <$> base').
        rewrite Hs. exact IH1.
      + rewrite !length_app, Hg, IH2. by destruct (pushes_ghost r).
      + destruct (bool_decide (is_Some (tag_of r)) || pushes_ghost r) eqn:Ek.
        * by rewrite buildVirtual_snoc, <- IH3, Hstep.
        * rewrite app_nil_r, <- IH3. apply orb_false_iff in Ek as [Ek1 Ek2].
          rewrite Ek2 in Hg. destruct ghosts; [|done]. rewrite app_nil_r.
          destruct (tag_of r); [done|]. by subst base'. }
  destruct requests as [reqs|]; cbn [JS.nullish].
  - destruct (H reqs) as (H1 & H2 & H3). done.
  - destruct (H []) as (H1 & H2 & H3). rewrite Hnone. done.
Qed.

Lemma tags_session_true s r :
  tags_session s r = true
  <-> is_Some (tag_of r) /\ request_session r = id s.
Proof.
  unfold tags_session.
  by rewrite andb_true_iff, bool_decide_eq_true, str_eq_true.
Qed.

(** X25. The official sessions having distinct ids, the entry of [base]
    for a session is decided by the last DELETE, MOVE or CHANGE_ROOM request
    that names it: the session tagged [TO_DELETE] or [MOVED_AWAY] with the id
    of that request; with no such request the session carries no tag. *)
Theorem base_tag_is_the_last_request official requests (i : nat) (s : Session) :
  NoDup (id <$> official) ->
  official !! i = Some s ->
  (VirtualTimetable.buildVirtualFromRequests official requests).1 !! i
  = Some match last (filter (fun r => tags_session s r)
                            (JS.nullish requests [])) with
         | Some r => mkBase s (tag_of r) (request_id r)
         | None => mkBase s None None
         end.
Proof.
  intros Hnd Hi.
  assert (Hnone : VirtualTimetable.buildVirtualFromRequests official None
                  = VirtualTimetable.buildVirtualFromRequests official (Some []))
    by done.
  assert (Hgoal : forall reqs,
             (VirtualTimetable.buildVirtualFromRequests official (Some reqs)).1 !! i
             = Some match last (filter (fun r => tags_session s r) reqs) with
                    | Some r => mkBase s (tag_of r) (request_id r)
                    | None => mkBase s None None
                    end);
    [|destruct requests as [reqs|]; [apply Hgoal|rewrite Hnone; apply Hgoal]].
  set (base0 := map (fun s => mkBase s None None) official).
  assert (Hbase0 : forall j b, base0 !! j = Some b ->
                               official !! j = Some (b_session b)).
  { intros j b Hj. subst base0.
    change (map ?f ?l) with (f <$> l) in Hj. rewrite list_lookup_fmap in Hj.
    destruct (official !! j); [|done]. by injection Hj as <-. }
  assert (Hby : forall k j,
             VirtualTimetable.index_by_id base0 !! k = Some j ->
             (k = id s <-> j = i)).
  { intros k j Hk. pose proof (index_by_id_spec base0 k) as Hspec.
    rewrite Hk in Hspec. destruct Hspec as (b & Hb & Hid & _).
    apply Hbase0 in Hb. split.
    - intros ->. apply (NoDup_lookup (id <$> official) j i (id s) Hnd).
      + rewrite list_lookup_fmap, Hb. cbn. by rewrite Hid.
      + by rewrite list_lookup_fmap, Hi.
    - intros ->. rewrite Hi in Hb. injection Hb as ->. done. }
  assert (Hfound : is_Some (VirtualTimetable.index_by_id base0 !! id s)).
  { pose proof (index_by_id_spec base0 (id s)) as Hspec.
    destruct (VirtualTimetable.index_by_id base0 !! id s); [done|].
    exfalso. apply (Hspec (mkBase s None None)); [|done].
    subst base0. change (map ?f ?l) with (f <$> l).
    apply list_elem_of_fmap. exists s. split; [done|].
    by eapply list_elem_of_lookup_2. }
  induction reqs as [|r reqs IH] using rev_ind.
  - cbn. fold base0. change (base0 !! i = Some (mkBase s None None)).
    subst base0. change (map ?f ?l) with (f <$> l).
    by rewrite list_lookup_fmap, Hi.
  - rewrite buildVirtual_snoc, filter_app, filter_bool_cons, filter_nil.
    fold base0.
    destruct (VirtualTimetable.buildVirtualFromRequests official (Some reqs))
      as [base extra] eqn:Hb.
    destruct (reconcile_request_step (VirtualTimetable.index_by_id base0)
                                     base extra r)
      as (base' & ghosts & Hstep & _ & _ & Ht).
    rewrite Hstep. cbn [fst snd] in *. subst base'.
    destruct (tags_session s r) eqn:Etag.
    + rewrite last_snoc. apply tags_session_true in Etag as [[st Hst] Hsid].
      rewrite Hst. unfold VirtualTimetable.tag. rewrite Hsid.
      destruct Hfound as [j Hj]. rewrite Hj.
      assert (j = i) as -> by (by apply (Hby (id s))).
      rewrite list_lookup_alter_eq, IH. by destruct (last _).
    + rewrite app_nil_r.
      destruct (tag_of r) as [st|] eqn:Hst; [|exact IH].
      unfold VirtualTimetable.tag.
      destruct (VirtualTimetable.index_by_id base0 !! request_session r)
        as [j|] eqn:Hj; [|exact IH].
      rewrite list_lookup_alter_ne; [exact IH|].
      intros ->. apply Hby in Hj.
      assert (tags_session s r = true); [|congruence].
      apply tags_session_true. split; [by rewrite Hst|]. by apply Hj.
Qed.

Lemma base_tag_is_the_last_request_witness :
  (VirtualTimetable.buildVirtualFromRequests
     [Sample.S1; Sample.S2]
     (Some [Sample.change_room_request; Sample.move_request])).1 !! 0%nat
  = Some match last (filter (fun r => tags_session Sample.S1 r)
                            (JS.nullish
                               (Some [Sample.change_room_request;
                                      Sample.move_request]) [])) with
         | Some r => mkBase Sample.S1 (tag_of r) (request_id r)
         | None => mkBase Sample.S1 None None
         end.
Proof.
  apply (base_tag_is_the_last_request
           [Sample.S1; Sample.S2]
           (Some [Sample.change_room_request; Sample.move_request])
           0%nat Sample.S1).
  - cbn. apply NoDup_cons. split; [|apply NoDup_singleton].
    intros H. apply list_elem_of_singleton in H. discriminate H.
  - reflexivity.
Defined.

(* ===================================================================== *)
(** * The cells of the grid *)
(* ===================================================================== *)

Lemma push_session_cell (result : gmap string (gmap Z (list Session)))
      (s : Session) (d : string) (c : Z) :
  (ScheduleGrid.push_session result s !! d) ≫= (fun row => row !! c)
  = match (result !! d) ≫= (fun row => row !! c) with
    | Some xs =>
        Some (if JS.str_eq (jour s) d && JS.num_eq (creneau s) c
              then xs ++ [s] else xs)
    | None => None
    end.
Proof.
  unfold ScheduleGrid.push_session.
  destruct (JS.str_eq (jour s) d) eqn:Ed;
    [apply str_eq_true in Ed as <-|apply str_eq_false in Ed].
  - destruct (result !! jour s) as [row|] eqn:Hrow; [|by rewrite Hrow].
    destruct (JS.num_eq (creneau s) c) eqn:Ec.
    + apply num_eq_true in Ec as <-.
      destruct (row !! creneau s) as [cell|] eqn:Hcell.
      * rewrite lookup_insert_eq. cbn [mbind option_bind].
        by rewrite lookup_insert_eq, Hcell.
      * rewrite Hrow. cbn [mbind option_bind]. by rewrite Hcell.
    + assert (creneau s <> c) as Hc.
      { intros Heq. apply num_eq_true in Heq. congruence. }
      destruct (row !! creneau s) as [cell|] eqn:Hcell.
      * rewrite lookup_insert_eq. cbn [mbind option_bind].
        rewrite lookup_insert_ne by done. by destruct (row !! c).
      * rewrite Hrow. cbn [mbind option_bind]. by destruct (row !! c).
  - cbn [andb].
    assert ((match result !! jour s with
             | Some row =>
                 match row !! creneau s with
                 | Some cell =>
                     <[jour s := <[creneau s := cell ++ [s]]> row]> result
                 | None => result
                 end
             | None => result
             end) !! d = result !! d) as ->.
    { destruct (result !! jour s) as [row|]; [|done].
      destruct (row !! creneau s); [|done]. by rewrite lookup_insert_ne. }
    by destruct (result !! d ≫= _).
Qed.

Lemma foldl_push_session_cell (sessions : list Session)
      (result : gmap string (gmap Z (list Session))) (d : string) (c : Z) :
  (foldl ScheduleGrid.push_session result sessions !! d)
    ≫= (fun row => row !! c)
  = match (result !! d) ≫= (fun row => row !! c) with
    | Some xs =>
        Some (xs ++ filter (fun s => JS.str_eq (jour s) d
                                     && JS.num_eq (creneau s) c) sessions)
    | None => None
    end.
Proof.
  revert result. induction sessions as [|s l IH]; intros result.
  - cbn. destruct (result !! d ≫= _); [|done]. by rewrite app_nil_r.
  - cbn [foldl]. rewrite IH, push_session_cell, filter_bool_cons.
    destruct (result !! d ≫= _); [|done].
    destruct (JS.str_eq (jour s) d && JS.num_eq (creneau s) c); [|done].
    by rewrite <- app_assoc.
Qed.

Lemma empty_cells_cell (d : string) (c : Z) :
  (ScheduleGrid.empty_cells !! d) ≫= (fun row => row !! c)
  = if bool_decide (d ∈ ScheduleGrid.days /\ 1 <= c <= 4) then Some [] else None.
Proof.
  unfold ScheduleGrid.empty_cells, ScheduleGrid.days, ScheduleGrid.timeSlots.
  cbn [foldl fst].
  set (row := (<[4 := []]> (<[3 := []]> (<[2 := []]> (<[1 := []]> ∅)))
               : gmap Z (list Session))).
  assert (Hrow : row !! c = if bool_decide (1 <= c <= 4) then Some [] else None).
  { subst row.
    destruct (decide (c = 4)) as [->|?]; [by rewrite lookup_insert_eq|].
    rewrite lookup_insert_ne by done.
    destruct (decide (c = 3)) as [->|?]; [by rewrite lookup_insert_eq|].
    rewrite lookup_insert_ne by done.
    destruct (decide (c = 2)) as [->|?]; [by rewrite lookup_insert_eq|].
    rewrite lookup_insert_ne by done.
    destruct (decide (c = 1)) as [->|?]; [by rewrite lookup_insert_eq|].
    rewrite lookup_insert_ne by done. rewrite lookup_empty.
    by rewrite bool_decide_eq_false_2 by lia. }
  set (cells := (<["samedi" := row]> (<["vendredi" := row]> (<["jeudi" := row]>
                  (<["mercredi" := row]> (<["mardi" := row]>
                    (<["lundi" := row]>
                       (∅ : gmap string (gmap Z (list Session)))))))))).
  assert (Hmap :
            cells !! d
            = if bool_decide
                   (d ∈ ["lundi"; "mardi"; "mercredi"; "jeudi"; "vendredi";
                         "samedi"])
              then Some row else None).
  { subst cells.
    destruct (decide (d = "samedi")) as [->|?]; [by rewrite lookup_insert_eq|].
    rewrite lookup_insert_ne by done.
    destruct (decide (d = "vendredi")) as [->|?]; [by rewrite lookup_insert_eq|].
    rewrite lookup_insert_ne by done.
    destruct (decide (d = "jeudi")) as [->|?]; [by rewrite lookup_insert_eq|].
    rewrite lookup_insert_ne by done.
    destruct (decide (d = "mercredi")) as [->|?]; [by rewrite lookup_insert_eq|].
    rewrite lookup_insert_ne by done.
    destruct (decide (d = "mardi")) as [->|?]; [by rewrite lookup_insert_eq|].
    rewrite lookup_insert_ne by done.
    destruct (decide (d = "lundi")) as [->|?]; [by rewrite lookup_insert_eq|].
    rewrite lookup_insert_ne by done. rewrite lookup_empty.
    rewrite bool_decide_eq_false_2; [done|].
    rewrite !elem_of_cons, elem_of_nil. intuition congruence. }
  rewrite Hmap.
  destruct (bool_decide (d ∈ _)) eqn:Hd; cbn [mbind option_bind].
  - rewrite Hrow. apply bool_decide_eq_true in Hd.
    destruct (bool_decide (1 <= c <= 4)) eqn:Hc.
    + apply bool_decide_eq_true in Hc. by rewrite bool_decide_eq_true_2.
    + apply bool_decide_eq_false in Hc. rewrite bool_decide_eq_false_2; [done|].
      tauto.
  - apply bool_decide_eq_false in Hd. rewrite bool_decide_eq_false_2; [done|].
    tauto.
Qed.

(** X26. The cells of the grid: [sessionsByCell[day][slot]] is there
    exactly for the six days and the four slots of the grid, and holds the
    sessions of that day and slot, in the order of the list.  A session whose
    day or slot is not of the grid is in no cell. *)
Theorem sessionsByCell_groups_by_cell sessions (d : string) (c : Z) :
  ScheduleGrid.cellSessions sessions d c
  = if bool_decide (d ∈ ScheduleGrid.days /\ 1 <= c <= 4)
    then Some (filter (fun s => JS.str_eq (jour s) d
                                && JS.num_eq (creneau s) c) sessions)
    else None.
Proof.
  unfold ScheduleGrid.cellSessions, ScheduleGrid.sessionsByCell.
  pose proof (foldl_push_session_cell sessions ScheduleGrid.empty_cells d c)
    as H.
  rewrite empty_cells_cell in H.
  destruct (foldl ScheduleGrid.push_session ScheduleGrid.empty_cells sessions !! d);
    cbn in H; rewrite H; by case_bool_decide.
Qed.

(* ===================================================================== *)
(** * The room the prompt preselects *)
(* ===================================================================== *)

(** X27. The room the prompt preselects is one of the available rooms, or
    the empty string when there is none; it is the preferred room when that one is
    available and not empty, and the first available room when the preferred
    room is not available. *)
Theorem initial_room_is_an_available_room rooms (preferred : option string) :
  (ChooseRoomModal.initial rooms preferred ∈ rooms
   \/ (rooms = [] /\ ChooseRoomModal.initial rooms preferred = ""))
  /\ (forall p, preferred = Some p -> p <> "" -> p ∈ rooms ->
                ChooseRoomModal.initial rooms preferred = p)
  /\ (forall r rest, rooms = r :: rest ->
                     (forall p, preferred = Some p -> p ∉ rooms) ->
                     ChooseRoomModal.initial rooms preferred = r).
Proof.
  unfold ChooseRoomModal.initial. destruct rooms as [|r rest].
  - split; [by right|]. split; [|done].
    intros p _ _ Hp. by apply elem_of_nil in Hp.
  - split; [left|split].
    + destruct preferred as [[|a p]|]; try left.
      destruct (JS.includes (r :: rest) (String a p)) eqn:E; [|left].
      by apply includes_true in E.
    + intros p -> Hne Hp. destruct p as [|a p]; [done|].
      apply includes_true in Hp. by rewrite Hp.
    + intros r' rest' [= <- <-] Hp.
      destruct preferred as [[|a p]|]; try done.
      destruct (JS.includes (r :: rest) (String a p)) eqn:E; [|done].
      apply includes_true in E. by destruct (Hp (String a p)).
Qed.
